(** * TraversabilityMap: a shallow embedding of
      traversability_estimation/src/TraversabilityMap.cpp

    The C++ class [TraversabilityMap] keeps a layered grid
    ([grid_map::GridMap]) and answers point, polygon and path queries on
    it, memoising per-cell results in the [*_footprint] layers.  The
    methods are embedded as functions on an explicit object state; a
    method that can throw [std::out_of_range] (a lookup in a layer that
    does not exist) returns [option], with [None] for the exception.

    Numbers.  Cell values are floats and scores are doubles.  Both are
    modelled by [double]: a rational, or [NaN] for a value that is not
    finite.  The arithmetic of the scores is exact.  Rounding is
    modelled where the code turns a rounded value into something
    discrete or stores it: the window radius and the critical numbers of
    the slope and roughness checks, which are computed in double
    arithmetic and floored ([round_double] after every operation), and
    the assignment of a computed double to a cell (the score that the
    disc query caches, the terrain cost), which narrows it to a float
    ([static_cast_float]).  The model has no infinities: a division by
    zero and an overflow of the narrowing yield [NaN].  The code observes
    non-finite values only through [std::isfinite] and comparisons, which
    are all false on [NaN] except [!=].

    Left out.  The recursive mutexes (the embedding is sequential), the
    publishers, the log messages, and the frame id and time stamp of the
    polygons, which are only published.  The overloads of [isTraversable]
    have names of their own: [isTraversable] and [isTraversable4] for the
    disc, [isTraversablePolygon] and [isTraversablePolygon2] for the
    polygon. *)

From Stdlib Require Import QArith Qabs Qround ZArith Lia.
From stdpp Require Import base option gmap strings list functions.

Local Open Scope Z_scope.

(** Sequencing of calls that can throw: the first exception ends the
    computation. *)
Notation "'let?' x ':=' e 'in' k" :=
  (match e with Some x => k | None => None end)
  (at level 10, x pattern, e at level 200, k at level 200,
   format "'[' 'let?'  x  ':='  e  'in' ']' '//' k").

(** ** Doubles *)

Inductive double : Type :=
  | NaN : double
  | Fin (q : Q) : double.

Definition fadd (a b : double) : double :=
  match a, b with Fin x, Fin y => Fin (x + y) | _, _ => NaN end.

Definition fsub (a b : double) : double :=
  match a, b with Fin x, Fin y => Fin (x - y) | _, _ => NaN end.

Definition fmul (a b : double) : double :=
  match a, b with Fin x, Fin y => Fin (x * y) | _, _ => NaN end.

Definition fdiv (a b : double) : double :=
  match a, b with
  | Fin x, Fin y => if Qeq_bool y 0 then NaN else Fin (x / y)
  | _, _ => NaN
  end.

(** [a == b] *)
Definition feqb (a b : double) : bool :=
  match a, b with Fin x, Fin y => Qeq_bool x y | _, _ => false end.

(** [a != b] *)
Definition fneb (a b : double) : bool := negb (feqb a b).

(** [a <= b] *)
Definition fleb (a b : double) : bool :=
  match a, b with Fin x, Fin y => Qle_bool x y | _, _ => false end.

(** [a < b] *)
Definition fltb (a b : double) : bool :=
  match a, b with Fin x, Fin y => negb (Qle_bool y x) | _, _ => false end.

(** [std::max(a, b)], that is [(a < b) ? b : a]. *)
Definition fmax (a b : double) : double := if fltb a b then b else a.

(** [std::isfinite] *)
Definition isfinite (a : double) : bool :=
  match a with Fin _ => true | NaN => false end.

(** [(double)n] for an [int] *)
Definition of_int (n : Z) : double := Fin (inject_Z n).

(** Same value: both [NaN], or equal rationals. *)
Definition same_value (a b : double) : Prop :=
  match a, b with
  | NaN, NaN => True
  | Fin x, Fin y => (x == y)%Q
  | _, _ => False
  end.

Definition zero : double := Fin 0.
Definition one : double := Fin 1.

(** *** Rounding *)

(** [p / q] rounded to the nearest integer, a tie to the even one
    ([q] positive, [p] not negative). *)
Definition roundHalfEven (p q : Z) : Z :=
  let f := p / q in
  let r := p mod q in
  match 2 * r ?= q with
  | Lt => f
  | Gt => f + 1
  | Eq => if Z.even f then f else f + 1
  end.

(** The rational [x] rounded to the nearest binary floating-point number
    with [prec] bits of precision and smallest exponent [emin] (round to
    nearest, ties to even, gradual underflow; the exponent is not
    bounded from above). *)
Definition roundBinary (prec emin : Z) (x : Q) : Q :=
  let n := Qnum x in
  let d := Z.pos (Qden x) in
  if n =? 0 then 0%Q
  else
    let a := Z.abs n in
    let k0 := Z.log2 a - Z.log2 d in
    let k := if (if 0 <=? k0 then d * 2 ^ k0 <=? a else d <=? a * 2 ^ (- k0))
             then k0 else k0 - 1 in
    let e := Z.max (k - prec + 1) emin in
    let m := if 0 <=? e then roundHalfEven a (d * 2 ^ e)
             else roundHalfEven (a * 2 ^ (- e)) d in
    Qred (inject_Z (Z.sgn n * m)
          * (if 0 <=? e then inject_Z (2 ^ e) else 1 # Z.to_pos (2 ^ (- e)))).

(** The nearest IEEE 754 binary64 number.  A member or a local of type
    double holds such a number; a rational that is not one is read as
    the nearest. *)
Definition round_double (x : Q) : Q := roundBinary 53 (-1074) x.

(** [a * b] and [a / b] on doubles: the exact result, rounded. *)
Definition dmul (a b : Q) : Q := round_double (a * b).
Definition ddiv (a b : Q) : Q := round_double (a / b).

(** [static_cast<float>(a)] for a double [a], and the implicit
    conversion of a double that is assigned to a cell: the nearest
    binary32 number; a value beyond the largest float overflows. *)
Definition static_cast_float (a : double) : double :=
  match a with
  | NaN => NaN
  | Fin x =>
      let y := roundBinary 24 (-149) (round_double x) in
      if Qle_bool (inject_Z (2 ^ 128)) (Qabs y) then NaN else Fin y
  end.

Arguments roundBinary : simpl never.
Arguments round_double : simpl never.
Arguments dmul : simpl never.
Arguments ddiv : simpl never.
Arguments static_cast_float : simpl never.

(** ** The grid (grid_map::GridMap) *)

(** [grid_map::Index] (Eigen::Array2i) and [grid_map::Position]
    (Eigen::Vector2d). *)
Definition Index : Type := Z * Z.
Definition Position : Type := Q * Q.

Definition vadd (a b : Position) : Position := ((a.1 + b.1)%Q, (a.2 + b.2)%Q).
Definition vsub (a b : Position) : Position := ((a.1 - b.1)%Q, (a.2 - b.2)%Q).
Definition dot (a b : Position) : Q := (a.1 * b.1 + a.2 * b.2)%Q.

(** [a == b] on Eigen vectors: every coefficient equal. *)
Definition Position_eqb (a b : Position) : bool :=
  Qeq_bool a.1 b.1 && Qeq_bool a.2 b.2.

(** [grid_map::Polygon]: its vertices.  The frame id and the time stamp of
    a polygon are only published, they are left out. *)
Definition Polygon : Type := list Position.

(** One layer: a matrix of cell values.  Iterators only yield indices of
    the grid, so the matrix is total here. *)
Abbreviation Matrix := (Index → double).

Record GridMap : Type := mkGridMap {
  frameId_ : string;
  resolution_ : Q;
  length_ : Q * Q;
  position_ : Position;
  size_ : Z * Z;
  data_ : gmap string Matrix;
}.

Definition setData (m : GridMap) (d : gmap string Matrix) : GridMap :=
  mkGridMap (frameId_ m) (resolution_ m) (length_ m) (position_ m) (size_ m) d.

(** [GridMap::exists(layer)] *)
Definition exists_ (m : GridMap) (layer : string) : bool :=
  bool_decide (is_Some (data_ m !! layer)).

(** [GridMap::at(layer, index)]; throws when the layer is missing. *)
Definition at_ (m : GridMap) (layer : string) (index : Index) : option double :=
  let? mat := data_ m !! layer in Some (mat index).

(** [GridMap::at(layer, index) = value] *)
Definition setAt (m : GridMap) (layer : string) (index : Index) (value : double)
  : option GridMap :=
  let? mat := data_ m !! layer in
  Some (setData m (<[layer := <[index := value]> mat]> (data_ m))).

(** [GridMap::isValid(index, layer)]: the value is finite. *)
Definition isValid (m : GridMap) (index : Index) (layer : string) : option bool :=
  let? v := at_ m layer index in Some (isfinite v).

(** [GridMap::clear(layer)]: every cell of the layer becomes NaN. *)
Definition clear (m : GridMap) (layer : string) : option GridMap :=
  let? _ := data_ m !! layer in
  Some (setData m (<[layer := λ _, NaN]> (data_ m))).

(** [GridMap::add(layer)]: a layer of NaN, replacing one of that name. *)
Definition add (m : GridMap) (layer : string) : GridMap :=
  setData m (<[layer := λ _, NaN]> (data_ m)).

(** A pose of a path: position and orientation quaternion. *)
Record Pose : Type := mkPose {
  pose_position : Q * Q * Q;
  pose_orientation : Q * Q * Q * Q;
}.

Definition Point32 : Type := Q * Q * Q.

(** The geometry of grid_map_core and Eigen that the class calls: the
    conversion between positions and indices, the cell sequences of the
    iterators, and the polygon operations.  They are not part of this
    file's source; every method below is stated for an arbitrary
    implementation of this interface.  An iterator is the list of cells
    it yields, computed from the geometry of the map when the iterator is
    constructed; the spiral iterator yields each cell with
    [getCurrentRadius()].  The two laws say that whether a position lies
    on the map, and in which cell, depends on the geometry of the map and
    not on the values of its cells. *)
Class GridMapCore : Type := {
  isInside : GridMap → Position → bool;
  getIndex : GridMap → Position → Index;
  getPosition : GridMap → Index → Position;
  getSubmap : GridMap → Position → Q * Q → GridMap * bool;
  GridMapIterator : GridMap → list Index;
  LineIterator : GridMap → Index → Index → list Index;
  CircleIterator : GridMap → Position → Q → list Index;
  SpiralIterator : GridMap → Position → double → list (Index * double);
  PolygonIterator : GridMap → Polygon → list Index;
  norm : Q * Q → Q;
  fromCircle : Position → double → Polygon;
  convexHull : Polygon → Polygon → Polygon;
  monotoneChainConvexHullOfPoints : list Position → Polygon;
  getArea : Polygon → double;
  transformVertex : Pose → Point32 → Position;
  isInside_setData : ∀ m d p, isInside (setData m d) p = isInside m p;
  getIndex_setData : ∀ m d p, getIndex (setData m d) p = getIndex m p;
}.

(** [GridMap::atPosition(layer, position)]; throws when the position is
    outside the map. *)
Definition atPosition {G : GridMapCore} (m : GridMap) (layer : string) (p : Position)
  : option double :=
  if isInside m p then at_ m layer (getIndex m p) else None.

(** ** The object state *)

Record TraversabilityMap : Type := mkTraversabilityMap {
  mapFrameId_ : string;
  zPosition_ : double;
  elevationMapLayers_ : list string;
  traversabilityMapLayers_ : list string;
  elevationMap_ : GridMap;
  traversabilityMap_ : GridMap;
  elevationMapInitialized_ : bool;
  traversabilityMapInitialized_ : bool;
  traversabilityDefault_ : double;
  checkForRoughness_ : bool;
  checkRobotInclination_ : bool;
  maxGapWidth_ : Q;
  criticalStepHeight_ : Q;
}.

Definition traversabilityType_ : string := "traversability".
Definition slopeType_ : string := "traversability_slope".
Definition stepType_ : string := "traversability_step".
Definition roughnessType_ : string := "traversability_roughness".
Definition robotSlopeType_ : string := "robot_slope".

(** Assignment to the member [traversabilityMap_]. *)
Definition setTraversabilityMap_ (self : TraversabilityMap) (m : GridMap)
  : TraversabilityMap :=
  mkTraversabilityMap (mapFrameId_ self) (zPosition_ self)
    (elevationMapLayers_ self) (traversabilityMapLayers_ self)
    (elevationMap_ self) m
    (elevationMapInitialized_ self) (traversabilityMapInitialized_ self)
    (traversabilityDefault_ self) (checkForRoughness_ self)
    (checkRobotInclination_ self) (maxGapWidth_ self) (criticalStepHeight_ self).

(** Assignment to the member [zPosition_]. *)
Definition setZPosition_ (self : TraversabilityMap) (z : double)
  : TraversabilityMap :=
  mkTraversabilityMap (mapFrameId_ self) z
    (elevationMapLayers_ self) (traversabilityMapLayers_ self)
    (elevationMap_ self) (traversabilityMap_ self)
    (elevationMapInitialized_ self) (traversabilityMapInitialized_ self)
    (traversabilityDefault_ self) (checkForRoughness_ self)
    (checkRobotInclination_ self) (maxGapWidth_ self) (criticalStepHeight_ self).

(** [elevationMap_ = m; elevationMapInitialized_ = true;] *)
Definition installElevationMap (self : TraversabilityMap) (m : GridMap)
  : TraversabilityMap :=
  mkTraversabilityMap (mapFrameId_ self) (zPosition_ self)
    (elevationMapLayers_ self) (traversabilityMapLayers_ self)
    m (traversabilityMap_ self)
    true (traversabilityMapInitialized_ self)
    (traversabilityDefault_ self) (checkForRoughness_ self)
    (checkRobotInclination_ self) (maxGapWidth_ self) (criticalStepHeight_ self).

(** [traversabilityMap_ = m; traversabilityMapInitialized_ = true;] *)
Definition installTraversabilityMap (self : TraversabilityMap) (m : GridMap)
  : TraversabilityMap :=
  mkTraversabilityMap (mapFrameId_ self) (zPosition_ self)
    (elevationMapLayers_ self) (traversabilityMapLayers_ self)
    (elevationMap_ self) m
    (elevationMapInitialized_ self) true
    (traversabilityDefault_ self) (checkForRoughness_ self)
    (checkRobotInclination_ self) (maxGapWidth_ self) (criticalStepHeight_ self).

(** ** Setting the maps *)

(** A [grid_map_msgs::GridMap] message: the frame id and the height of
    its header, and the grid that [GridMapRosConverter::fromMessage]
    builds from it. *)
Record GridMapMsg : Type := mkGridMapMsg {
  msg_frame_id : string;
  msg_position_z : double;
  msg_map : GridMap;
}.

Definition getMapFrameId (self : TraversabilityMap) : string := mapFrameId_ self.

(** The loop over the required layers: the first missing one rejects. *)
Fixpoint allLayersExist (m : GridMap) (layers : list string) : bool :=
  match layers with
  | [] => true
  | layer :: rest => if negb (exists_ m layer) then false else allLayersExist m rest
  end.

Definition setElevationMap (self : TraversabilityMap) (msg : GridMapMsg)
  : bool * TraversabilityMap :=
  if negb (String.eqb (getMapFrameId self) (msg_frame_id msg)) then (false, self)
  else
    let elevationMap := msg_map msg in
    let self := setZPosition_ self (msg_position_z msg) in
    if allLayersExist elevationMap (elevationMapLayers_ self)
    then (true, installElevationMap self elevationMap)
    else (false, self).

Definition setTraversabilityMap (self : TraversabilityMap) (msg : GridMapMsg)
  : bool * TraversabilityMap :=
  let traversabilityMap := msg_map msg in
  let self := setZPosition_ self (msg_position_z msg) in
  if allLayersExist traversabilityMap (traversabilityMapLayers_ self)
  then (true, installTraversabilityMap self traversabilityMap)
  else (false, self).

(** ** Resetting the footprint caches *)

Definition clearIfExists (m : GridMap) (layer : string) : option GridMap :=
  if exists_ m layer then clear m layer else Some m.

Definition resetTraversabilityFootprintLayers (self : TraversabilityMap)
  : option TraversabilityMap :=
  let? m := clearIfExists (traversabilityMap_ self) "step_footprint" in
  let? m := clearIfExists m "slope_footprint" in
  let? m := clearIfExists m "traversability_footprint" in
  Some (setTraversabilityMap_ self m).

(** ** The per-cell admissibility checks *)

Definition Qltb (x y : Q) : bool := negb (Qle_bool y x).

Section Methods.
Context {G : GridMapCore}.

(** The circle loop of [checkForSlope] and [checkForRoughness]: count the
    cells whose base value is 0.0; [true] as soon as the count exceeds the
    critical number. *)
Fixpoint circleCountExceeds (m : GridMap) (layer : string) (nCritical : Z)
    (cells : list Index) (n : Z) : option bool :=
  match cells with
  | [] => Some false
  | c :: rest =>
      let? v := at_ m layer c in
      let n := if feqb v zero then n + 1 else n in
      if nCritical <? n then Some true
      else circleCountExceeds m layer nCritical rest n
  end.

(** [checkForSlope(index)].  The window radius, the critical length and
    the critical number are computed in double arithmetic, as the code
    computes them; [pow(r, 2)] is [r * r], rounded.  For a resolution of
    0.0 the code converts a value that is not finite to [int], which is
    undefined; the critical number is 0 here. *)
Definition checkForSlope (self : TraversabilityMap) (index : Index)
  : option (bool * TraversabilityMap) :=
  let m := traversabilityMap_ self in
  let? v := at_ m slopeType_ index in
  if feqb v zero then
    let? valid := isValid m index "slope_footprint" in
    if negb valid then
      let resolution := round_double (resolution_ m) in
      let windowRadius := dmul 3 resolution in
      let criticalLength := ddiv (round_double (maxGapWidth_ self)) 3 in
      let nSlopesCritical :=
        Qfloor (ddiv (dmul (dmul 2 windowRadius) criticalLength)
                     (dmul resolution resolution)) in
      let center := getPosition m index in
      let? exceeded := circleCountExceeds m slopeType_ nSlopesCritical
                   (CircleIterator m center windowRadius) 0 in
      if exceeded then
        let? m := setAt m "slope_footprint" index zero in
        Some (false, setTraversabilityMap_ self m)
      else
        let? m := setAt m "slope_footprint" index one in
        Some (true, setTraversabilityMap_ self m)
    else
      let? c := at_ m "slope_footprint" index in
      if feqb c zero then Some (false, self) else Some (true, self)
  else Some (true, self).

(** [checkForRoughness(index)], with the factor 1.5 in place of 2. *)
Definition checkForRoughness (self : TraversabilityMap) (index : Index)
  : option (bool * TraversabilityMap) :=
  let m := traversabilityMap_ self in
  let? v := at_ m roughnessType_ index in
  if feqb v zero then
    let? valid := isValid m index "roughness_footprint" in
    if negb valid then
      let resolution := round_double (resolution_ m) in
      let windowRadius := dmul 3 resolution in
      let criticalLength := ddiv (round_double (maxGapWidth_ self)) 3 in
      let nRoughnessCritical :=
        Qfloor (ddiv (dmul (dmul (3 # 2) windowRadius) criticalLength)
                     (dmul resolution resolution)) in
      let center := getPosition m index in
      let? exceeded := circleCountExceeds m roughnessType_ nRoughnessCritical
                   (CircleIterator m center windowRadius) 0 in
      if exceeded then
        let? m := setAt m "roughness_footprint" index zero in
        Some (false, setTraversabilityMap_ self m)
      else
        let? m := setAt m "roughness_footprint" index one in
        Some (true, setTraversabilityMap_ self m)
    else
      let? c := at_ m "roughness_footprint" index in
      if feqb c zero then Some (false, self) else Some (true, self)
  else Some (true, self).

(** *** The step check *)

(** The cells of the window that are higher than the query cell by more
    than the critical step height and have step value 0.0. *)
Fixpoint stepCandidates (m : GridMap) (criticalStepHeight : Q) (height : double)
    (cells : list Index) : option (list Index) :=
  match cells with
  | [] => Some []
  | c :: rest =>
      let? e := at_ m "elevation" c in
      let? keep := (if fltb (fadd (Fin criticalStepHeight) height) e
              then let? s := at_ m stepType_ c in Some (feqb s zero)
              else Some false) in
      let? tl := stepCandidates m criticalStepHeight height rest in
      Some (if keep then c :: tl else tl)
  end.

(** [while ((pos - subMapPos + vec).norm() < maxGapWidth_ &&
    isInside(pos + vec)) pos += vec;]  The loop runs at most [fuel]
    times. *)
Fixpoint extendGap (fuel : nat) (m : GridMap) (maxGapWidth : Q)
    (subMapPos vec pos : Position) : Position :=
  match fuel with
  | O => pos
  | S fuel =>
      if Qltb (norm (vadd (vsub pos subMapPos) vec)) maxGapWidth
         && isInside m (vadd pos vec)
      then extendGap fuel m maxGapWidth subMapPos vec (vadd pos vec)
      else pos
  end.

(** The loop is entered with [vec.norm() >= 0.025] and tests the norm of
    the multiples 2 vec, 3 vec, ... against [maxGapWidth_]; for the
    Euclidean norm it leaves after at most maxGapWidth_ / 0.025 rounds. *)
Definition gapFuel (maxGapWidth : Q) : nat :=
  Z.to_nat (Qceiling (maxGapWidth / (1 # 40))).

(** What the trace along one line found. *)
Inductive Trace : Type :=
  | Wall : Trace
  | Gap (gapStart gapEnd : bool) : Trace.

Fixpoint traceLine (m : GridMap) (criticalStepHeight : Q) (height : double)
    (cells : list Index) (gapStart : bool) : option Trace :=
  match cells with
  | [] => Some (Gap gapStart false)
  | l :: rest =>
      let? e := at_ m "elevation" l in
      if fltb (fadd height (Fin criticalStepHeight)) e then Some Wall
      else if fltb e (fsub height (Fin criticalStepHeight)) || negb (isfinite e)
      then traceLine m criticalStepHeight height rest true
      else if gapStart then Some (Gap true true)
      else traceLine m criticalStepHeight height rest gapStart
  end.

(** One cell of the submap around a candidate; [true] when it makes the
    query cell fail. *)
Definition stepProbe (self : TraversabilityMap) (subMap : GridMap)
    (center subMapPos : Position) (index : Index) (height : double)
    (it : Index) : option bool :=
  let m := traversabilityMap_ self in
  let crit := criticalStepHeight_ self in
  let? s := at_ subMap stepType_ it in
  let? lower := (if feqb s zero
           then let? e := at_ subMap "elevation" it in
                Some (fltb e (fsub height (Fin crit)))
           else Some false) in
  if lower then
    let toCenter := vsub center subMapPos in
    let pos := getPosition subMap it in
    let vec := vsub pos subMapPos in
    if Qltb (norm vec) (1 # 40) then Some false
    else if Qltb (1 # 40) (norm toCenter) && Qltb (dot toCenter vec) 0 then Some false
    else
      let pos := vadd subMapPos vec in
      let pos := extendGap (gapFuel (maxGapWidth_ self)) m (maxGapWidth_ self)
                   subMapPos vec pos in
      let endIndex := getIndex m pos in
      let? t := traceLine m crit height (LineIterator m index endIndex) false in
      match t with
      | Wall => Some true
      | Gap gapStart gapEnd => Some (gapStart && negb gapEnd)
      end
  else Some false.

Fixpoint stepSubmapLoop (self : TraversabilityMap) (subMap : GridMap)
    (center subMapPos : Position) (index : Index) (height : double)
    (cells : list Index) : option bool :=
  match cells with
  | [] => Some false
  | it :: rest =>
      let? bad := stepProbe self subMap center subMapPos index height it in
      if bad then Some true
      else stepSubmapLoop self subMap center subMapPos index height rest
  end.

Fixpoint stepIndicesLoop (self : TraversabilityMap) (center : Position)
    (indices : list Index) : option bool :=
  match indices with
  | [] => Some false
  | index :: rest =>
      let m := traversabilityMap_ self in
      let subMapLength := ((5 # 2) * resolution_ m, (5 # 2) * resolution_ m)%Q in
      let subMapPos := getPosition m index in
      let '(subMap, isSuccess) := getSubmap m subMapPos subMapLength in
      if negb isSuccess then Some true
      else
        let? height := at_ m "elevation" index in
        let? bad := stepSubmapLoop self subMap center subMapPos index height
                (GridMapIterator subMap) in
        if bad then Some true else stepIndicesLoop self center rest
  end.

Definition checkForStep (self : TraversabilityMap) (indexStep : Index)
  : option (bool * TraversabilityMap) :=
  let m := traversabilityMap_ self in
  let? v := at_ m stepType_ indexStep in
  if feqb v zero then
    let? valid := isValid m indexStep "step_footprint" in
    if negb valid then
      let windowRadiusStep := ((5 # 2) * resolution_ m)%Q in
      let center := getPosition m indexStep in
      let? height := at_ m "elevation" indexStep in
      let? indices := stepCandidates m (criticalStepHeight_ self) height
                  (CircleIterator m center windowRadiusStep) in
      let indices := match indices with [] => [indexStep] | _ => indices end in
      let? bad := stepIndicesLoop self center indices in
      if bad then
        let? m := setAt m "step_footprint" indexStep zero in
        Some (false, setTraversabilityMap_ self m)
      else
        let? m := setAt m "step_footprint" indexStep one in
        Some (true, setTraversabilityMap_ self m)
    else
      let? c := at_ m "step_footprint" indexStep in
      if feqb c zero then Some (false, self) else Some (true, self)
  else Some (true, self).

Definition isTraversableForFilters (self : TraversabilityMap) (indexStep : Index)
  : option (bool * TraversabilityMap) :=
  let? (okSlope, self) := checkForSlope self indexStep in
  if okSlope then
    let? (okStep, self) := checkForStep self indexStep in
    if okStep then
      if checkForRoughness_ self then
        let? (okRoughness, self) := checkForRoughness self indexStep in
        if negb okRoughness then Some (false, self) else Some (true, self)
      else Some (true, self)
    else Some (false, self)
  else Some (false, self).

(** ** The point/disc query *)

(** How a loop body ends: it falls through to the next iteration, or the
    enclosing method returns. *)
Inductive Flow (S : Type) : Type :=
  | Next (s : S) : Flow S
  | Return (b : bool) (s : S) : Flow S.
Arguments Next {S} s.
Arguments Return {S} b s.

(** The locals of the spiral search, with the object they update. *)
Record SpiralState : Type := mkSpiralState {
  nCells : Z;
  traversability : double;
  maxUntraversableRadius : double;
  circleIsTraversable : bool;
  traversableRadiusBiggerMinRadius : bool;
  untraversablePositions : list Position;
  spiralSelf : TraversabilityMap;
}.

(** [traversabilityMap_.at("traversability_footprint", indexCenter) = v]
    for a double [v]: the cell is a float, so the value is narrowed, by
    the [static_cast<float>] of the callers or by the conversion of the
    assignment. *)
Definition setTraversabilityFootprint (self : TraversabilityMap)
    (indexCenter : Index) (v : double) : option TraversabilityMap :=
  let? m := setAt (traversabilityMap_ self) "traversability_footprint" indexCenter
              (static_cast_float v) in
  Some (setTraversabilityMap_ self m).

(** The value an admissible cell adds to the running sum. *)
Definition cellTraversability (self : TraversabilityMap) (index : Index)
  : option double :=
  let m := traversabilityMap_ self in
  let? valid := isValid m index traversabilityType_ in
  if negb valid then Some (traversabilityDefault_ self)
  else at_ m traversabilityType_ index.

(** The blend factor [((r - radiusMin) / (radiusMax - radiusMin) + 1.0) / 2.0]. *)
Definition blendFactor (untraversableRadius radiusMin radiusMax : double) : double :=
  fdiv (fadd (fdiv (fsub untraversableRadius radiusMin) (fsub radiusMax radiusMin)) one)
       (Fin 2).

(** One round of the spiral loop, on the cell [cell.1] that the iterator
    yields with current radius [cell.2]. *)
Definition spiralBody (indexCenter : Index) (radiusMax radiusMin : double)
    (computeUntraversablePolygon : bool) (st : SpiralState)
    (cell : Index * double) : option (Flow SpiralState) :=
  let '(index, untraversableRadius) := cell in
  let? (currentPositionIsTraversale, self) :=
    isTraversableForFilters (spiralSelf st) index in
  if negb currentPositionIsTraversale then
    let maxUntraversableRadius :=
      fmax (maxUntraversableRadius st) untraversableRadius in
    let failed :=
      let? self := setTraversabilityFootprint self indexCenter zero in
      Some (mkSpiralState (nCells st) (traversability st) maxUntraversableRadius
              false (traversableRadiusBiggerMinRadius st)
              (untraversablePositions st
                 ++ [getPosition (traversabilityMap_ self) index])
              self) in
    let? st :=
      (if feqb radiusMin zero then failed
       else if fleb untraversableRadius radiusMin then failed
       else if circleIsTraversable st then
         let factor := blendFactor untraversableRadius radiusMin radiusMax in
         let traversability :=
           fmul (traversability st) (fdiv factor (of_int (nCells st))) in
         let? self := setTraversabilityFootprint self indexCenter traversability in
         Some (mkSpiralState (nCells st) traversability maxUntraversableRadius
                 true true (untraversablePositions st) self)
       else
         Some (mkSpiralState (nCells st) (traversability st) maxUntraversableRadius
                 (circleIsTraversable st) (traversableRadiusBiggerMinRadius st)
                 (untraversablePositions st) self)) in
    if negb computeUntraversablePolygon then Some (Return false st)
    else Some (Next st)
  else
    let? t := cellTraversability self index in
    Some (Next (mkSpiralState (nCells st + 1) (fadd (traversability st) t)
                  (maxUntraversableRadius st) (circleIsTraversable st)
                  (traversableRadiusBiggerMinRadius st)
                  (untraversablePositions st) self)).

(** [for (SpiralIterator iterator(...); !iterator.isPastEnd() &&
    !traversableRadiusBiggerMinRadius; ++iterator)] *)
Fixpoint spiralLoop (indexCenter : Index) (radiusMax radiusMin : double)
    (computeUntraversablePolygon : bool) (st : SpiralState)
    (cells : list (Index * double)) : option (Flow SpiralState) :=
  match cells with
  | [] => Some (Next st)
  | cell :: rest =>
      if traversableRadiusBiggerMinRadius st then Some (Next st)
      else
        let? r := spiralBody indexCenter radiusMax radiusMin
                    computeUntraversablePolygon st cell in
        match r with
        | Next st =>
            spiralLoop indexCenter radiusMax radiusMin
              computeUntraversablePolygon st rest
        | Return b st => Some (Return b st)
        end
  end.

(** What a query hands back: the returned boolean, the out-parameters
    [traversability] and [untraversablePolygon], and the object. *)
Record QueryResult : Type := mkQueryResult {
  returned : bool;
  traversabilityOut : double;
  untraversablePolygonOut : Polygon;
  selfOut : TraversabilityMap;
}.

(** [isTraversable(center, radiusMax, computeUntraversablePolygon,
    traversability, untraversablePolygon, radiusMin)] *)
Definition isTraversable (self : TraversabilityMap) (center : Position)
    (radiusMax : double) (computeUntraversablePolygon : bool)
    (radiusMin : double) : option QueryResult :=
  let m := traversabilityMap_ self in
  if negb (isInside m center) then
    let traversability := traversabilityDefault_ self in
    let circleIsTraversable := fneb traversability zero in
    Some (mkQueryResult circleIsTraversable traversability
            (if computeUntraversablePolygon && negb circleIsTraversable
             then fromCircle center radiusMax else [])
            self)
  else
    let indexCenter := getIndex m center in
    let? cached := isValid m indexCenter "traversability_footprint" in
    if cached then
      let? traversability := at_ m "traversability_footprint" indexCenter in
      let circleIsTraversable := fneb traversability zero in
      Some (mkQueryResult circleIsTraversable traversability
              (if computeUntraversablePolygon && negb circleIsTraversable
               then fromCircle center radiusMax else [])
              self)
    else
      let? r := spiralLoop indexCenter radiusMax radiusMin
                  computeUntraversablePolygon
                  (mkSpiralState 0 zero zero true false [] self)
                  (SpiralIterator m center radiusMax) in
      match r with
      | Return b st =>
          Some (mkQueryResult b (traversability st) [] (spiralSelf st))
      | Next st =>
          let untraversablePolygon :=
            if computeUntraversablePolygon && negb (circleIsTraversable st)
            then monotoneChainConvexHullOfPoints (untraversablePositions st)
            else [] in
          if circleIsTraversable st then
            let traversability := fdiv (traversability st) (of_int (nCells st)) in
            let? self := setTraversabilityFootprint (spiralSelf st) indexCenter
                           traversability in
            Some (mkQueryResult true traversability untraversablePolygon self)
          else
            Some (mkQueryResult false (traversability st) untraversablePolygon
                    (spiralSelf st))
      end.

(** [isTraversable(center, radiusMax, traversability, radiusMin)] *)
Definition isTraversable4 (self : TraversabilityMap) (center : Position)
    (radiusMax radiusMin : double) : option QueryResult :=
  isTraversable self center radiusMax false radiusMin.

(** ** The polygon query *)

Record PolygonState : Type := mkPolygonState {
  polygonCells : Z;
  polygonSum : double;
  polygonIsTraversable : bool;
  polygonPositions : list Position;
  polygonSelf : TraversabilityMap;
}.

Fixpoint polygonLoop (computeUntraversablePolygon : bool) (st : PolygonState)
    (cells : list Index) : option (Flow PolygonState) :=
  match cells with
  | [] => Some (Next st)
  | index :: rest =>
      let? (currentPositionIsTraversale, self) :=
        isTraversableForFilters (polygonSelf st) index in
      if negb currentPositionIsTraversale then
        if computeUntraversablePolygon then
          polygonLoop computeUntraversablePolygon
            (mkPolygonState (polygonCells st) (polygonSum st) false
               (polygonPositions st
                  ++ [getPosition (traversabilityMap_ self) index])
               self)
            rest
        else
          Some (Return false
                  (mkPolygonState (polygonCells st) (polygonSum st) false
                     (polygonPositions st) self))
      else
        let? t := cellTraversability self index in
        polygonLoop computeUntraversablePolygon
          (mkPolygonState (polygonCells st + 1) (fadd (polygonSum st) t)
             (polygonIsTraversable st) (polygonPositions st) self)
          rest
  end.

(** [isTraversable(polygon, computeUntraversablePolygon, traversability,
    untraversablePolygon)]; [untraversablePolygon] is the polygon the
    caller passes, it is written only when the hull is requested. *)
Definition isTraversablePolygon (self : TraversabilityMap) (polygon : Polygon)
    (computeUntraversablePolygon : bool) (untraversablePolygon : Polygon)
  : option QueryResult :=
  let? r := polygonLoop computeUntraversablePolygon
              (mkPolygonState 0 zero true [] self)
              (PolygonIterator (traversabilityMap_ self) polygon) in
  match r with
  | Return b st =>
      Some (mkQueryResult b (polygonSum st) untraversablePolygon (polygonSelf st))
  | Next st =>
      let self := polygonSelf st in
      let '(pathIsTraversable, traversability) :=
        if polygonIsTraversable st then
          if polygonCells st =? 0
          then (fneb (traversabilityDefault_ self) zero, traversabilityDefault_ self)
          else (true, fdiv (polygonSum st) (of_int (polygonCells st)))
        else (false, polygonSum st) in
      let untraversablePolygon :=
        if computeUntraversablePolygon then
          if pathIsTraversable then []
          else monotoneChainConvexHullOfPoints (polygonPositions st)
        else untraversablePolygon in
      Some (mkQueryResult pathIsTraversable traversability untraversablePolygon self)
  end.

(** [isTraversable(polygon, traversability)] *)
Definition isTraversablePolygon2 (self : TraversabilityMap) (polygon : Polygon)
  : option QueryResult :=
  isTraversablePolygon self polygon false [].

(** ** The inclination check *)

Fixpoint inclinationLine (m : GridMap) (cells : list Index) : option bool :=
  match cells with
  | [] => Some true
  | l :: rest =>
      let? valid := isValid m l robotSlopeType_ in
      if negb valid then inclinationLine m rest
      else
        let? v := at_ m robotSlopeType_ l in
        if feqb v zero then Some false else inclinationLine m rest
  end.

Definition checkInclination (self : TraversabilityMap) (start end_ : Position)
  : option bool :=
  let m := traversabilityMap_ self in
  if Position_eqb end_ start then
    let? v := atPosition m robotSlopeType_ start in
    if feqb v zero then Some false else Some true
  else
    let startIndex := getIndex m start in
    let endIndex := getIndex m end_ in
    inclinationLine m (LineIterator m startIndex endIndex).

(** ** Path queries *)

(** [traversability_msgs::FootprintPath]: the poses, and the footprint,
    a radius or the points of a polygon. *)
Record FootprintPath : Type := mkFootprintPath {
  poses : list Pose;
  radius : double;
  footprint : list Point32;
  conservative : bool;
  compute_untraversable_polygon : bool;
}.

(** [traversability_msgs::TraversabilityResult] *)
Record TraversabilityResult : Type := mkTraversabilityResult {
  is_safe : bool;
  result_traversability : double;
  result_area : double;
}.

(** What a path check hands back: the returned boolean, the out-parameter
    [result], and the object. *)
Record PathResult : Type := mkPathResult {
  checked : bool;
  resultOut : TraversabilityResult;
  pathSelfOut : TraversabilityMap;
}.

Definition posePosition2 (p : Pose) : Position :=
  ((pose_position p).1.1, (pose_position p).1.2).

(** The line iterator is stepped once by the [for] and [nSkip] more times
    by the inner loop: of the cells of the line, the loop body sees one
    and misses the next [nSkip]. *)
Fixpoint lineSamples (nSkip toSkip : nat) (cells : list Index) : list Index :=
  match cells with
  | [] => []
  | c :: rest =>
      match toSkip with
      | O => c :: lineSamples nSkip nSkip rest
      | S k => lineSamples nSkip k rest
      end
  end.

(** The locals of the loop along one segment. *)
Record LineState : Type := mkLineState {
  pathIsTraversable : bool;
  traversabilityTemp : double;
  traversabilitySum : double;
  nLine : Z;
  auxiliaryUntraversablePolygon : Polygon;
  lineUntraversablePolygon : Polygon;
  lineSelf : TraversabilityMap;
}.

Fixpoint lineLoop (radius : double) (offset : double)
    (computeUntraversablePolygon publishPolygons : bool) (st : LineState)
    (cells : list Index) : option (Flow LineState) :=
  match cells with
  | [] => Some (Next st)
  | cell :: rest =>
      let center := getPosition (traversabilityMap_ (lineSelf st)) cell in
      let? q :=
        (if pathIsTraversable st then
           isTraversable (lineSelf st) center (fadd radius offset)
             computeUntraversablePolygon radius
         else
           Some (mkQueryResult false (traversabilityTemp st)
                   (auxiliaryUntraversablePolygon st) (lineSelf st))) in
      let untraversablePolygon :=
        if publishPolygons && computeUntraversablePolygon
           && (0 <? Z.of_nat (length (untraversablePolygonOut q)))
        then convexHull (lineUntraversablePolygon st) (untraversablePolygonOut q)
        else lineUntraversablePolygon st in
      if negb (returned q) && negb computeUntraversablePolygon
         && negb publishPolygons
      then
        Some (Return true
                (mkLineState (returned q) (traversabilityOut q)
                   (traversabilitySum st) (nLine st)
                   (untraversablePolygonOut q) untraversablePolygon (selfOut q)))
      else
        lineLoop radius offset computeUntraversablePolygon publishPolygons
          (mkLineState (returned q) (traversabilityOut q)
             (fadd (traversabilitySum st) (traversabilityOut q)) (nLine st + 1)
             (untraversablePolygonOut q) untraversablePolygon (selfOut q))
          rest
  end.

(** The locals of the loop over the poses of a circular-footprint path. *)
Record CircularState : Type := mkCircularState {
  circularEnd : Position;
  circularResult : TraversabilityResult;
  circularUntraversablePolygon : Polygon;
  circularSelf : TraversabilityMap;
}.

Definition setResultTraversability (result : TraversabilityResult) (t : double)
  : TraversabilityResult :=
  mkTraversabilityResult (is_safe result) t (result_area result).

Definition setIsSafe (result : TraversabilityResult) (b : bool)
  : TraversabilityResult :=
  mkTraversabilityResult b (result_traversability result) (result_area result).

(** One round of the loop over the poses of [checkCircularFootprintPath].

    [lengthPath] is declared without an initialiser inside the body of
    the loop, so it is a new object in every round; a round with [i > 1]
    reads it before it writes it.  [lengthPath0] is the indeterminate
    value that this read yields. *)
Definition circularBody (lengthPath0 : double) (path : FootprintPath)
    (publishPolygons : bool) (arraySize i : nat) (st : CircularState)
    (pose : Pose) : option (Flow CircularState) :=
  let radius := radius path in
  let offset := Fin (3 # 20) in
  let computeUntraversablePolygon := compute_untraversable_polygon path in
  let start := circularEnd st in
  let end_ := posePosition2 pose in
  let self := circularSelf st in
  let result := circularResult st in
  let untraversablePolygon := circularUntraversablePolygon st in
  if Nat.eqb arraySize 1 then
    let? inclined :=
      (if checkRobotInclination_ self then checkInclination self end_ end_
       else Some true) in
    if negb inclined then Some (Return true st)
    else
      let? q := isTraversable self end_ (fadd radius offset)
                  computeUntraversablePolygon radius in
      if negb (returned q) then
        Some (Return true
                (mkCircularState end_ result (untraversablePolygonOut q) (selfOut q)))
      else
        Some (Next (mkCircularState end_
                      (setResultTraversability result (traversabilityOut q))
                      (untraversablePolygonOut q) (selfOut q)))
  else if Nat.ltb 1 arraySize && Nat.ltb 0 i then
    let? inclined :=
      (if checkRobotInclination_ self then checkInclination self start end_
       else Some true) in
    if negb inclined then Some (Return true st)
    else
      let m := traversabilityMap_ self in
      let startIndex := getIndex m start in
      let endIndex := getIndex m end_ in
      let nSkip := 3%nat in
      let? r := lineLoop radius offset computeUntraversablePolygon publishPolygons
                  (mkLineState true NaN zero 0 [] untraversablePolygon self)
                  (lineSamples nSkip 0 (LineIterator m endIndex startIndex)) in
      match r with
      | Return b l =>
          Some (Return b
                  (mkCircularState end_ result (lineUntraversablePolygon l)
                     (lineSelf l)))
      | Next l =>
          if pathIsTraversable l then
            let traversability := fdiv (traversabilitySum l) (of_int (nLine l)) in
            let lengthSegment := Fin (norm (vsub end_ start)) in
            let result :=
              if Nat.ltb 1 i then
                let lengthPreviousPath := lengthPath0 in
                let lengthPath := fadd lengthPath0 lengthSegment in
                setResultTraversability result
                  (fdiv (fadd (fmul lengthSegment traversability)
                              (fmul lengthPreviousPath (result_traversability result)))
                        lengthPath)
              else setResultTraversability result traversability in
            Some (Next (mkCircularState end_ result (lineUntraversablePolygon l)
                          (lineSelf l)))
          else
            Some (Return true
                    (mkCircularState end_ result (lineUntraversablePolygon l)
                       (lineSelf l)))
      end
  else Some (Next (mkCircularState end_ result untraversablePolygon self)).

Fixpoint circularLoop (lengthPath0 : nat → double) (path : FootprintPath)
    (publishPolygons : bool) (arraySize i : nat) (st : CircularState)
    (poses : list Pose) : option (Flow CircularState) :=
  match poses with
  | [] => Some (Next st)
  | pose :: rest =>
      let? r := circularBody (lengthPath0 i) path publishPolygons arraySize i
                  st pose in
      match r with
      | Next st =>
          circularLoop lengthPath0 path publishPolygons arraySize (S i) st rest
      | Return b st => Some (Return b st)
      end
  end.

(** The state in which the loop is entered: [result] holds its defaults;
    the positions [start] and [end] are declared without initialiser, and
    [end] is written before [start] is first used. *)
Definition circularStart (self : TraversabilityMap) : CircularState :=
  mkCircularState (0, 0)%Q (mkTraversabilityResult false zero zero) [] self.

(** [checkCircularFootprintPath(path, publishPolygons, result)] *)
Definition checkCircularFootprintPath (lengthPath0 : nat → double)
    (self : TraversabilityMap) (path : FootprintPath) (publishPolygons : bool)
  : option PathResult :=
  let arraySize := length (poses path) in
  let? r := circularLoop lengthPath0 path publishPolygons arraySize 0
              (circularStart self) (poses path) in
  match r with
  | Return b st => Some (mkPathResult b (circularResult st) (circularSelf st))
  | Next st =>
      Some (mkPathResult true (setIsSafe (circularResult st) true) (circularSelf st))
  end.

(** The locals of the loop over the poses of a polygonal-footprint path. *)
Record PolygonalState : Type := mkPolygonalState {
  polygonalEnd : Position;
  polygon1 : Polygon;
  polygon2 : Polygon;
  polygonalResult : TraversabilityResult;
  polygonalUntraversablePolygon : Polygon;
  polygonalSelf : TraversabilityMap;
}.

Definition polygonalBody (path : FootprintPath) (arraySize i : nat)
    (st : PolygonalState) (pose : Pose) : option (Flow PolygonalState) :=
  let computeUntraversablePolygon := compute_untraversable_polygon path in
  let polygon1 := polygon2 st in
  let start := polygonalEnd st in
  let end_ := posePosition2 pose in
  let polygon2 := map (transformVertex pose) (footprint path) in
  let '(polygon1, polygon2) :=
    if conservative path && Nat.ltb 0 i then
      let startToEnd := vsub end_ start in
      let vertices1 := polygon1 in
      let vertices2 := polygon2 in
      (polygon1 ++ map (λ vertex, vsub vertex startToEnd) vertices2,
       polygon2 ++ map (λ vertex, vadd vertex startToEnd) vertices1)
    else (polygon1, polygon2) in
  let self := polygonalSelf st in
  let result := polygonalResult st in
  let untraversablePolygon := polygonalUntraversablePolygon st in
  let stay := mkPolygonalState end_ polygon1 polygon2 result untraversablePolygon self in
  if Nat.eqb arraySize 1 then
    let polygon := polygon2 in
    let? inclined :=
      (if checkRobotInclination_ self then checkInclination self end_ end_
       else Some true) in
    if negb inclined then Some (Return true stay)
    else
      let? q := isTraversablePolygon self polygon computeUntraversablePolygon
                  untraversablePolygon in
      if negb (returned q) then
        Some (Return true
                (mkPolygonalState end_ polygon1 polygon2 result
                   (untraversablePolygonOut q) (selfOut q)))
      else
        Some (Next (mkPolygonalState end_ polygon1 polygon2
                      (mkTraversabilityResult (is_safe result)
                         (traversabilityOut q) (getArea polygon))
                      (untraversablePolygonOut q) (selfOut q)))
  else if Nat.ltb 1 arraySize && Nat.ltb 0 i then
    let polygon := convexHull polygon1 polygon2 in
    let? inclined :=
      (if checkRobotInclination_ self then checkInclination self start end_
       else Some true) in
    if negb inclined then Some (Return true stay)
    else
      let? q := isTraversablePolygon self polygon computeUntraversablePolygon
                  untraversablePolygon in
      if negb (returned q) then
        Some (Return true
                (mkPolygonalState end_ polygon1 polygon2 result
                   (untraversablePolygonOut q) (selfOut q)))
      else
        let traversability := traversabilityOut q in
        let result :=
          if Nat.ltb 1 i then
            let areaPrevious := result_area result in
            let areaPolygon := fsub (getArea polygon) (getArea polygon1) in
            let area := fadd (result_area result) areaPolygon in
            mkTraversabilityResult (is_safe result)
              (fdiv (fadd (fmul areaPolygon traversability)
                          (fmul areaPrevious (result_traversability result)))
                    area)
              area
          else
            mkTraversabilityResult (is_safe result) traversability (getArea polygon) in
        Some (Next (mkPolygonalState end_ polygon1 polygon2 result
                      (untraversablePolygonOut q) (selfOut q)))
  else Some (Next stay).

Fixpoint polygonalLoop (path : FootprintPath) (arraySize i : nat)
    (st : PolygonalState) (poses : list Pose) : option (Flow PolygonalState) :=
  match poses with
  | [] => Some (Next st)
  | pose :: rest =>
      let? r := polygonalBody path arraySize i st pose in
      match r with
      | Next st => polygonalLoop path arraySize (S i) st rest
      | Return b st => Some (Return b st)
      end
  end.

(** The state in which the loop over the poses is entered. *)
Definition polygonalStart (self : TraversabilityMap) : PolygonalState :=
  mkPolygonalState (0, 0)%Q [] [] (mkTraversabilityResult false zero zero) [] self.

(** [checkPolygonalFootprintPath(path, publishPolygons, result)];
    [publishPolygons] only selects what is published. *)
Definition checkPolygonalFootprintPath (self : TraversabilityMap)
    (path : FootprintPath) (publishPolygons : bool) : option PathResult :=
  let arraySize := length (poses path) in
  let? r := polygonalLoop path arraySize 0 (polygonalStart self) (poses path) in
  match r with
  | Return b st => Some (mkPathResult b (polygonalResult st) (polygonalSelf st))
  | Next st =>
      Some (mkPathResult true (setIsSafe (polygonalResult st) true)
              (polygonalSelf st))
  end.

(** [checkFootprintPath(path, result, publishPolygons)]; [result] is the
    message of the caller, which the early exits touch only in [is_safe]. *)
Definition checkFootprintPath (lengthPath0 : nat → double)
    (self : TraversabilityMap) (path : FootprintPath)
    (result : TraversabilityResult) (publishPolygons : bool)
  : option PathResult :=
  if negb (traversabilityMapInitialized_ self) then
    Some (mkPathResult true (setIsSafe result false) self)
  else
    let arraySize := length (poses path) in
    if Nat.eqb arraySize 0 then
      Some (mkPathResult false (setIsSafe result false) self)
    else if Nat.eqb (length (footprint path)) 0 then
      checkCircularFootprintPath lengthPath0 self path publishPolygons
    else
      checkPolygonalFootprintPath self path publishPolygons.

End Methods.

Arguments Next {S} s.
Arguments Return {S} b s.

(** ** Reading results *)

(** A double with its rational in lowest terms. *)
Definition reduced (a : double) : double :=
  match a with Fin q => Fin (Qred q) | NaN => NaN end.

(** The returned boolean and the score of a query. *)
Definition queryOutcome (r : option QueryResult) : option (bool * double) :=
  (λ q, (returned q, reduced (traversabilityOut q))) <$> r.

(** The fields [is_safe], [traversability] and [area] of the result of a
    path check. *)
Definition pathOutcome (r : option PathResult) : option (bool * double * double) :=
  (λ p, (is_safe (resultOut p), reduced (result_traversability (resultOut p)),
         reduced (result_area (resultOut p)))) <$> r.

(** ** A concrete grid for the examples

    A strip of unit cells in one row: cell [(0, c)], for [0 <= c < n]
    with [n] the second component of [size_], has its centre at position
    [(c, 0)].  All distances on the strip are along the first axis. *)
Module Strip.

Definition cols (m : GridMap) : Z := (size_ m).2.

Definition cellOf (x : Q) : Z := Qfloor (x + (1 # 2)).

Definition inStrip (m : GridMap) (c : Z) : bool := (0 <=? c) && (c <? cols m).

Definition cellsBetween (lo hi : Z) : list Index :=
  map (λ c, (0, c)) (seqZ lo (hi - lo + 1)).

(** The cells from [a] to [b], both ends included. *)
Definition line (a b : Index) : list Index :=
  if a.2 <=? b.2 then cellsBetween a.2 b.2 else reverse (cellsBetween b.2 a.2).

(** The cells whose centre is at most [r] away from [center]. *)
Definition circle (m : GridMap) (center : Position) (r : Q) : list Index :=
  filter (λ i, Qle_bool (Qabs (inject_Z i.2 - center.1)) r)
         (cellsBetween 0 (cols m - 1)).

(** Ring [k] of the spiral: the cells at distance [k] cells from the
    centre cell that lie on the strip, with their radius. *)
Definition ring (m : GridMap) (c0 : Z) (k : Z) : list (Index * double) :=
  map (λ c, ((0, c), Fin (inject_Z k * resolution_ m)))
      (filter (λ c, inStrip m c) [c0 - k; c0 + k]).

(** The centre cell first, then the rings out to the radius. *)
Definition spiral (m : GridMap) (center : Position) (radius : double)
  : list (Index * double) :=
  let c0 := cellOf center.1 in
  ((0, c0), Fin 0) ::
  match radius with
  | NaN => []
  | Fin r =>
      filter (λ cell, fleb cell.2 radius)
        (concat (map (ring m c0) (seqZ 1 (Qceiling (r / resolution_ m)))))
  end.

(** The square root of a rational square. *)
Definition sqrtQ (q : Q) : Q := Z.sqrt (Qnum q) # Pos.sqrt (Qden q).

Definition leftmost (ps : list Position) : option Position :=
  foldr (λ p acc, match acc with
                  | Some q => if Qle_bool p.1 q.1 then Some p else Some q
                  | None => Some p
                  end) None ps.

Definition rightmost (ps : list Position) : option Position :=
  foldr (λ p acc, match acc with
                  | Some q => if Qle_bool q.1 p.1 then Some p else Some q
                  | None => Some p
                  end) None ps.

(** The hull of points of the strip: its two end points. *)
Definition hull (ps : list Position) : Polygon :=
  match leftmost ps, rightmost ps with
  | Some l, Some r => if Position_eqb l r then [l] else [l; r]
  | _, _ => []
  end.

#[export] Instance core : GridMapCore := {|
  isInside m p :=
    Qle_bool (- (1 # 2)) p.1 && Qltb p.1 (inject_Z (cols m) - (1 # 2))
    && Qle_bool (- (1 # 2)) p.2 && Qltb p.2 (1 # 2);
  getIndex m p := (0, cellOf p.1);
  getPosition m i := (inject_Z i.2, 0%Q);
  getSubmap m p len := (m, true);
  GridMapIterator m := cellsBetween 0 (cols m - 1);
  LineIterator m a b := line a b;
  CircleIterator := circle;
  SpiralIterator := spiral;
  PolygonIterator m polygon :=
    match leftmost polygon, rightmost polygon with
    | Some l, Some r =>
        filter (λ i, Qle_bool l.1 (inject_Z i.2) && Qle_bool (inject_Z i.2) r.1)
               (cellsBetween 0 (cols m - 1))
    | _, _ => []
    end;
  norm v := sqrtQ (v.1 * v.1 + v.2 * v.2);
  fromCircle center radius :=
    match radius with
    | Fin r => [((center.1 - r)%Q, center.2); ((center.1 + r)%Q, center.2)]
    | NaN => []
    end;
  convexHull a b := hull (a ++ b);
  monotoneChainConvexHullOfPoints := hull;
  getArea _ := zero;
  transformVertex pose point :=
    (((pose_position pose).1.1 + point.1.1)%Q, ((pose_position pose).1.2 + point.1.2)%Q);
  isInside_setData _ _ _ := eq_refl;
  getIndex_setData _ _ _ := eq_refl;
|}.

(** A layer given by the values of its cells [0, 1, 2, ...]. *)
Definition layer (values : list double) : Matrix :=
  λ i, if (i.1 =? 0) && (0 <=? i.2)
       then default NaN (values !! Z.to_nat i.2) else NaN.

(** A strip as [computeTraversability] leaves it: the base layers from
    the filters, and the footprint layers added with no valid cell. *)
Definition grid (n : Z) (traversabilityValues slopeValues robotSlopeValues : list double)
  : GridMap :=
  mkGridMap "map" 1 (inject_Z n, 1%Q) (0, 0)%Q (1, n)
    (list_to_map
       [("traversability", layer traversabilityValues);
        ("traversability_slope", layer slopeValues);
        ("traversability_step", λ _, one);
        ("traversability_roughness", λ _, one);
        ("elevation", λ _, zero);
        ("robot_slope", layer robotSlopeValues);
        ("step_footprint", λ _, NaN);
        ("slope_footprint", λ _, NaN);
        ("traversability_footprint", λ _, NaN)]).

Definition object (traversabilityMap : GridMap) (traversabilityDefault : double)
    (checkRobotInclination : bool) : TraversabilityMap :=
  mkTraversabilityMap "map" zero
    ["elevation"; "upper_bound"; "lower_bound"]
    [traversabilityType_; slopeType_; stepType_; roughnessType_]
    traversabilityMap traversabilityMap false true
    traversabilityDefault false checkRobotInclination (3 # 10) (1 # 10).

End Strip.

(** ** Concrete inputs *)
Module Examples.
Import Strip.

Definition ones (n : nat) : list double := replicate n one.

Definition poseAt (x : Q) : Pose := mkPose (x, 0%Q, 0%Q) (0%Q, 0%Q, 0%Q, 1%Q).

(** Seven cells, all with traversability 1; cell 1 has slope value 0.0,
    which makes it inadmissible (one cell with slope 0.0 in its window
    is more than the critical number floor(2 * 0.3 / 1) = 0). *)
Definition discGrid : GridMap :=
  grid 7 (ones 7) [one; zero; one; one; one; one; one] (ones 7).

Definition discObject : TraversabilityMap := object discGrid (Fin (1 # 2)) false.

(** The centre of cell 3. *)
Definition discCenter : Position := (3, 0)%Q.

(** A position beyond the last cell of the strip. *)
Definition outsidePosition : Position := (9, 0)%Q.

(** Five cells whose robot slope is unknown at cell 1. *)
Definition unknownSlopeObject : TraversabilityMap :=
  object (grid 5 (ones 5) (ones 5) [one; NaN; one; one; one]) (Fin (1 # 2)) true.

(** Nine cells whose robot slope is 0.0 at cell 6. *)
Definition steepObject : TraversabilityMap :=
  object (grid 9 (ones 9) (ones 9)
            [one; one; one; one; one; one; zero; one; one])
         (Fin (1 # 2)) true.

(** Nine cells: traversability 1 on cells 0 to 4 and 1/2 on cells 5 to 8. *)
Definition pathObject : TraversabilityMap :=
  object (grid 9 (ones 5 ++ replicate 4 (Fin (1 # 2))) (ones 9) (ones 9))
         (Fin (1 # 2)) false.

(** Nine cells with traversability 1; cell 8 is inadmissible. *)
Definition blockedObject : TraversabilityMap :=
  object (grid 9 (ones 9)
            [one; one; one; one; one; one; one; one; zero] (ones 9))
         (Fin (1 # 2)) false.

(** Three poses on a straight line, four cells apart, with a circular
    footprint of radius 1/4. *)
Definition straightPath : FootprintPath :=
  mkFootprintPath [poseAt 0; poseAt 4; poseAt 8] (Fin (1 # 4)) [] false false.

Definition singlePosePath : FootprintPath :=
  mkFootprintPath [poseAt 6] (Fin (1 # 4)) [] false false.

(** A map whose roughness cache holds 0.0 at cell 2. *)
Definition roughCachedObject : TraversabilityMap :=
  let m := grid 3 (ones 3) (ones 3) (ones 3) in
  object (setData m (<["roughness_footprint" := layer [NaN; NaN; zero]]> (data_ m)))
         (Fin (1 # 2)) false.

(** Three cells; the slope of cell 0 is unknown. *)
Definition unknownBaseObject : TraversabilityMap :=
  object (grid 3 (ones 3) [NaN; one; one] (ones 3)) (Fin (1 # 2)) false.

(** The strip of [discGrid] with default traversability [d]. *)
Definition defaultObject (d : double) : TraversabilityMap := object discGrid d false.

(** The state of the spiral search of [discObject] around [discCenter],
    radii 3 and 1, after the first three cells of the spiral, and the
    object after the check of the fourth cell. *)
Definition blendState : SpiralState :=
  match spiralLoop (0, 3) (Fin 3) (Fin 1) false
          (mkSpiralState 0 zero zero true false [] discObject)
          (take 3 (spiral discGrid discCenter (Fin 3))) with
  | Some (Next st) => st
  | _ => mkSpiralState 0 zero zero true false [] discObject
  end.

Definition blendChecked : TraversabilityMap :=
  match isTraversableForFilters (spiralSelf blendState) (0, 1) with
  | Some (_, self) => self
  | None => discObject
  end.

(** Two poses, four cells apart. *)
Definition shortPath : FootprintPath :=
  mkFootprintPath [poseAt 0; poseAt 4] (Fin (1 # 4)) [] false false.

(** The state of the check of [straightPath] on [steepObject] after the
    first two poses. *)
Definition steepState : CircularState :=
  match circularLoop (λ _, zero) straightPath false 3 0
          (circularStart steepObject) [poseAt 0; poseAt 4] with
  | Some (Next st) => st
  | _ => circularStart steepObject
  end.

(** The second segment of [straightPath] alone. *)
Definition secondSegment : FootprintPath :=
  mkFootprintPath [poseAt 4; poseAt 8] (Fin (1 # 4)) [] false false.

(** The result message that a caller passes to [checkFootprintPath]. *)
Definition emptyResult : TraversabilityResult :=
  mkTraversabilityResult false zero zero.

(** A message in another frame that carries every required layer. *)
Definition otherFrameMsg : GridMapMsg :=
  mkGridMapMsg "odom" (Fin 2)
    (mkGridMap "odom" 1 (3, 1)%Q (0, 0)%Q (1, 3)
       (list_to_map
          [("traversability", λ _, one); ("traversability_slope", λ _, one);
           ("traversability_step", λ _, one);
           ("traversability_roughness", λ _, one);
           ("elevation", λ _, zero); ("upper_bound", λ _, zero);
           ("lower_bound", λ _, zero)])).

(** A message in the expected frame that carries only the elevation. *)
Definition elevationOnlyMsg : GridMapMsg :=
  mkGridMapMsg "map" (Fin 2)
    (mkGridMap "map" 1 (3, 1)%Q (0, 0)%Q (1, 3)
       (list_to_map [("elevation", λ _, zero)])).

End Examples.

(** ** Predicates of the statements *)

(** The failures that the two setters detect. *)
Definition frameMismatch (self : TraversabilityMap) (msg : GridMapMsg) : Prop :=
  String.eqb (getMapFrameId self) (msg_frame_id msg) = false.

Definition layerMissing (layers : list string) (msg : GridMapMsg) : Prop :=
  ∃ layer, layer ∈ layers ∧ exists_ (msg_map msg) layer = false.

(** Every member but [zPosition_] is the same. *)
Definition keptButZPosition (self self' : TraversabilityMap) : Prop :=
  ∃ z, self' = setZPosition_ self z.

(** The base layer [layer] holds, at [index], a value other than 0.0;
    [NaN] is such a value. *)
Definition baseNonZero (self : TraversabilityMap) (layer : string) (index : Index)
  : Prop :=
  ∃ v, at_ (traversabilityMap_ self) layer index = Some v ∧ feqb v zero = false.

(** The spiral search of [isTraversable self center radiusMax
    computeUntraversablePolygon radiusMin] arrives in state [st] at the
    cell [index] with current radius [r], finds it inadmissible, and
    takes the blend branch: [radiusMin == 0.0] and
    [untraversableRadius <= radiusMin] are both false and
    [circleIsTraversable] is still true. *)
Definition reachesBlend {G : GridMapCore} (self : TraversabilityMap)
    (center : Position) (radiusMax : double) (computeUntraversablePolygon : bool)
    (radiusMin : double) (st : SpiralState) (index : Index) (r : double) : Prop :=
  let m := traversabilityMap_ self in
  ∃ before rest self',
    SpiralIterator m center radiusMax = before ++ (index, r) :: rest
    ∧ spiralLoop (getIndex m center) radiusMax radiusMin
        computeUntraversablePolygon
        (mkSpiralState 0 zero zero true false [] self) before = Some (Next st)
    ∧ traversableRadiusBiggerMinRadius st = false
    ∧ isTraversableForFilters (spiralSelf st) index = Some (false, self')
    ∧ feqb radiusMin zero = false
    ∧ fleb r radiusMin = false
    ∧ circleIsTraversable st = true.

(** The spiral iterator starts at the centre cell, at radius 0. *)
Definition spiralStartsAtCenter {G : GridMapCore} (m : GridMap) (center : Position)
    (radiusMax : double) : Prop :=
  ∃ r0 rest,
    SpiralIterator m center radiusMax = (getIndex m center, r0) :: rest
    ∧ feqb r0 zero = true.

(** The robot-slope layer holds exactly 0.0 at a cell that
    [checkInclination] samples: a cell of the line between the two poses,
    or the cell of the pose when the two poses coincide and lie on the
    map. *)
Definition zeroSampleOnLine {G : GridMapCore} (self : TraversabilityMap)
    (start end_ : Position) : Prop :=
  let m := traversabilityMap_ self in
  if Position_eqb end_ start then
    isInside m start = true
    ∧ ∃ v, at_ m robotSlopeType_ (getIndex m start) = Some v ∧ feqb v zero = true
  else
    ∃ l v, l ∈ LineIterator m (getIndex m start) (getIndex m end_)
           ∧ at_ m robotSlopeType_ l = Some v ∧ feqb v zero = true.

(** The first position that a path check hands to [checkInclination] at
    a pose: the pose itself for a path of one pose, otherwise the
    previous pose. *)
Definition inclinationStart (arraySize : nat) (previous : Position) (pose : Pose)
  : Position :=
  if Nat.eqb arraySize 1 then posePosition2 pose else previous.

(** [self'] is [self] after writes to cells of its traversability map:
    nothing but the contents of the layers differs, and the layers are
    the same ones. *)
Definition cacheWrites (self self' : TraversabilityMap) : Prop :=
  ∃ d,
    self' = setTraversabilityMap_ self (setData (traversabilityMap_ self) d)
    ∧ ∀ layer, is_Some (data_ (traversabilityMap_ self) !! layer)
               ↔ is_Some (d !! layer).

(** The score that the blend branch computes from the state in which it
    is entered. *)
Definition blended (st : SpiralState) (r radiusMin radiusMax : double) : double :=
  fmul (traversability st)
       (fdiv (blendFactor r radiusMin radiusMax) (of_int (nCells st))).

(** ** The other methods of the class *)

(** Assignment to the member [traversabilityDefault_]. *)
Definition setTraversabilityDefault_ (self : TraversabilityMap) (d : double)
  : TraversabilityMap :=
  mkTraversabilityMap (mapFrameId_ self) (zPosition_ self)
    (elevationMapLayers_ self) (traversabilityMapLayers_ self)
    (elevationMap_ self) (traversabilityMap_ self)
    (elevationMapInitialized_ self) (traversabilityMapInitialized_ self)
    d (checkForRoughness_ self)
    (checkRobotInclination_ self) (maxGapWidth_ self) (criticalStepHeight_ self).

(** Assignment to the member [traversabilityMapInitialized_]. *)
Definition setTraversabilityMapInitialized_ (self : TraversabilityMap) (b : bool)
  : TraversabilityMap :=
  mkTraversabilityMap (mapFrameId_ self) (zPosition_ self)
    (elevationMapLayers_ self) (traversabilityMapLayers_ self)
    (elevationMap_ self) (traversabilityMap_ self)
    (elevationMapInitialized_ self) b
    (traversabilityDefault_ self) (checkForRoughness_ self)
    (checkRobotInclination_ self) (maxGapWidth_ self) (criticalStepHeight_ self).

(** Assignment to the two lists of required layers. *)
Definition setRequiredLayers (self : TraversabilityMap)
    (elevationLayers traversabilityLayers : list string) : TraversabilityMap :=
  mkTraversabilityMap (mapFrameId_ self) (zPosition_ self)
    elevationLayers traversabilityLayers
    (elevationMap_ self) (traversabilityMap_ self)
    (elevationMapInitialized_ self) (traversabilityMapInitialized_ self)
    (traversabilityDefault_ self) (checkForRoughness_ self)
    (checkRobotInclination_ self) (maxGapWidth_ self) (criticalStepHeight_ self).

(** [createLayers(useRawMap)]: the names are pushed to the back of the
    two lists. *)
Definition createLayers (self : TraversabilityMap) (useRawMap : bool)
  : bool * TraversabilityMap :=
  let elevationLayers :=
    elevationMapLayers_ self ++ ["elevation"]
    ++ (if negb useRawMap then ["upper_bound"; "lower_bound"]
        else ["variance"; "horizontal_variance_x"; "horizontal_variance_y";
              "horizontal_variance_xy"; "time"]) in
  let traversabilityLayers :=
    traversabilityMapLayers_ self
    ++ [traversabilityType_; slopeType_; stepType_; roughnessType_] in
  (true, setRequiredLayers self elevationLayers traversabilityLayers).

Section Bound.
(** The constants [traversabilityMinValue] and [traversabilityMaxValue];
    this file uses them and does not define them. *)
Variables (traversabilityMinValue traversabilityMaxValue : Q).

(** [boundTraversabilityValue(traversabilityValue)] *)
Definition boundTraversabilityValue (traversabilityValue : double) : double :=
  if fltb (Fin traversabilityMaxValue) traversabilityValue
  then Fin traversabilityMaxValue
  else if fltb traversabilityValue (Fin traversabilityMinValue)
  then Fin traversabilityMinValue
  else traversabilityValue.

(** [setDefaultTraversabilityUnknownRegions(defaultTraversability)] *)
Definition setDefaultTraversabilityUnknownRegions (self : TraversabilityMap)
    (defaultTraversability : double) : TraversabilityMap :=
  setTraversabilityDefault_ self (boundTraversabilityValue defaultTraversability).

End Bound.

(** [getDefaultTraversabilityUnknownRegions()] *)
Definition getDefaultTraversabilityUnknownRegions (self : TraversabilityMap)
  : double :=
  traversabilityDefault_ self.

(** [traversabilityMapInitialized()] *)
Definition traversabilityMapInitialized (self : TraversabilityMap) : bool :=
  traversabilityMapInitialized_ self.



Section MoreMethods.
Context {G : GridMapCore}.

(** [traversabilityFootprint(radius, offset)]: the disc query at the
    centre of every cell of the map. *)
Fixpoint traversabilityFootprintLoop (radius offset : double)
    (self : TraversabilityMap) (cells : list Index) : option TraversabilityMap :=
  match cells with
  | [] => Some self
  | cell :: rest =>
      let center := getPosition (traversabilityMap_ self) cell in
      let? q := isTraversable4 self center (fadd radius offset) radius in
      traversabilityFootprintLoop radius offset (selfOut q) rest
  end.

Definition traversabilityFootprint (self : TraversabilityMap)
    (radius offset : double) : option (bool * TraversabilityMap) :=
  let? self := traversabilityFootprintLoop radius offset self
                 (GridMapIterator (traversabilityMap_ self)) in
  Some (true, self).

(** *** The terrain map *)

(** The camera, the transform listener and the colour conversion that
    the terrain map is built with; they are not part of this file's
    source.  [transformPoint] is the transform of a point from the odom
    frame to the camera frame, [None] when tf throws; an image is its
    size and its pixels (blue, green, red).  [position0 index] is what
    the local [position] of [extractAllGridPosition], which is declared
    without a value, holds in the round of the cell [index].  Points and
    pixels are taken with finite coordinates, as rationals. *)
Variables (transformPoint : Q * Q * Q → option (Q * Q * Q))
          (project3dToPixel : Q * Q * Q → Q * Q)
          (fullResolution : Z * Z)
          (position0 : Index → Q * Q * Q)
          (colorVectorToValue : Z * Z * Z → double).

(** [GridMap::getPosition3(layer, index, position)] of grid_map: it
    reads the cell with [at], which throws when the layer is missing;
    for a value that is not finite it returns false and leaves
    [position] as it was; otherwise [position] is the position of the
    cell with the value as its height. *)
Definition getPosition3 (m : GridMap) (layer : string) (index : Index)
    (position : Q * Q * Q) : option (Q * Q * Q) :=
  let? value := at_ m layer index in
  match value with
  | Fin z => Some ((getPosition m index).1, (getPosition m index).2, z)
  | NaN => Some position
  end.

Record Image : Type := mkImage {
  rows : Z;
  cols : Z;
  pixels : Z → Z → Z * Z * Z;
}.

(** [image.at<cv::Vec3b>(row, col)]; [None] outside of the image. *)
Definition pixelAt (image : Image) (row col : Z) : option (Z * Z * Z) :=
  if (0 <=? row) && (row <? rows image) && (0 <=? col) && (col <? cols image)
  then Some (pixels image row col) else None.

(** [int(x)] for a double: towards zero. *)
Definition truncate (x : Q) : Z :=
  if Qle_bool 0 x then Qfloor x else Qceiling x.

(** [extractSingleGridPosition(position)]: when tf throws, the exception
    is caught and the point returned is the default-constructed one. *)
Definition extractSingleGridPosition (position : Q * Q * Q) : Q * Q * Q :=
  match transformPoint position with
  | Some p => p
  | None => (0, 0, 0)%Q
  end.

(** [extractAllGridPosition(MapOut)]: the returned vector, and the new
    value of the member [GridPosOdomFrame_vector_]; [None] when
    [getPosition3] throws. *)
Fixpoint extractLoop (MapOut : GridMap) (cells : list Index)
  : option (list (Q * Q * Q) * list (Q * Q * Q)) :=
  match cells with
  | [] => Some ([], [])
  | cell :: rest =>
      let? position := getPosition3 MapOut "elevation" cell (position0 cell) in
      let GridPosCameraFrame := extractSingleGridPosition position in
      let? (cameraFrame, odomFrame) := extractLoop MapOut rest in
      if Qle_bool 0 GridPosCameraFrame.2
      then Some (GridPosCameraFrame :: cameraFrame, position :: odomFrame)
      else Some (cameraFrame, odomFrame)
  end.

Definition extractAllGridPosition (MapOut : GridMap)
  : option (list (Q * Q * Q) * list (Q * Q * Q)) :=
  extractLoop MapOut (GridMapIterator MapOut).

(** [projectAllGridPosition(GridPosCameraFrame_vector)]: the returned
    vector, and the new value of [filtered_GridPosOdomFrame_vector_];
    [None] when [GridPosOdomFrame_vector_[i]] is read past the end. *)
Fixpoint projectLoop (GridPosOdomFrame_vector : list (Q * Q * Q)) (i : nat)
    (points : list (Q * Q * Q)) : option (list (Q * Q) * list (Q * Q * Q)) :=
  match points with
  | [] => Some ([], [])
  | point :: rest =>
      let pixel_uv := project3dToPixel point in
      let width := fullResolution.1 in
      let height := fullResolution.2 in
      if Qltb pixel_uv.1 (inject_Z width) && Qltb pixel_uv.2 (inject_Z height)
         && Qle_bool 0 pixel_uv.1 && Qle_bool 0 pixel_uv.2
      then
        let? position := GridPosOdomFrame_vector !! i in
        let? (pixelVector, filtered) :=
          projectLoop GridPosOdomFrame_vector (S i) rest in
        Some (pixel_uv :: pixelVector, position :: filtered)
      else projectLoop GridPosOdomFrame_vector (S i) rest
  end.

Definition projectAllGridPosition (GridPosOdomFrame_vector : list (Q * Q * Q))
    (GridPosCameraFrame_vector : list (Q * Q * Q))
  : option (list (Q * Q) * list (Q * Q * Q)) :=
  projectLoop GridPosOdomFrame_vector 0 GridPosCameraFrame_vector.

Definition floorColor : Z * Z * Z := (155, 155, 155).
Definition otherColor : Z * Z * Z := (255, 0, 0).

(** The cost and the colour that a pixel of the mask selects; the cost is
    narrowed to a float when it is assigned to the cell. *)
Definition terrainCost (bgr : Z * Z * Z) : double * (Z * Z * Z) :=
  if decide (bgr = floorColor) then (one, floorColor)
  else if decide (bgr = otherColor) then (Fin (1 # 2), floorColor)
  else (Fin (7 # 20), otherColor).

(** The loop of [assignTerrainCost] over the projected pixels; [None]
    when the mask or [filtered_GridPosOdomFrame_vector_] is read out of
    range, or a layer is missing. *)
Fixpoint terrainLoop (semantic_mask : Image) (filtered : list (Q * Q * Q))
    (i : nat) (MapOut : GridMap) (pixelVector : list (Q * Q)) : option GridMap :=
  match pixelVector with
  | [] => Some MapOut
  | pixel :: rest =>
      let? bgr := pixelAt semantic_mask (truncate pixel.2) (truncate pixel.1) in
      let? position := filtered !! i in
      let terrain_map_grid_pos : Position := (position.1.1, position.1.2) in
      let terrain_map_grid_index := getIndex MapOut terrain_map_grid_pos in
      let '(cost, colorVector) := terrainCost bgr in
      let? MapOut := setAt MapOut "terrain_traversability"
                       terrain_map_grid_index (static_cast_float cost) in
      let? MapOut := setAt MapOut "color" terrain_map_grid_index
                       (colorVectorToValue colorVector) in
      terrainLoop semantic_mask filtered (S i) MapOut rest
  end.

(** [assignTerrainCost(MapIn)] *)
Definition assignTerrainCost (semantic_mask : Image) (MapIn : GridMap)
  : option GridMap :=
  let MapOut := add (add MapIn "terrain_traversability") "color" in
  let? (GridPosCameraFrame_vector, GridPosOdomFrame_vector) :=
    extractAllGridPosition MapOut in
  let? (GridPosPixel_vector, filtered) :=
    projectAllGridPosition GridPosOdomFrame_vector GridPosCameraFrame_vector in
  terrainLoop semantic_mask filtered 0 MapOut GridPosPixel_vector.

(** [downsamplingMap(traversabilityMap)], around the robot position. *)
Definition downsamplingMap (robotPosition : Position) (traversabilityMap : GridMap)
  : GridMap :=
  (getSubmap traversabilityMap robotPosition ((5 # 2)%Q, (3 # 2)%Q)).1.

(** [computeTraversability()]: the returned boolean, the object, and the
    new terrain map when one is assigned.  [filterChainUpdate] is
    [filter_chain_.update(elevationMapCopy, traversabilityMapCopy)]:
    [None] when it returns false, otherwise the map it leaves in its
    second argument.  [None] for the whole when the terrain map throws. *)
Definition computeTraversability
    (filterChainUpdate : GridMap → GridMap → option GridMap)
    (semantic_mask : Image) (robotPosition : Position)
    (self : TraversabilityMap)
  : option (bool * TraversabilityMap * option GridMap) :=
  let traversabilityMapCopy := traversabilityMap_ self in
  let elevationMapCopy := elevationMap_ self in
  if elevationMapInitialized_ self then
    match filterChainUpdate elevationMapCopy traversabilityMapCopy with
    | None => Some (false, setTraversabilityMapInitialized_ self false, None)
    | Some traversabilityMapCopy =>
        let self := setTraversabilityMapInitialized_ self true in
        let traversabilityMapCopy := add traversabilityMapCopy "step_footprint" in
        let traversabilityMapCopy := add traversabilityMapCopy "slope_footprint" in
        let traversabilityMapCopy :=
          if checkForRoughness_ self
          then add traversabilityMapCopy "roughness_footprint"
          else traversabilityMapCopy in
        let traversabilityMapCopy :=
          add traversabilityMapCopy "traversability_footprint" in
        let self := setTraversabilityMap_ self traversabilityMapCopy in
        let terrainMapCopy := downsamplingMap robotPosition traversabilityMapCopy in
        let? terrainMap := assignTerrainCost semantic_mask terrainMapCopy in
        Some (true, self, Some terrainMap)
    end
  else Some (false, setTraversabilityMapInitialized_ self false, None).

End MoreMethods.

(** ** The shape of the three per-cell checks

    [checkForSlope], [checkForStep] and [checkForRoughness] are one
    scheme: a base value other than 0.0 passes; otherwise a valid cache
    cell decides; otherwise the neighbourhood is searched ([search] is
    the outcome of the search, [true] for a failure) and the verdict is
    written to the cache cell. *)
Definition memoCheck (base cache : string) (search : option bool)
    (self : TraversabilityMap) (index : Index)
  : option (bool * TraversabilityMap) :=
  let m := traversabilityMap_ self in
  let? v := at_ m base index in
  if feqb v zero then
    let? valid := isValid m index cache in
    if negb valid then
      let? bad := search in
      if bad then
        let? m := setAt m cache index zero in
        Some (false, setTraversabilityMap_ self m)
      else
        let? m := setAt m cache index one in
        Some (true, setTraversabilityMap_ self m)
    else
      let? c := at_ m cache index in
      if feqb c zero then Some (false, self) else Some (true, self)
  else Some (true, self).

(** The searches of the three checks. *)
Definition slopeSearch {G : GridMapCore} (self : TraversabilityMap) (index : Index)
  : option bool :=
  let m := traversabilityMap_ self in
  let resolution := round_double (resolution_ m) in
  let windowRadius := dmul 3 resolution in
  let criticalLength := ddiv (round_double (maxGapWidth_ self)) 3 in
  circleCountExceeds m slopeType_
    (Qfloor (ddiv (dmul (dmul 2 windowRadius) criticalLength)
                  (dmul resolution resolution)))
    (CircleIterator m (getPosition m index) windowRadius) 0.

Definition roughnessSearch {G : GridMapCore} (self : TraversabilityMap)
    (index : Index) : option bool :=
  let m := traversabilityMap_ self in
  let resolution := round_double (resolution_ m) in
  let windowRadius := dmul 3 resolution in
  let criticalLength := ddiv (round_double (maxGapWidth_ self)) 3 in
  circleCountExceeds m roughnessType_
    (Qfloor (ddiv (dmul (dmul (3 # 2) windowRadius) criticalLength)
                  (dmul resolution resolution)))
    (CircleIterator m (getPosition m index) windowRadius) 0.

Definition stepSearch {G : GridMapCore} (self : TraversabilityMap)
    (indexStep : Index) : option bool :=
  let m := traversabilityMap_ self in
  let center := getPosition m indexStep in
  let? height := at_ m "elevation" indexStep in
  let? indices := stepCandidates m (criticalStepHeight_ self) height
                    (CircleIterator m center ((5 # 2) * resolution_ m)%Q) in
  stepIndicesLoop self center
    (match indices with [] => [indexStep] | _ => indices end).

(** The layers that hold cached verdicts and scores. *)
Definition footprintLayers : list string :=
  ["slope_footprint"; "step_footprint"; "roughness_footprint";
   "traversability_footprint"].

(** Every layer but the four caches is the same in [self'] as in
    [self]. *)
Definition baseLayersKept (self self' : TraversabilityMap) : Prop :=
  ∀ layer, layer ∉ footprintLayers →
    data_ (traversabilityMap_ self') !! layer
    = data_ (traversabilityMap_ self) !! layer.

(** Nothing of the object but cells of the four caches differs. *)
Definition onlyCachesWritten (self self' : TraversabilityMap) : Prop :=
  cacheWrites self self' ∧ baseLayersKept self self'.

(** A cell that no check has to search for: its slope and step values,
    and its roughness value when roughness is checked, are not 0.0. *)
Definition clearCell (self : TraversabilityMap) (index : Index) : Prop :=
  baseNonZero self slopeType_ index
  ∧ baseNonZero self stepType_ index
  ∧ (checkForRoughness_ self = true → baseNonZero self roughnessType_ index).

(** What an admissible cell adds to a score: its traversability, or the
    default when that is not finite. *)
Definition cellScore (self : TraversabilityMap) (index : Index) : double :=
  match data_ (traversabilityMap_ self) !! traversabilityType_ with
  | Some mat =>
      if isfinite (mat index) then mat index else traversabilityDefault_ self
  | None => NaN
  end.

(** The running sum of a query over the cells [cells], started at [acc]. *)
Definition scoreSum (self : TraversabilityMap) (acc : double) (cells : list Index)
  : double :=
  foldl (λ sum index, fadd sum (cellScore self index)) acc cells.

(** The spiral search of [isTraversable self center radiusMax
    computeUntraversablePolygon radiusMin] arrives at a cell that is
    inadmissible and lies within [radiusMin] of the centre, or at any
    inadmissible cell when [radiusMin] is 0.0. *)
Definition meetsObstruction {G : GridMapCore} (self : TraversabilityMap)
    (center : Position) (radiusMax : double) (computeUntraversablePolygon : bool)
    (radiusMin : double) : Prop :=
  let m := traversabilityMap_ self in
  ∃ before index r rest st self1,
    SpiralIterator m center radiusMax = before ++ (index, r) :: rest
    ∧ spiralLoop (getIndex m center) radiusMax radiusMin
        computeUntraversablePolygon
        (mkSpiralState 0 zero zero true false [] self) before = Some (Next st)
    ∧ traversableRadiusBiggerMinRadius st = false
    ∧ isTraversableForFilters (spiralSelf st) index = Some (false, self1)
    ∧ (feqb radiusMin zero = true ∨ fleb r radiusMin = true).

(** The search has failed: the disc is not traversable and the cache
    cell of the centre holds 0.0. *)
Definition searchFailed (indexCenter : Index) (st : SpiralState) : Prop :=
  circleIsTraversable st = false
  ∧ at_ (traversabilityMap_ (spiralSelf st)) "traversability_footprint"
      indexCenter = Some zero.

(** The test of [projectAllGridPosition] on a projected pixel: it lies
    within the full resolution of the camera. *)
Definition inImage (fullResolution : Z * Z) (pixel_uv : Q * Q) : bool :=
  Qltb pixel_uv.1 (inject_Z fullResolution.1)
  && Qltb pixel_uv.2 (inject_Z fullResolution.2)
  && Qle_bool 0 pixel_uv.1 && Qle_bool 0 pixel_uv.2.

(** The positions that [extractAllGridPosition] reads for the cells
    [cells], in their order; [None] when [getPosition3] throws. *)
Fixpoint cellPositions {G : GridMapCore} (position0 : Index → Q * Q * Q)
    (MapOut : GridMap) (cells : list Index) : option (list (Q * Q * Q)) :=
  match cells with
  | [] => Some []
  | cell :: rest =>
      let? position := getPosition3 MapOut "elevation" cell (position0 cell) in
      let? positions := cellPositions position0 MapOut rest in
      Some (position :: positions)
  end.



(** The number of cells among [cells] whose value in the layer [mat] is
    0.0. *)
Definition zeroCells (mat : Matrix) (cells : list Index) : Z :=
  Z.of_nat (length (filter (λ cell, feqb (mat cell) zero) cells)).

(** The first cell of a list and every fourth one after it. *)
Fixpoint everyFourth (cells : list Index) : list Index :=
  match cells with
  | [] => []
  | cell :: rest =>
      cell :: match rest with
              | _ :: _ :: _ :: rest => everyFourth rest
              | _ => []
              end
  end.

(** What the check of a circular-footprint path of two poses hands back
    after the loop along its one segment: the early return of the loop;
    otherwise, a safe result with the mean of the scores when every disc
    was traversable, and the default result when one was not. *)
Definition segmentResult (r : Flow LineState) : PathResult :=
  match r with
  | Return b l =>
      mkPathResult b (mkTraversabilityResult false zero zero) (lineSelf l)
  | Next l =>
      if pathIsTraversable l then
        mkPathResult true
          (mkTraversabilityResult true
             (fdiv (traversabilitySum l) (of_int (nLine l))) zero)
          (lineSelf l)
      else
        mkPathResult true (mkTraversabilityResult false zero zero) (lineSelf l)
  end.

(** The radius of the window of the slope and roughness checks: three
    cell sizes, as a double. *)
Definition windowRadiusOf (self : TraversabilityMap) : Q :=
  dmul 3 (round_double (resolution_ (traversabilityMap_ self))).

(** The critical number of cells of a window check, computed as the code
    computes it, in double arithmetic: [factor] is 2 for slopes and 1.5
    for roughness. *)
Definition criticalNumber (self : TraversabilityMap) (factor : Q) : Z :=
  let resolution := round_double (resolution_ (traversabilityMap_ self)) in
  let windowRadius := dmul 3 resolution in
  let criticalLength := ddiv (round_double (maxGapWidth_ self)) 3 in
  Qfloor (ddiv (dmul (dmul factor windowRadius) criticalLength)
               (dmul resolution resolution)).

(** The verdict of a window check that has to search: the window has a
    cell, and more than the critical number of its cells are 0.0. *)
Definition windowFails (self : TraversabilityMap) (factor : Q) (mat : Matrix)
    (cells : list Index) : bool :=
  bool_decide (cells ≠ [] ∧ (criticalNumber self factor < zeroCells mat cells)%Z).

(** The cell [index] is one of the cells that the step check of
    [indexStep] collects from its window: it has step value 0.0 and is
    higher than [indexStep] by more than the critical step height. *)
Definition stepCandidate (self : TraversabilityMap) (indexStep index : Index)
  : Prop :=
  let m := traversabilityMap_ self in
  ∃ height e s,
    at_ m "elevation" indexStep = Some height
    ∧ at_ m "elevation" index = Some e
    ∧ fltb (fadd (Fin (criticalStepHeight_ self)) height) e = true
    ∧ at_ m stepType_ index = Some s ∧ feqb s zero = true.

(** The submap that [checkForStep] takes around the cell [index] could
    not be retrieved, or it has a cell with step value 0.0 that lies lower
    than [index] by more than the critical step height. *)
Definition dropAround {G : GridMapCore} (self : TraversabilityMap) (index : Index)
  : Prop :=
  let m := traversabilityMap_ self in
  let subMap :=
    getSubmap m (getPosition m index)
      ((5 # 2) * resolution_ m, (5 # 2) * resolution_ m)%Q in
  subMap.2 = false
  ∨ ∃ it height s e,
      it ∈ GridMapIterator subMap.1
      ∧ at_ m "elevation" index = Some height
      ∧ at_ subMap.1 stepType_ it = Some s ∧ feqb s zero = true
      ∧ at_ subMap.1 "elevation" it = Some e
      ∧ fltb e (fsub height (Fin (criticalStepHeight_ self))) = true.

(** ** Further concrete inputs *)
Module Inputs.
Import Strip Examples.

(** [discObject] after the admissibility check of its cell 1. *)
Definition slopeChecked : TraversabilityMap :=
  match isTraversableForFilters discObject (0, 1) with
  | Some (_, self) => self
  | None => discObject
  end.

(** The disc query of [discObject] around [discCenter] with radius 3 and
    [radiusMin] 0.0. *)
Definition discQuery : QueryResult :=
  match isTraversable discObject discCenter (Fin 3) false zero with
  | Some q => q
  | None => mkQueryResult false zero [] discObject
  end.


(** The polygon over the cells 5 to 7, and the one over the cells 0 to
    3. *)
Definition clearPolygon : Polygon := [(5, 0)%Q; (7, 0)%Q].
Definition blockedPolygon : Polygon := [(0, 0)%Q; (3, 0)%Q].

(** The state of the polygon query of [discObject] over [blockedPolygon]
    after its first cell. *)
Definition polygonState : PolygonState :=
  match polygonLoop false (mkPolygonState 0 zero true [] discObject) [(0, 0)] with
  | Some (Next st) => st
  | _ => mkPolygonState 0 zero true [] discObject
  end.

(** The check of [singlePosePath] and of [straightPath] on [pathObject]. *)
Definition singlePoseChecked : PathResult :=
  match checkFootprintPath (λ _, zero) pathObject singlePosePath emptyResult false with
  | Some r => r
  | None => mkPathResult false emptyResult pathObject
  end.

Definition straightChecked : PathResult :=
  match checkFootprintPath (λ _, zero) pathObject straightPath emptyResult false with
  | Some r => r
  | None => mkPathResult false emptyResult pathObject
  end.

(** The check of [secondSegment], which ends on the inadmissible cell 8
    of [blockedObject]. *)
Definition blockedChecked : PathResult :=
  match checkCircularFootprintPath (λ _, zero) blockedObject secondSegment false with
  | Some r => r
  | None => mkPathResult false emptyResult blockedObject
  end.

(** Five cells with step value 0.0; the ground drops by one between the
    cells 2 and 3. *)
Definition stepObject : TraversabilityMap :=
  object
    (mkGridMap "map" 1 (5, 1)%Q (0, 0)%Q (1, 5)
       (list_to_map
          [("traversability", layer (ones 5));
           ("traversability_slope", layer (ones 5));
           ("traversability_step", λ _, zero);
           ("traversability_roughness", λ _, one);
           ("elevation", layer [one; one; one; zero; zero]);
           ("robot_slope", layer (ones 5));
           ("step_footprint", λ _, NaN);
           ("slope_footprint", λ _, NaN);
           ("traversability_footprint", λ _, NaN)]))
    (Fin (1 # 2)) false.

Definition stepChecked : TraversabilityMap :=
  match checkForStep stepObject (0, 2) with
  | Some (_, self) => self
  | None => stepObject
  end.

(** Five cells with step value 0.0; the ground rises by one between the
    cells 2 and 3. *)
Definition raisedObject : TraversabilityMap :=
  object
    (mkGridMap "map" 1 (5, 1)%Q (0, 0)%Q (1, 5)
       (list_to_map
          [("traversability", layer (ones 5));
           ("traversability_slope", layer (ones 5));
           ("traversability_step", λ _, zero);
           ("traversability_roughness", λ _, one);
           ("elevation", layer [zero; zero; zero; one; one]);
           ("robot_slope", layer (ones 5));
           ("step_footprint", λ _, NaN);
           ("slope_footprint", λ _, NaN);
           ("traversability_footprint", λ _, NaN)]))
    (Fin (1 # 2)) false.

Definition raisedChecked : TraversabilityMap :=
  match checkForStep raisedObject (0, 2) with
  | Some (_, self) => self
  | None => raisedObject
  end.

(** A camera that looks down on the strip of [discGrid]: the cell at
    position x is seen at pixel (x, 0) of an image of seven by one
    pixels. *)
Definition stripTransform (position : Q * Q * Q) : option (Q * Q * Q) :=
  Some position.
Definition stripProject (point : Q * Q * Q) : Q * Q := (point.1.1, point.1.2).
Definition stripResolution : Z * Z := (7, 1).
Definition stripPosition0 (index : Index) : Q * Q * Q := (0%Q, 0%Q, 0%Q).
Definition stripColor (colorVector : Z * Z * Z) : double :=
  Fin (inject_Z colorVector.1.1).
Definition stripMask : Image := mkImage 1 7 (λ _ _, floorColor).

(** What [extractAllGridPosition] returns on [discGrid]. *)
Definition discExtracted : list (Q * Q * Q) * list (Q * Q * Q) :=
  match extractAllGridPosition stripTransform stripPosition0 discGrid with
  | Some vectors => vectors
  | None => ([], [])
  end.

(** A filter chain that hands back the map it was given. *)
Definition keepFilter (elevationMap traversabilityMap : GridMap) : option GridMap :=
  Some traversabilityMap.


(** One pose at cell 6 with a footprint that reaches one cell to either
    side. *)
Definition polygonPosePath : FootprintPath :=
  mkFootprintPath [poseAt 6] (Fin (1 # 4)) [((-1)%Q, 0%Q, 0%Q); (1%Q, 0%Q, 0%Q)]
    false false.

End Inputs.

(** * Properties *)

(** ** Doubles and layers *)

Lemma feqb_zero_NaN : feqb NaN zero = false.
Proof. reflexivity. Qed.

Lemma fneb_zero (a : double) : fneb a zero = negb (feqb a zero).
Proof. reflexivity. Qed.

Lemma exists_true (m : GridMap) (layer : string) :
  exists_ m layer = true ↔ is_Some (data_ m !! layer).
Proof. unfold exists_. by rewrite bool_decide_eq_true. Qed.

Lemma exists_false (m : GridMap) (layer : string) :
  exists_ m layer = false ↔ data_ m !! layer = None.
Proof.
  unfold exists_. rewrite bool_decide_eq_false, eq_None_not_Some. done.
Qed.

Lemma clear_lookup (m m' : GridMap) (layer other : string) :
  clear m layer = Some m' →
  data_ m' !! other = if decide (layer = other) then Some (λ _, NaN)
                      else data_ m !! other.
Proof.
  unfold clear. destruct (data_ m !! layer) eqn:E; [|done].
  intros [= <-]. simpl. by rewrite lookup_insert.
Qed.

Lemma clearIfExists_total (m : GridMap) (layer : string) :
  ∃ m', clearIfExists m layer = Some m'.
Proof.
  unfold clearIfExists. destruct (exists_ m layer) eqn:E; [|by eexists].
  apply exists_true in E as [mat E]. unfold clear. rewrite E. by eexists.
Qed.

Lemma clearIfExists_lookup (m m' : GridMap) (layer other : string) :
  clearIfExists m layer = Some m' →
  data_ m' !! other =
    if decide (layer = other) then (λ _, (λ _, NaN) : Matrix) <$> data_ m !! other
    else data_ m !! other.
Proof.
  unfold clearIfExists. destruct (exists_ m layer) eqn:E.
  - intros Hc. rewrite (clear_lookup _ _ _ _ Hc).
    case_decide; [subst|done]. apply exists_true in E as [mat ->]. done.
  - intros [= <-]. case_decide; [subst|done].
    apply exists_false in E. by rewrite E.
Qed.

(** ** Writes to the caches keep the configuration and the layers *)

Lemma cacheWrites_refl (self : TraversabilityMap) : cacheWrites self self.
Proof.
  exists (data_ (traversabilityMap_ self)). split; [|done].
  destruct self as [? ? ? ? ? [] ? ? ? ? ? ? ?]. done.
Qed.

Lemma cacheWrites_trans (a b c : TraversabilityMap) :
  cacheWrites a b → cacheWrites b c → cacheWrites a c.
Proof.
  intros (d1 & -> & H1) (d2 & -> & H2). exists d2. split; [done|].
  intros layer. rewrite H1. apply H2.
Qed.

Lemma setAt_cacheWrites (self : TraversabilityMap) (layer : string) (index : Index)
    (v : double) (m : GridMap) :
  setAt (traversabilityMap_ self) layer index v = Some m →
  cacheWrites self (setTraversabilityMap_ self m).
Proof.
  unfold setAt. destruct (data_ _ !! layer) as [mat|] eqn:E; [|done].
  intros [= <-]. eexists. split; [reflexivity|].
  intros l. destruct (decide (layer = l)) as [<-|Hne].
  - rewrite lookup_insert_eq, E. split; eauto.
  - by rewrite lookup_insert_ne.
Qed.

Lemma cacheWrites_config (self self' : TraversabilityMap) :
  cacheWrites self self' →
  checkRobotInclination_ self' = checkRobotInclination_ self
  ∧ checkForRoughness_ self' = checkForRoughness_ self
  ∧ traversabilityDefault_ self' = traversabilityDefault_ self
  ∧ traversabilityMapInitialized_ self' = traversabilityMapInitialized_ self
  ∧ elevationMap_ self' = elevationMap_ self.
Proof. intros (d & -> & _). done. Qed.

Lemma cacheWrites_layer (self self' : TraversabilityMap) (layer : string) :
  cacheWrites self self' →
  is_Some (data_ (traversabilityMap_ self) !! layer) →
  is_Some (data_ (traversabilityMap_ self') !! layer).
Proof. intros (d & -> & Hd). simpl. apply Hd. Qed.

Lemma setTraversabilityFootprint_cacheWrites (self self' : TraversabilityMap)
    (index : Index) (v : double) :
  setTraversabilityFootprint self index v = Some self' → cacheWrites self self'.
Proof.
  unfold setTraversabilityFootprint.
  destruct (setAt _ _ _ _) as [m|] eqn:E; [|done].
  intros [= <-]. by eapply setAt_cacheWrites.
Qed.

(** A write to an existing layer succeeds, and the cell then holds the
    value written. *)
Lemma static_cast_float_zero : static_cast_float zero = zero.
Proof. reflexivity. Qed.

Lemma setTraversabilityFootprint_total (self : TraversabilityMap) (index : Index)
    (v : double) :
  is_Some (data_ (traversabilityMap_ self) !! "traversability_footprint") →
  ∃ self',
    setTraversabilityFootprint self index v = Some self'
    ∧ at_ (traversabilityMap_ self') "traversability_footprint" index
      = Some (static_cast_float v).
Proof.
  intros [mat E]. unfold setTraversabilityFootprint, setAt. rewrite E.
  eexists. split; [reflexivity|]. unfold at_. simpl.
  rewrite lookup_insert_eq. simpl. by rewrite fn_lookup_insert.
Qed.

Section CacheWrites.
Context {G : GridMapCore}.

Local Hint Resolve cacheWrites_refl setAt_cacheWrites : core.

Lemma checkForSlope_cacheWrites (self self' : TraversabilityMap) (index : Index)
    (b : bool) :
  checkForSlope self index = Some (b, self') → cacheWrites self self'.
Proof.
  unfold checkForSlope. intros.
  repeat (case_match; simplify_eq/=); eauto.
Qed.

Lemma checkForStep_cacheWrites (self self' : TraversabilityMap) (index : Index)
    (b : bool) :
  checkForStep self index = Some (b, self') → cacheWrites self self'.
Proof.
  unfold checkForStep. intros.
  repeat (case_match; simplify_eq/=); eauto.
Qed.

Lemma checkForRoughness_cacheWrites (self self' : TraversabilityMap) (index : Index)
    (b : bool) :
  checkForRoughness self index = Some (b, self') → cacheWrites self self'.
Proof.
  unfold checkForRoughness. intros.
  repeat (case_match; simplify_eq/=); eauto.
Qed.

Lemma isTraversableForFilters_cacheWrites (self self' : TraversabilityMap)
    (index : Index) (b : bool) :
  isTraversableForFilters self index = Some (b, self') → cacheWrites self self'.
Proof.
  unfold isTraversableForFilters.
  destruct (checkForSlope self index) as [[b1 s1]|] eqn:E1; [|done].
  apply checkForSlope_cacheWrites in E1.
  destruct b1; [|by intros [= _ <-]].
  destruct (checkForStep s1 index) as [[b2 s2]|] eqn:E2; [|done].
  apply checkForStep_cacheWrites in E2.
  pose proof (cacheWrites_trans _ _ _ E1 E2) as E12.
  destruct b2; [|by intros [= _ <-]].
  destruct (checkForRoughness_ s2); [|by intros [= _ <-]].
  destruct (checkForRoughness s2 index) as [[b3 s3]|] eqn:E3; [|done].
  apply checkForRoughness_cacheWrites in E3.
  destruct b3; intros [= _ <-]; by eapply cacheWrites_trans.
Qed.

Lemma spiralBody_cacheWrites (indexCenter : Index) (radiusMax radiusMin : double)
    (computeUntraversablePolygon : bool) (st : SpiralState)
    (cell : Index * double) (r : Flow SpiralState) :
  spiralBody indexCenter radiusMax radiusMin computeUntraversablePolygon st cell
    = Some r →
  cacheWrites (spiralSelf st) (spiralSelf (match r with Next s | Return _ s => s end)).
Proof.
  unfold spiralBody. destruct cell as [index radius].
  destruct (isTraversableForFilters (spiralSelf st) index) as [[ok self1]|] eqn:E;
    [|done].
  apply isTraversableForFilters_cacheWrites in E.
  destruct ok; simpl.
  - destruct (cellTraversability self1 index); [|done]. by intros [= <-].
  - intros Hr.
    repeat (case_match; simplify_eq/=);
      try (eapply cacheWrites_trans; [exact E|]);
      eauto using setTraversabilityFootprint_cacheWrites.
Qed.

Lemma spiralLoop_cacheWrites (indexCenter : Index) (radiusMax radiusMin : double)
    (computeUntraversablePolygon : bool) (cells : list (Index * double))
    (st : SpiralState) (r : Flow SpiralState) :
  spiralLoop indexCenter radiusMax radiusMin computeUntraversablePolygon st cells
    = Some r →
  cacheWrites (spiralSelf st) (spiralSelf (match r with Next s | Return _ s => s end)).
Proof.
  revert st. induction cells as [|cell rest IH]; intros st; simpl.
  - intros [= <-]. apply cacheWrites_refl.
  - destruct (traversableRadiusBiggerMinRadius st).
    { intros [= <-]. apply cacheWrites_refl. }
    destruct (spiralBody _ _ _ _ st cell) as [[st1|b st1]|] eqn:Eb; [| |done];
      apply spiralBody_cacheWrites in Eb.
    + intros Hl. apply IH in Hl. by eapply cacheWrites_trans.
    + by intros [= <-].
Qed.

Lemma isTraversable_cacheWrites (self : TraversabilityMap) (center : Position)
    (radiusMax : double) (computeUntraversablePolygon : bool) (radiusMin : double)
    (q : QueryResult) :
  isTraversable self center radiusMax computeUntraversablePolygon radiusMin = Some q →
  cacheWrites self (selfOut q).
Proof.
  unfold isTraversable.
  destruct (isInside _ center); simpl; [|intros [= <-]; apply cacheWrites_refl].
  destruct (isValid _ _ _) as [[]|]; [| |done].
  { destruct (at_ _ _ _); [|done]. intros [= <-]. apply cacheWrites_refl. }
  destruct (spiralLoop _ _ _ _ _ _) as [[st|b st]|] eqn:El; [| |done];
    apply spiralLoop_cacheWrites in El; simpl in El.
  - destruct (circleIsTraversable st).
    + destruct (setTraversabilityFootprint _ _ _) as [s|] eqn:Es; [|done].
      apply setTraversabilityFootprint_cacheWrites in Es.
      intros [= <-]. by eapply cacheWrites_trans.
    + by intros [= <-].
  - by intros [= <-].
Qed.

Lemma lineLoop_cacheWrites (radius offset : double)
    (computeUntraversablePolygon publishPolygons : bool) (cells : list Index)
    (st : LineState) (r : Flow LineState) :
  lineLoop radius offset computeUntraversablePolygon publishPolygons st cells
    = Some r →
  cacheWrites (lineSelf st) (lineSelf (match r with Next s | Return _ s => s end)).
Proof.
  revert st. induction cells as [|cell rest IH]; intros st; simpl.
  - intros [= <-]. apply cacheWrites_refl.
  - destruct (pathIsTraversable st).
    + destruct (isTraversable _ _ _ _ _) as [q|] eqn:Eq; [|done].
      apply isTraversable_cacheWrites in Eq.
      destruct (negb (returned q) && negb computeUntraversablePolygon
                && negb publishPolygons).
      * by intros [= <-].
      * intros Hl. apply IH in Hl. by eapply cacheWrites_trans.
    + simpl. destruct (negb computeUntraversablePolygon && negb publishPolygons).
      * intros [= <-]. apply cacheWrites_refl.
      * intros Hl. by apply IH in Hl.
Qed.

Lemma circularBody_cacheWrites (v : double) (path : FootprintPath)
    (publishPolygons : bool) (arraySize i : nat) (st : CircularState)
    (pose : Pose) (r : Flow CircularState) :
  circularBody v path publishPolygons arraySize i st pose = Some r →
  cacheWrites (circularSelf st)
    (circularSelf (match r with Next s | Return _ s => s end)).
Proof.
  unfold circularBody.
  destruct (Nat.eqb arraySize 1).
  - destruct (if checkRobotInclination_ _ then _ else _) as [[]|]; [| |done].
    + destruct (isTraversable _ _ _ _ _) as [q|] eqn:Eq; [|done].
      apply isTraversable_cacheWrites in Eq.
      destruct (returned q); by intros [= <-].
    + intros [= <-]. apply cacheWrites_refl.
  - destruct (Nat.ltb 1 arraySize && Nat.ltb 0 i);
      [|intros [= <-]; apply cacheWrites_refl].
    destruct (if checkRobotInclination_ _ then _ else _) as [[]|]; [| |done].
    + destruct (lineLoop _ _ _ _ _ _) as [[l|b l]|] eqn:El; [| |done];
        apply lineLoop_cacheWrites in El; simpl in El.
      * destruct (pathIsTraversable l); by intros [= <-].
      * by intros [= <-].
    + intros [= <-]. apply cacheWrites_refl.
Qed.

Lemma circularLoop_cacheWrites (lengthPath0 : nat → double) (path : FootprintPath)
    (publishPolygons : bool) (arraySize : nat) (poses : list Pose) (i : nat)
    (st : CircularState) (r : Flow CircularState) :
  circularLoop lengthPath0 path publishPolygons arraySize i st poses = Some r →
  cacheWrites (circularSelf st)
    (circularSelf (match r with Next s | Return _ s => s end)).
Proof.
  revert i st. induction poses as [|pose rest IH]; intros i st; simpl.
  - intros [= <-]. apply cacheWrites_refl.
  - destruct (circularBody _ _ _ _ _ st pose) as [[st1|b st1]|] eqn:Eb; [| |done];
      apply circularBody_cacheWrites in Eb.
    + intros Hl. apply IH in Hl. by eapply cacheWrites_trans.
    + by intros [= <-].
Qed.

Lemma polygonLoop_cacheWrites (computeUntraversablePolygon : bool)
    (cells : list Index) (st : PolygonState) (r : Flow PolygonState) :
  polygonLoop computeUntraversablePolygon st cells = Some r →
  cacheWrites (polygonSelf st)
    (polygonSelf (match r with Next s | Return _ s => s end)).
Proof.
  revert st. induction cells as [|index rest IH]; intros st; simpl.
  - intros [= <-]. apply cacheWrites_refl.
  - destruct (isTraversableForFilters (polygonSelf st) index) as [[ok self1]|] eqn:E;
      [|done].
    apply isTraversableForFilters_cacheWrites in E.
    destruct ok; simpl.
    + destruct (cellTraversability self1 index); [|done].
      intros Hl. apply IH in Hl. by eapply cacheWrites_trans.
    + destruct computeUntraversablePolygon.
      * intros Hl. apply IH in Hl. by eapply cacheWrites_trans.
      * by intros [= <-].
Qed.

Lemma isTraversablePolygon_cacheWrites (self : TraversabilityMap)
    (polygon : Polygon) (computeUntraversablePolygon : bool)
    (untraversablePolygon : Polygon) (q : QueryResult) :
  isTraversablePolygon self polygon computeUntraversablePolygon untraversablePolygon
    = Some q →
  cacheWrites self (selfOut q).
Proof.
  unfold isTraversablePolygon.
  destruct (polygonLoop _ _ _) as [[st|b st]|] eqn:El; [| |done];
    apply polygonLoop_cacheWrites in El; simpl in El.
  - destruct (if polygonIsTraversable st then _ else _). by intros [= <-].
  - by intros [= <-].
Qed.

Lemma polygonalBody_cacheWrites (path : FootprintPath) (arraySize i : nat)
    (st : PolygonalState) (pose : Pose) (r : Flow PolygonalState) :
  polygonalBody path arraySize i st pose = Some r →
  cacheWrites (polygonalSelf st)
    (polygonalSelf (match r with Next s | Return _ s => s end)).
Proof.
  unfold polygonalBody.
  destruct (if conservative path && Nat.ltb 0 i then _ else _) as [p1 p2].
  destruct (Nat.eqb arraySize 1).
  - destruct (if checkRobotInclination_ _ then _ else _) as [[]|]; [| |done].
    + destruct (isTraversablePolygon _ _ _ _) as [q|] eqn:Eq; [|done].
      apply isTraversablePolygon_cacheWrites in Eq.
      destruct (returned q); by intros [= <-].
    + intros [= <-]. apply cacheWrites_refl.
  - destruct (Nat.ltb 1 arraySize && Nat.ltb 0 i);
      [|intros [= <-]; apply cacheWrites_refl].
    destruct (if checkRobotInclination_ _ then _ else _) as [[]|]; [| |done].
    + destruct (isTraversablePolygon _ _ _ _) as [q|] eqn:Eq; [|done].
      apply isTraversablePolygon_cacheWrites in Eq.
      destruct (returned q); by intros [= <-].
    + intros [= <-]. apply cacheWrites_refl.
Qed.

Lemma polygonalLoop_cacheWrites (path : FootprintPath) (arraySize : nat)
    (poses : list Pose) (i : nat) (st : PolygonalState) (r : Flow PolygonalState) :
  polygonalLoop path arraySize i st poses = Some r →
  cacheWrites (polygonalSelf st)
    (polygonalSelf (match r with Next s | Return _ s => s end)).
Proof.
  revert i st. induction poses as [|pose rest IH]; intros i st; simpl.
  - intros [= <-]. apply cacheWrites_refl.
  - destruct (polygonalBody _ _ _ st pose) as [[st1|b st1]|] eqn:Eb; [| |done];
      apply polygonalBody_cacheWrites in Eb.
    + intros Hl. apply IH in Hl. by eapply cacheWrites_trans.
    + by intros [= <-].
Qed.

End CacheWrites.

(** ** Setting the maps *)

Lemma allLayersExist_false (m : GridMap) (layers : list string) :
  allLayersExist m layers = false ↔ ∃ layer, layer ∈ layers ∧ exists_ m layer = false.
Proof.
  induction layers as [|l layers IH]; simpl.
  - split; [done|]. intros (l & Hl & _). by apply elem_of_nil in Hl.
  - destruct (exists_ m l) eqn:E; simpl.
    + rewrite IH. split.
      * intros (l' & Hl' & E'). exists l'. split; [by right|done].
      * intros (l' & Hl' & E'). apply elem_of_cons in Hl' as [->|Hl'].
        -- congruence.
        -- by exists l'.
    + split; [|done]. intros _. exists l. split; [by left|done].
Qed.

Lemma keptButZPosition_maps (self self' : TraversabilityMap) :
  keptButZPosition self self' →
  elevationMap_ self' = elevationMap_ self
  ∧ traversabilityMap_ self' = traversabilityMap_ self
  ∧ elevationMapInitialized_ self' = elevationMapInitialized_ self
  ∧ traversabilityMapInitialized_ self' = traversabilityMapInitialized_ self.
Proof. intros [z ->]. done. Qed.

(** C8, as amended.  [setElevationMap] checks the frame id and then the
    required layers, [setTraversabilityMap] checks only the required
    layers.  A frame mismatch in [setElevationMap] returns false and
    leaves the object as it was; a missing layer, in
    [setTraversabilityMap] and in [setElevationMap] once the frame has
    matched, returns false and leaves every member as it was except
    [zPosition_], which holds the height of the rejected message: the
    stored maps and the initialization flags are unchanged. *)
Theorem setMap_rejection (self : TraversabilityMap) (msg : GridMapMsg) :
  (frameMismatch self msg → setElevationMap self msg = (false, self))
  ∧ (layerMissing (elevationMapLayers_ self) msg →
     setElevationMap self msg
     = (false,
        if String.eqb (getMapFrameId self) (msg_frame_id msg)
        then setZPosition_ self (msg_position_z msg) else self)
     ∧ keptButZPosition self (setElevationMap self msg).2)
  ∧ (layerMissing (traversabilityMapLayers_ self) msg →
     setTraversabilityMap self msg
     = (false, setZPosition_ self (msg_position_z msg))
     ∧ keptButZPosition self (setTraversabilityMap self msg).2).
Proof.
  unfold frameMismatch, layerMissing, setElevationMap, setTraversabilityMap.
  split; [|split].
  - intros ->. done.
  - intros Hmiss. destruct (String.eqb _ _); simpl.
    + apply allLayersExist_false in Hmiss. simpl in *. rewrite Hmiss. simpl.
      split; [done|]. by eexists.
    + split; [done|]. exists (zPosition_ self). by destruct self.
  - intros Hmiss. apply allLayersExist_false in Hmiss. simpl in *.
    rewrite Hmiss. simpl. split; [done|]. by eexists.
Qed.

Lemma setMap_rejection_witness :
  setElevationMap Examples.discObject Examples.otherFrameMsg
    = (false, Examples.discObject)
  ∧ setElevationMap Examples.discObject Examples.elevationOnlyMsg
    = (false, setZPosition_ Examples.discObject (Fin 2))
  ∧ setTraversabilityMap Examples.discObject Examples.elevationOnlyMsg
    = (false, setZPosition_ Examples.discObject (Fin 2)).
Proof.
  destruct (setMap_rejection Examples.discObject Examples.otherFrameMsg)
    as (Hframe & _ & _).
  destruct (setMap_rejection Examples.discObject Examples.elevationOnlyMsg)
    as (_ & Helev & Htrav).
  split; [|split].
  - apply Hframe. reflexivity.
  - apply Helev. exists "upper_bound". split; [|reflexivity].
    right. left.
  - apply Htrav. exists "traversability". split; [|reflexivity].
    left.
Defined.

(** C8, as stated, fails: [setTraversabilityMap] accepts a map in
    another frame and installs it, and a rejected [setElevationMap] has
    already overwritten [zPosition_]. *)
Lemma setMap_rejection_counterexample :
  (frameMismatch Examples.discObject Examples.otherFrameMsg
   ∧ (setTraversabilityMap Examples.discObject Examples.otherFrameMsg).1 = true
   ∧ frameId_ (traversabilityMap_
                 (setTraversabilityMap Examples.discObject Examples.otherFrameMsg).2)
       = "odom")
  ∧ (layerMissing (elevationMapLayers_ Examples.discObject) Examples.elevationOnlyMsg
     ∧ (setElevationMap Examples.discObject Examples.elevationOnlyMsg).1 = false
     ∧ zPosition_ Examples.discObject = zero
     ∧ zPosition_ (setElevationMap Examples.discObject Examples.elevationOnlyMsg).2
         = Fin 2).
Proof.
  repeat split; try reflexivity.
  exists "upper_bound". split; [|reflexivity]. right. left.
Qed.

(** ** Resetting the footprint caches *)

Lemma reset_total (self : TraversabilityMap) :
  ∃ self', resetTraversabilityFootprintLayers self = Some self'.
Proof.
  unfold resetTraversabilityFootprintLayers.
  destruct (clearIfExists_total (traversabilityMap_ self) "step_footprint") as [m1 ->].
  destruct (clearIfExists_total m1 "slope_footprint") as [m2 ->].
  destruct (clearIfExists_total m2 "traversability_footprint") as [m3 ->].
  by eexists.
Qed.

(** The reset touches three layers only: every other layer, the
    roughness cache among them, is as before. *)
Lemma reset_other_layer (self self' : TraversabilityMap) (layer : string) :
  resetTraversabilityFootprintLayers self = Some self' →
  layer ∉ ["step_footprint"; "slope_footprint"; "traversability_footprint"] →
  data_ (traversabilityMap_ self') !! layer = data_ (traversabilityMap_ self) !! layer.
Proof.
  unfold resetTraversabilityFootprintLayers. intros Hr Hl.
  destruct (clearIfExists _ "step_footprint") as [m1|] eqn:E1; [|done].
  destruct (clearIfExists m1 "slope_footprint") as [m2|] eqn:E2; [|done].
  destruct (clearIfExists m2 "traversability_footprint") as [m3|] eqn:E3; [|done].
  injection Hr as <-. simpl.
  rewrite (clearIfExists_lookup _ _ _ layer E3), (clearIfExists_lookup _ _ _ layer E2),
    (clearIfExists_lookup _ _ _ layer E1).
  repeat case_decide; subst; try done; exfalso; apply Hl; repeat constructor.
Qed.

Lemma reset_cleared_layer (self self' : TraversabilityMap) (layer : string)
    (index : Index) :
  resetTraversabilityFootprintLayers self = Some self' →
  layer ∈ ["step_footprint"; "slope_footprint"; "traversability_footprint"] →
  exists_ (traversabilityMap_ self) layer = true →
  isValid (traversabilityMap_ self') index layer = Some false.
Proof.
  unfold resetTraversabilityFootprintLayers. intros Hr Hl He.
  apply exists_true in He as [mat He].
  destruct (clearIfExists _ "step_footprint") as [m1|] eqn:E1; [|done].
  destruct (clearIfExists m1 "slope_footprint") as [m2|] eqn:E2; [|done].
  destruct (clearIfExists m2 "traversability_footprint") as [m3|] eqn:E3; [|done].
  injection Hr as <-. unfold isValid, at_.
  cbn [traversabilityMap_ setTraversabilityMap_].
  rewrite (clearIfExists_lookup _ _ _ layer E3), (clearIfExists_lookup _ _ _ layer E2),
    (clearIfExists_lookup _ _ _ layer E1), He.
  rewrite !elem_of_cons, elem_of_nil in Hl.
  destruct Hl as [->|[->|[->|[]]]]; repeat case_decide; done.
Qed.

(** C4 fails on the code: [resetTraversabilityFootprintLayers] clears
    [step_footprint], [slope_footprint] and [traversability_footprint]
    but has no line for [roughness_footprint].  On a map whose roughness
    cache holds 0.0 at cell (0, 2), the value is still there, and valid,
    after the reset. *)
Theorem reset_leaves_roughness_footprint :
  exists_ (traversabilityMap_ Examples.roughCachedObject) "roughness_footprint" = true
  ∧ ∃ self',
      resetTraversabilityFootprintLayers Examples.roughCachedObject = Some self'
      ∧ at_ (traversabilityMap_ self') "roughness_footprint" (0, 2) = Some zero
      ∧ isValid (traversabilityMap_ self') (0, 2) "roughness_footprint" = Some true.
Proof.
  split; [reflexivity|].
  destruct (reset_total Examples.roughCachedObject) as [self' Hr].
  exists self'. split; [done|].
  assert (data_ (traversabilityMap_ self') !! "roughness_footprint"
          = data_ (traversabilityMap_ Examples.roughCachedObject)
              !! "roughness_footprint") as Hk.
  { apply (reset_other_layer _ _ _ Hr).
    rewrite !not_elem_of_cons. repeat split; [done..|apply not_elem_of_nil]. }
  unfold isValid, at_. rewrite Hk. split; vm_compute; reflexivity.
Qed.

(** ** The per-cell checks *)

Section Checks.
Context {G : GridMapCore}.

Lemma checkForSlope_nonzero (self : TraversabilityMap) (index : Index) :
  baseNonZero self slopeType_ index → checkForSlope self index = Some (true, self).
Proof. intros (v & Hv & Hz). unfold checkForSlope. by rewrite Hv, Hz. Qed.

Lemma checkForStep_nonzero (self : TraversabilityMap) (index : Index) :
  baseNonZero self stepType_ index → checkForStep self index = Some (true, self).
Proof. intros (v & Hv & Hz). unfold checkForStep. by rewrite Hv, Hz. Qed.

Lemma checkForRoughness_nonzero (self : TraversabilityMap) (index : Index) :
  baseNonZero self roughnessType_ index →
  checkForRoughness self index = Some (true, self).
Proof. intros (v & Hv & Hz). unfold checkForRoughness. by rewrite Hv, Hz. Qed.

(** C9.  Whatever the geometry and the iterators are: a cell whose base
    slope (step, roughness) value is not exactly 0.0, NaN included, passes
    the slope (step, roughness) check at once, and the check hands back
    the object it was given, so no cache cell is written and no
    neighbourhood is searched; a cell that is such in every layer that is
    checked is admissible. *)
Theorem checks_pass_on_nonzero_base (self : TraversabilityMap) (index : Index) :
  (baseNonZero self slopeType_ index →
   checkForSlope self index = Some (true, self))
  ∧ (baseNonZero self stepType_ index →
     checkForStep self index = Some (true, self))
  ∧ (baseNonZero self roughnessType_ index →
     checkForRoughness self index = Some (true, self))
  ∧ (baseNonZero self slopeType_ index →
     baseNonZero self stepType_ index →
     (checkForRoughness_ self = true → baseNonZero self roughnessType_ index) →
     isTraversableForFilters self index = Some (true, self)).
Proof.
  split; [apply checkForSlope_nonzero|].
  split; [apply checkForStep_nonzero|].
  split; [apply checkForRoughness_nonzero|].
  intros Hs Ht Hr. unfold isTraversableForFilters.
  rewrite (checkForSlope_nonzero _ _ Hs), (checkForStep_nonzero _ _ Ht).
  destruct (checkForRoughness_ self); [|done].
  by rewrite (checkForRoughness_nonzero _ _ (Hr eq_refl)).
Qed.

End Checks.

Lemma checks_pass_on_nonzero_base_witness :
  at_ (traversabilityMap_ Examples.unknownBaseObject) slopeType_ (0, 0) = Some NaN
  ∧ checkForSlope (G := Strip.core) Examples.unknownBaseObject (0, 0)
      = Some (true, Examples.unknownBaseObject)
  ∧ checkForStep (G := Strip.core) Examples.unknownBaseObject (0, 0)
      = Some (true, Examples.unknownBaseObject)
  ∧ checkForRoughness (G := Strip.core) Examples.unknownBaseObject (0, 0)
      = Some (true, Examples.unknownBaseObject)
  ∧ isTraversableForFilters (G := Strip.core) Examples.unknownBaseObject (0, 0)
      = Some (true, Examples.unknownBaseObject).
Proof.
  destruct (checks_pass_on_nonzero_base (G := Strip.core)
              Examples.unknownBaseObject (0, 0)) as (Hslope & Hstep & Hrough & Hall).
  assert (baseNonZero Examples.unknownBaseObject slopeType_ (0, 0)) as Bs.
  { exists NaN. split; reflexivity. }
  assert (baseNonZero Examples.unknownBaseObject stepType_ (0, 0)) as Bt.
  { exists one. split; reflexivity. }
  assert (baseNonZero Examples.unknownBaseObject roughnessType_ (0, 0)) as Br.
  { exists one. split; reflexivity. }
  split; [reflexivity|].
  split; [exact (Hslope Bs)|].
  split; [exact (Hstep Bt)|].
  split; [exact (Hrough Br)|].
  exact (Hall Bs Bt (λ _, Br)).
Defined.

(** ** The point/disc query outside the map *)

(** C7.  A centre outside the grid: the query returns the configured
    default as the score, true exactly when the default differs from 0.0,
    and leaves the object as it was; when it returns true the
    untraversable polygon is empty. *)
Theorem isTraversable_outside_map {G : GridMapCore} (self : TraversabilityMap)
    (center : Position) (radiusMax : double) (computeUntraversablePolygon : bool)
    (radiusMin : double) :
  isInside (traversabilityMap_ self) center = false →
  ∃ untraversablePolygon,
    isTraversable self center radiusMax computeUntraversablePolygon radiusMin
      = Some (mkQueryResult (negb (feqb (traversabilityDefault_ self) zero))
                (traversabilityDefault_ self) untraversablePolygon self)
    ∧ (feqb (traversabilityDefault_ self) zero = false → untraversablePolygon = []).
Proof.
  intros Hout. unfold isTraversable. rewrite Hout. simpl.
  eexists. split; [reflexivity|]. unfold fneb. intros ->. simpl.
  by rewrite andb_false_r.
Qed.

Lemma isTraversable_outside_map_witness :
  isTraversable (G := Strip.core) (Examples.defaultObject (Fin (3 # 5)))
    Examples.outsidePosition (Fin 3) true (Fin 1)
  = Some (mkQueryResult true (Fin (3 # 5)) [] (Examples.defaultObject (Fin (3 # 5))))
  ∧ ∃ untraversablePolygon,
      isTraversable (G := Strip.core) (Examples.defaultObject zero)
        Examples.outsidePosition (Fin 3) true (Fin 1)
      = Some (mkQueryResult false zero untraversablePolygon
                (Examples.defaultObject zero)).
Proof.
  split.
  - destruct (isTraversable_outside_map (G := Strip.core)
                (Examples.defaultObject (Fin (3 # 5)))
                Examples.outsidePosition (Fin 3) true (Fin 1)) as (p & Hq & Hp).
    { reflexivity. }
    rewrite Hq, Hp; reflexivity.
  - destruct (isTraversable_outside_map (G := Strip.core)
                (Examples.defaultObject zero)
                Examples.outsidePosition (Fin 3) true (Fin 1)) as (p & Hq & _).
    { reflexivity. }
    exists p. exact Hq.
Defined.

(** ** The spiral search *)

Section Spiral.
Context {G : GridMapCore}.
Variables (indexCenter : Index) (radiusMax radiusMin : double)
          (computeUntraversablePolygon : bool).

(** A round that leaves the disc traversable and the search running has
    seen an admissible cell and counted it. *)
Lemma spiralBody_counts (st st1 : SpiralState) (cell : Index * double) :
  spiralBody indexCenter radiusMax radiusMin computeUntraversablePolygon st cell
    = Some (Next st1) →
  circleIsTraversable st1 = true →
  traversableRadiusBiggerMinRadius st1 = false →
  circleIsTraversable st = true ∧ nCells st1 = nCells st + 1.
Proof.
  unfold spiralBody. destruct cell as [index r].
  destruct (isTraversableForFilters (spiralSelf st) index) as [[ok self1]|]; [|done].
  destruct ok; simpl.
  - destruct (cellTraversability self1 index); [|done].
    intros [= <-]. simpl. auto.
  - unfold setTraversabilityFootprint.
    destruct (feqb radiusMin zero), (fleb r radiusMin),
      (circleIsTraversable st) eqn:Ec;
      repeat (case_match; simplify_eq/=); try done;
      destruct computeUntraversablePolygon; intros Heq Hc1 Hr1; by simplify_eq/=.
Qed.

Lemma spiralLoop_running (st st' : SpiralState) (cells : list (Index * double)) :
  spiralLoop indexCenter radiusMax radiusMin computeUntraversablePolygon st cells
    = Some (Next st') →
  traversableRadiusBiggerMinRadius st' = false →
  traversableRadiusBiggerMinRadius st = false.
Proof.
  destruct cells as [|cell rest]; simpl.
  - by intros [= <-].
  - destruct (traversableRadiusBiggerMinRadius st) eqn:E; [|done].
    intros [= <-]. congruence.
Qed.

(** While the disc is traversable and the search is running, [nCells]
    counts the cells visited. *)
Lemma spiralLoop_counts (cells : list (Index * double)) (st st' : SpiralState) :
  spiralLoop indexCenter radiusMax radiusMin computeUntraversablePolygon st cells
    = Some (Next st') →
  circleIsTraversable st' = true →
  traversableRadiusBiggerMinRadius st' = false →
  circleIsTraversable st = true
  ∧ nCells st' = nCells st + Z.of_nat (length cells).
Proof.
  revert st. induction cells as [|cell rest IH]; intros st; simpl.
  - intros [= <-] Hc _. split; [done|lia].
  - destruct (traversableRadiusBiggerMinRadius st) eqn:Et.
    { intros [= <-]. congruence. }
    destruct (spiralBody _ _ _ _ st cell) as [[st1|b st1]|] eqn:Eb; [|done..].
    intros Hl Hc Hr.
    destruct (IH _ Hl Hc Hr) as [Hc1 Hn].
    pose proof (spiralLoop_running _ _ _ Hl Hr) as Hr1.
    destruct (spiralBody_counts _ _ _ Eb Hc1 Hr1) as [Hc0 Hn1].
    split; [done|lia].
Qed.

End Spiral.

Lemma fleb_zero_below (r0 radiusMin : double) :
  feqb r0 zero = true → fltb zero radiusMin = true → fleb r0 radiusMin = true.
Proof.
  destruct r0 as [|x], radiusMin as [|y]; simpl; try done.
  intros Hx Hy. apply Qeq_bool_iff in Hx. apply Qle_bool_iff.
  destruct (Qle_bool y 0) eqn:E; [done|].
  rewrite Hx. destruct (Qlt_le_dec 0 y) as [Hlt|Hle].
  - by apply Qlt_le_weak.
  - apply Qle_bool_iff in Hle. congruence.
Qed.

(** C10.  When the spiral search takes the blend branch with
    [radiusMin > 0], and the spiral starts at the centre cell at radius
    0, at least one admissible cell has been counted, so the division by
    [nCells] in that branch is a division by a positive number. *)
Theorem blend_divides_by_positive_count {G : GridMapCore}
    (self : TraversabilityMap) (center : Position) (radiusMax : double)
    (computeUntraversablePolygon : bool) (radiusMin : double)
    (st : SpiralState) (index : Index) (r : double) :
  fltb zero radiusMin = true →
  spiralStartsAtCenter (traversabilityMap_ self) center radiusMax →
  reachesBlend self center radiusMax computeUntraversablePolygon radiusMin
    st index r →
  1 ≤ nCells st
  ∧ ∀ factor : Q,
      fdiv (Fin factor) (of_int (nCells st))
      = Fin (factor / inject_Z (nCells st)).
Proof.
  intros Hmin (r0 & tl & Hspiral & Hr0)
    (before & rest & self' & Hcells & Hloop & Hrun & _ & _ & Hr & Hc).
  assert (1 ≤ nCells st) as Hn.
  { destruct before as [|cell before].
    - rewrite Hspiral in Hcells. simpl in Hcells. injection Hcells as _ <- _.
      rewrite (fleb_zero_below _ _ Hr0 Hmin) in Hr. done.
    - destruct (spiralLoop_counts _ _ _ _ _ _ _ Hloop Hc Hrun) as [_ Hn].
      simpl in Hn. lia. }
  split; [done|]. intros factor. unfold of_int, fdiv.
  destruct (Qeq_bool (inject_Z (nCells st)) 0) eqn:E; [|done].
  apply Qeq_bool_iff in E. unfold Qeq in E. simpl in E. lia.
Qed.

Lemma blend_divides_by_positive_count_witness :
  reachesBlend (G := Strip.core) Examples.discObject Examples.discCenter
    (Fin 3) false (Fin 1) Examples.blendState (0, 1) (Fin 2)
  ∧ nCells Examples.blendState = 3
  ∧ 1 ≤ nCells Examples.blendState.
Proof.
  assert (reachesBlend (G := Strip.core) Examples.discObject Examples.discCenter
            (Fin 3) false (Fin 1) Examples.blendState (0, 1) (Fin 2)) as Hreach.
  { exists (take 3 (Strip.spiral Examples.discGrid Examples.discCenter (Fin 3))),
      (drop 4 (Strip.spiral Examples.discGrid Examples.discCenter (Fin 3))),
      Examples.blendChecked.
    repeat split; vm_compute; reflexivity. }
  split; [exact Hreach|]. split; [vm_compute; reflexivity|].
  apply (blend_divides_by_positive_count (G := Strip.core) Examples.discObject
           Examples.discCenter (Fin 3) false (Fin 1) Examples.blendState
           (0, 1) (Fin 2)).
  - reflexivity.
  - exists (Fin 0), (drop 1 (Strip.spiral Examples.discGrid Examples.discCenter (Fin 3))).
    split; vm_compute; reflexivity.
  - exact Hreach.
Defined.

(** ** The inclination check *)

Section Inclination.
Context {G : GridMapCore}.

(** The line loop vetoes exactly on a sample that is 0.0; a sample that
    is not finite is passed over. *)
Lemma inclinationLine_spec (m : GridMap) (mat : Matrix) (cells : list Index) :
  data_ m !! robotSlopeType_ = Some mat →
  inclinationLine m cells = Some (negb (existsb (λ l, feqb (mat l) zero) cells)).
Proof.
  intros Hmat. induction cells as [|l rest IH]; simpl; [done|].
  unfold isValid, at_. rewrite Hmat. simpl.
  destruct (mat l) as [|q] eqn:El; simpl; [exact IH|].
  destruct (Qeq_bool q 0); simpl; [done|exact IH].
Qed.

Lemma checkInclination_zero (self : TraversabilityMap) (start end_ : Position) :
  zeroSampleOnLine self start end_ → checkInclination self start end_ = Some false.
Proof.
  unfold zeroSampleOnLine, checkInclination, atPosition.
  destruct (Position_eqb end_ start).
  - intros (-> & v & -> & ->). done.
  - intros (l & v & Hl & Hv & Hz).
    unfold at_ in Hv.
    destruct (data_ (traversabilityMap_ self) !! robotSlopeType_) as [mat|] eqn:Hmat;
      [|done].
    injection Hv as <-.
    rewrite (inclinationLine_spec _ mat _ Hmat). do 2 f_equal.
    apply negb_false_iff, existsb_exists. exists l. split; [|done].
    by apply list_elem_of_In.
Qed.

Variables (lengthPath0 : nat → double) (path : FootprintPath)
          (publishPolygons : bool) (arraySize : nat).

Lemma circularBody_is_safe (v : double) (i : nat) (st : CircularState) (pose : Pose)
    (r : Flow CircularState) :
  circularBody v path publishPolygons arraySize i st pose = Some r →
  is_safe (circularResult (match r with Next s | Return _ s => s end))
  = is_safe (circularResult st).
Proof.
  unfold circularBody.
  repeat (case_match; simplify_eq/=); intros; by simplify_eq/=.
Qed.

Lemma circularLoop_is_safe (poses : list Pose) (i : nat) (st : CircularState)
    (r : Flow CircularState) :
  circularLoop lengthPath0 path publishPolygons arraySize i st poses = Some r →
  is_safe (circularResult (match r with Next s | Return _ s => s end))
  = is_safe (circularResult st).
Proof.
  revert i st. induction poses as [|pose rest IH]; intros i st; simpl.
  - by intros [= <-].
  - destruct (circularBody _ _ _ _ _ st pose) as [[st1|b st1]|] eqn:Eb; [| |done].
    + intros Hl. rewrite (IH _ _ Hl). exact (circularBody_is_safe _ _ _ _ _ Eb).
    + intros [= <-]. exact (circularBody_is_safe _ _ _ _ _ Eb).
Qed.

Lemma circularLoop_app (before rest : list Pose) (i : nat) (st : CircularState) :
  circularLoop lengthPath0 path publishPolygons arraySize i st (before ++ rest)
  = match circularLoop lengthPath0 path publishPolygons arraySize i st before with
    | Some (Next st1) =>
        circularLoop lengthPath0 path publishPolygons arraySize
          (i + length before) st1 rest
    | other => other
    end.
Proof.
  revert i st. induction before as [|pose before IH]; intros i st; simpl.
  - by rewrite Nat.add_0_r.
  - destruct (circularBody _ _ _ _ _ st pose) as [[st1|b st1]|]; [|done..].
    rewrite IH. by rewrite Nat.add_succ_r.
Qed.

(** A pose at which the inclination is checked and vetoed: the loop body
    returns at once, with the state it was entered with. *)
Lemma circularBody_veto (v : double) (i : nat) (st : CircularState) (pose : Pose) :
  arraySize = 1%nat ∨ (1 < arraySize ∧ 0 < i)%nat →
  checkRobotInclination_ (circularSelf st) = true →
  checkInclination (circularSelf st) (inclinationStart arraySize (circularEnd st) pose)
    (posePosition2 pose) = Some false →
  circularBody v path publishPolygons arraySize i st pose = Some (Return true st).
Proof.
  unfold circularBody, inclinationStart. intros Hsize Hon Hveto.
  destruct (Nat.eqb arraySize 1) eqn:E1.
  - by rewrite Hon, Hveto.
  - destruct Hsize as [->|[Hs Hi]]; [done|].
    apply Nat.ltb_lt in Hs, Hi. rewrite Hs, Hi. simpl.
    by rewrite Hon, Hveto.
Qed.

End Inclination.

(** C3, as amended.  With the inclination check enabled: when a cell
    that [checkInclination] samples between the two poses of a segment
    (for a path of one pose, the cell of the pose) holds exactly 0.0 in
    the robot-slope layer, [checkInclination] returns false, and
    [checkCircularFootprintPath] returns at that segment with
    [is_safe = false], the result and the object being those that the
    segments before it left: this segment is not scored.  (A sample that
    is not finite does not veto: the line loop passes over it.) *)
Theorem inclination_veto {G : GridMapCore} (lengthPath0 : nat → double)
    (self : TraversabilityMap) (path : FootprintPath) (publishPolygons : bool)
    (before rest : list Pose) (pose : Pose) (st : CircularState) :
  poses path = before ++ pose :: rest →
  (before = [] → rest = []) →
  circularLoop lengthPath0 path publishPolygons (length (poses path)) 0
    (circularStart self) before = Some (Next st) →
  checkRobotInclination_ self = true →
  zeroSampleOnLine (circularSelf st)
    (inclinationStart (length (poses path)) (circularEnd st) pose) (posePosition2 pose) →
  checkInclination (circularSelf st)
    (inclinationStart (length (poses path)) (circularEnd st) pose) (posePosition2 pose)
  = Some false
  ∧ checkCircularFootprintPath lengthPath0 self path publishPolygons
    = Some (mkPathResult true (circularResult st) (circularSelf st))
  ∧ is_safe (circularResult st) = false.
Proof.
  intros Hposes Hfirst Hloop Hon Hzero.
  pose proof (circularLoop_cacheWrites _ _ _ _ _ _ _ _ Hloop) as Hw.
  apply cacheWrites_config in Hw as (Hon' & _). simpl in Hon'.
  rewrite Hon in Hon'.
  pose proof (checkInclination_zero _ _ _ Hzero) as Hveto.
  split; [exact Hveto|]. split.
  - unfold checkCircularFootprintPath.
    rewrite Hposes at 2. rewrite circularLoop_app, Hloop. simpl.
    rewrite circularBody_veto; [done| |done..].
    rewrite Hposes, length_app. simpl.
    destruct before as [|p before]; [|right; simpl; lia].
    left. rewrite (Hfirst eq_refl). done.
  - apply (circularLoop_is_safe _ _ _ _ _ _ _ _ Hloop).
Qed.

Lemma inclination_veto_witness :
  checkInclination (G := Strip.core) (circularSelf Examples.steepState) (4, 0)%Q (8, 0)%Q
  = Some false
  ∧ checkCircularFootprintPath (G := Strip.core) (λ _, zero) Examples.steepObject
      Examples.straightPath false
    = Some (mkPathResult true (circularResult Examples.steepState)
              (circularSelf Examples.steepState))
  ∧ is_safe (circularResult Examples.steepState) = false.
Proof.
  apply (inclination_veto (G := Strip.core) (λ _, zero) Examples.steepObject
           Examples.straightPath false [Examples.poseAt 0; Examples.poseAt 4] []
           (Examples.poseAt 8) Examples.steepState).
  - reflexivity.
  - discriminate.
  - vm_compute. reflexivity.
  - reflexivity.
  - unfold zeroSampleOnLine.
    replace (Position_eqb _ _) with false by (vm_compute; reflexivity).
    exists (0, 6), zero. split; [|split; vm_compute; reflexivity].
    apply list_elem_of_In. vm_compute. tauto.
Defined.

(** C3, as stated, fails: a sample that is invalid does not veto.  On a
    strip whose robot slope is NaN at cell 1 and 1 elsewhere, the line
    from cell 0 to cell 4 samples the invalid cell 1, [checkInclination]
    returns true, and the path over these two poses is safe. *)
Lemma inclination_veto_counterexample :
  (0, 1) ∈ LineIterator (GridMapCore := Strip.core)
             (traversabilityMap_ Examples.unknownSlopeObject) (0, 0) (0, 4)
  ∧ isValid (traversabilityMap_ Examples.unknownSlopeObject) (0, 1) robotSlopeType_
    = Some false
  ∧ checkRobotInclination_ Examples.unknownSlopeObject = true
  ∧ checkInclination (G := Strip.core) Examples.unknownSlopeObject (0, 0)%Q (4, 0)%Q
    = Some true
  ∧ pathOutcome (checkCircularFootprintPath (G := Strip.core) (λ _, zero)
                   Examples.unknownSlopeObject Examples.shortPath false)
    = Some (true, one, zero).
Proof.
  split; [apply list_elem_of_In; vm_compute; tauto|].
  repeat split; vm_compute; reflexivity.
Qed.

(** *** The same veto in the polygonal variant *)

Section PolygonalInclination.
Context {G : GridMapCore}.
Variables (path : FootprintPath) (arraySize : nat).

Lemma polygonalBody_is_safe (i : nat) (st : PolygonalState) (pose : Pose)
    (r : Flow PolygonalState) :
  polygonalBody path arraySize i st pose = Some r →
  is_safe (polygonalResult (match r with Next s | Return _ s => s end))
  = is_safe (polygonalResult st).
Proof.
  unfold polygonalBody.
  repeat (case_match; simplify_eq/=); intros; by simplify_eq/=.
Qed.

Lemma polygonalLoop_is_safe (poses : list Pose) (i : nat) (st : PolygonalState)
    (r : Flow PolygonalState) :
  polygonalLoop path arraySize i st poses = Some r →
  is_safe (polygonalResult (match r with Next s | Return _ s => s end))
  = is_safe (polygonalResult st).
Proof.
  revert i st. induction poses as [|pose rest IH]; intros i st; simpl.
  - by intros [= <-].
  - destruct (polygonalBody _ _ _ st pose) as [[st1|b st1]|] eqn:Eb; [| |done].
    + intros Hl. rewrite (IH _ _ Hl). exact (polygonalBody_is_safe _ _ _ _ Eb).
    + intros [= <-]. exact (polygonalBody_is_safe _ _ _ _ Eb).
Qed.

Lemma polygonalLoop_app (before rest : list Pose) (i : nat) (st : PolygonalState) :
  polygonalLoop path arraySize i st (before ++ rest)
  = match polygonalLoop path arraySize i st before with
    | Some (Next st1) => polygonalLoop path arraySize (i + length before) st1 rest
    | other => other
    end.
Proof.
  revert i st. induction before as [|pose before IH]; intros i st; simpl.
  - by rewrite Nat.add_0_r.
  - destruct (polygonalBody _ _ _ st pose) as [[st1|b st1]|]; [|done..].
    rewrite IH. by rewrite Nat.add_succ_r.
Qed.

(** A pose at which the inclination is checked and vetoed: the loop body
    returns at once; the result and the object are those it was entered
    with. *)
Lemma polygonalBody_veto (i : nat) (st : PolygonalState) (pose : Pose) :
  arraySize = 1%nat ∨ (1 < arraySize ∧ 0 < i)%nat →
  checkRobotInclination_ (polygonalSelf st) = true →
  checkInclination (polygonalSelf st)
    (inclinationStart arraySize (polygonalEnd st) pose) (posePosition2 pose)
  = Some false →
  ∃ st', polygonalBody path arraySize i st pose = Some (Return true st')
         ∧ polygonalResult st' = polygonalResult st
         ∧ polygonalSelf st' = polygonalSelf st.
Proof.
  unfold polygonalBody, inclinationStart. intros Hsize Hon Hveto.
  destruct (if conservative path && Nat.ltb 0 i then _ else _) as [p1 p2].
  destruct (Nat.eqb arraySize 1) eqn:E1.
  - rewrite Hon, Hveto. simpl. by eexists.
  - destruct Hsize as [->|[Hs Hi]]; [done|].
    apply Nat.ltb_lt in Hs, Hi. rewrite Hs, Hi. simpl.
    rewrite Hon, Hveto. simpl. by eexists.
Qed.

End PolygonalInclination.

(** The veto of C3, as amended, in [checkPolygonalFootprintPath]. *)
Lemma polygonal_inclination_veto {G : GridMapCore} (self : TraversabilityMap)
    (path : FootprintPath) (publishPolygons : bool)
    (before rest : list Pose) (pose : Pose) (st : PolygonalState) :
  poses path = before ++ pose :: rest →
  (before = [] → rest = []) →
  polygonalLoop path (length (poses path)) 0 (polygonalStart self) before
    = Some (Next st) →
  checkRobotInclination_ self = true →
  zeroSampleOnLine (polygonalSelf st)
    (inclinationStart (length (poses path)) (polygonalEnd st) pose)
    (posePosition2 pose) →
  checkPolygonalFootprintPath self path publishPolygons
  = Some (mkPathResult true (polygonalResult st) (polygonalSelf st))
  ∧ is_safe (polygonalResult st) = false.
Proof.
  intros Hposes Hfirst Hloop Hon Hzero.
  pose proof (polygonalLoop_cacheWrites _ _ _ _ _ _ Hloop) as Hw.
  apply cacheWrites_config in Hw as (Hon' & _). simpl in Hon'.
  rewrite Hon in Hon'.
  pose proof (checkInclination_zero _ _ _ Hzero) as Hveto.
  split.
  - unfold checkPolygonalFootprintPath.
    rewrite Hposes at 2. rewrite polygonalLoop_app, Hloop. simpl.
    destruct (polygonalBody_veto path (length (poses path)) (length before)
                st pose) as (st' & -> & -> & ->); [|done..].
    rewrite Hposes, length_app. simpl.
    destruct before as [|p before]; [|right; simpl; lia].
    left. rewrite (Hfirst eq_refl). done.
  - apply (polygonalLoop_is_safe _ _ _ _ _ _ Hloop).
Qed.

(** A stationary check: one pose, on a cell whose robot slope is 0.0. *)
Example stationary_veto :
  pathOutcome (checkCircularFootprintPath (G := Strip.core) (λ _, zero)
                 Examples.steepObject Examples.singlePosePath false)
  = Some (false, zero, zero).
Proof. vm_compute. reflexivity. Qed.

(** ** What the blend branch returns *)

Section Blend.
Context {G : GridMapCore}.
Variables (indexCenter : Index) (radiusMax radiusMin : double)
          (computeUntraversablePolygon : bool).

Lemma spiralLoop_app (before rest : list (Index * double)) (st : SpiralState) :
  spiralLoop indexCenter radiusMax radiusMin computeUntraversablePolygon st
    (before ++ rest)
  = match spiralLoop indexCenter radiusMax radiusMin computeUntraversablePolygon
            st before with
    | Some (Next st1) =>
        spiralLoop indexCenter radiusMax radiusMin computeUntraversablePolygon
          st1 rest
    | other => other
    end.
Proof.
  revert st. induction before as [|cell before IH]; intros st; simpl; [done|].
  destruct (traversableRadiusBiggerMinRadius st) eqn:Et.
  - destruct rest; simpl; by rewrite ?Et.
  - destruct (spiralBody _ _ _ _ st cell) as [[st1|b st1]|]; [|done..].
    apply IH.
Qed.

Lemma spiralLoop_stopped (cells : list (Index * double)) (st : SpiralState) :
  traversableRadiusBiggerMinRadius st = true →
  spiralLoop indexCenter radiusMax radiusMin computeUntraversablePolygon st cells
  = Some (Next st).
Proof. intros Ht. destruct cells; simpl; by rewrite ?Ht. Qed.

End Blend.

(** Whenever the spiral search of a query takes the blend branch, the
    query returns false if the polygon is not requested and true if it is;
    its score is the blended score, divided once more by [nCells] when
    the polygon is requested; and the score, narrowed to a float, is what
    the cache holds afterwards. *)
Lemma blend_branch_returns {G : GridMapCore} (self : TraversabilityMap)
    (center : Position) (radiusMax : double) (computeUntraversablePolygon : bool)
    (radiusMin : double) (st : SpiralState) (index : Index) (r : double) :
  let m := traversabilityMap_ self in
  isInside m center = true →
  isValid m (getIndex m center) "traversability_footprint" = Some false →
  reachesBlend self center radiusMax computeUntraversablePolygon radiusMin
    st index r →
  ∃ q,
    isTraversable self center radiusMax computeUntraversablePolygon radiusMin
      = Some q
    ∧ returned q = computeUntraversablePolygon
    ∧ traversabilityOut q
      = (if computeUntraversablePolygon
         then fdiv (blended st r radiusMin radiusMax) (of_int (nCells st))
         else blended st r radiusMin radiusMax)
    ∧ untraversablePolygonOut q = []
    ∧ at_ (traversabilityMap_ (selfOut q)) "traversability_footprint"
        (getIndex m center) = Some (static_cast_float (traversabilityOut q)).
Proof.
  intros m Hin Hcache
    (before & rest & self' & Hcells & Hloop & Hrun & Hcell & Hmin & Hr & Hc).
  subst m.
  set (m := traversabilityMap_ self) in *.
  assert (is_Some (data_ m !! "traversability_footprint")) as Hlayer.
  { unfold isValid, at_ in Hcache.
    destruct (data_ m !! "traversability_footprint"); [eauto|done]. }
  pose proof (spiralLoop_cacheWrites _ _ _ _ _ _ _ Hloop) as Hw1. simpl in Hw1.
  pose proof (isTraversableForFilters_cacheWrites _ _ _ _ Hcell) as Hw2.
  pose proof (cacheWrites_layer _ _ _ (cacheWrites_trans _ _ _ Hw1 Hw2) Hlayer)
    as Hlayer'.
  destruct (setTraversabilityFootprint_total self' (getIndex m center)
              (blended st r radiusMin radiusMax) Hlayer') as (self2 & Hset & Hat).
  unfold isTraversable. fold m. rewrite Hin, Hcache. simpl.
  rewrite Hcells, spiralLoop_app, Hloop. simpl. rewrite Hrun, Hcell. simpl. rewrite Hmin, Hr, Hc.
  fold (blended st r radiusMin radiusMax). rewrite Hset.
  destruct computeUntraversablePolygon; simpl.
  - rewrite spiralLoop_stopped by done. simpl.
    pose proof (cacheWrites_layer _ _ _
                  (setTraversabilityFootprint_cacheWrites _ _ _ _ Hset) Hlayer')
      as Hlayer2.
    destruct (setTraversabilityFootprint_total self2 (getIndex m center)
                (fdiv (blended st r radiusMin radiusMax) (of_int (nCells st)))
                Hlayer2) as (self3 & Hset3 & Hat3).
    rewrite Hset3. eexists. split; [reflexivity|]. simpl. done.
  - eexists. split; [reflexivity|]. simpl. done.
Qed.

(** A query on a cell whose cache is valid returns what the cache
    holds, true exactly when it is not 0.0. *)
Lemma cached_query {G : GridMapCore} (self : TraversabilityMap) (center : Position)
    (radiusMax : double) (computeUntraversablePolygon : bool) (radiusMin : double)
    (v : Q) :
  let m := traversabilityMap_ self in
  isInside m center = true →
  at_ m "traversability_footprint" (getIndex m center) = Some (Fin v) →
  ∃ untraversablePolygon,
    isTraversable self center radiusMax computeUntraversablePolygon radiusMin
    = Some (mkQueryResult (fneb (Fin v) zero) (Fin v) untraversablePolygon self).
Proof.
  intros m Hin Hat. unfold isTraversable, isValid. fold m.
  rewrite Hin, Hat. simpl. by eexists.
Qed.

Lemma cacheWrites_geometry {G : GridMapCore} (self self' : TraversabilityMap)
    (p : Position) :
  cacheWrites self self' →
  isInside (traversabilityMap_ self') p = isInside (traversabilityMap_ self) p
  ∧ getIndex (traversabilityMap_ self') p = getIndex (traversabilityMap_ self) p.
Proof.
  intros (d & -> & _). simpl. by rewrite isInside_setData, getIndex_setData.
Qed.

(** Whenever the spiral search of a query without the polygon takes the
    blend branch, with a blended score whose float is finite and not 0.0,
    the query returns false with the blended score, and the same query
    asked again returns true with the float. *)
Lemma repeated_blend_query {G : GridMapCore} (self : TraversabilityMap)
    (center : Position) (radiusMax radiusMin : double)
    (st : SpiralState) (index : Index) (r : double) (v : Q) :
  let m := traversabilityMap_ self in
  isInside m center = true →
  isValid m (getIndex m center) "traversability_footprint" = Some false →
  reachesBlend self center radiusMax false radiusMin st index r →
  static_cast_float (blended st r radiusMin radiusMax) = Fin v →
  Qeq_bool v 0 = false →
  ∃ q1 q2,
    isTraversable4 self center radiusMax radiusMin = Some q1
    ∧ isTraversable4 (selfOut q1) center radiusMax radiusMin = Some q2
    ∧ returned q1 = false ∧ returned q2 = true
    ∧ traversabilityOut q1 = blended st r radiusMin radiusMax
    ∧ traversabilityOut q2 = Fin v.
Proof.
  intros m Hin Hcache Hreach Hv Hnz. unfold isTraversable4.
  destruct (blend_branch_returns _ _ _ _ _ _ _ _ Hin Hcache Hreach)
    as (q1 & Hq1 & Hret & Hout & _ & Hat).
  simpl in Hout. rewrite Hout, Hv in Hat.
  pose proof (isTraversable_cacheWrites _ _ _ _ _ _ Hq1) as Hw.
  destruct (cacheWrites_geometry _ _ center Hw) as [Hin' Hidx'].
  fold m in Hin', Hidx'.
  destruct (cached_query (selfOut q1) center radiusMax false radiusMin v)
    as (p & Hq2).
  { by rewrite Hin'. }
  { by rewrite Hidx'. }
  exists q1. eexists. split; [exact Hq1|]. split; [exact Hq2|].
  simpl. unfold fneb. simpl. rewrite Hnz. done.
Qed.

(** The spiral search leaves the query early only with false. *)
Lemma spiralLoop_returns_false {G : GridMapCore} (indexCenter : Index)
    (radiusMax radiusMin : double) (computeUntraversablePolygon : bool)
    (cells : list (Index * double)) (st st' : SpiralState) (b : bool) :
  spiralLoop indexCenter radiusMax radiusMin computeUntraversablePolygon st cells
    = Some (Return b st') →
  b = false.
Proof.
  revert st. induction cells as [|cell rest IH]; intros st; simpl; [done|].
  destruct (traversableRadiusBiggerMinRadius st); [done|].
  destruct (spiralBody _ _ _ _ st cell) as [[st1|b1 st1]|] eqn:Eb; [|intros [= <- <-]|done].
  - apply IH.
  - unfold spiralBody in Eb.
    repeat (case_match; simplify_eq/=); done.
Qed.

(** What does hold of a repeated query: a query that returns true with a
    finite score other than 0.0, whose float is finite and not 0.0
    either, returns true when it is asked again, with the same score or
    with its float. *)
Lemma true_query_repeats {G : GridMapCore} (self : TraversabilityMap)
    (center : Position) (radiusMax : double) (computeUntraversablePolygon : bool)
    (radiusMin : double) (q1 : QueryResult) (v w : Q) :
  isTraversable self center radiusMax computeUntraversablePolygon radiusMin
    = Some q1 →
  returned q1 = true →
  traversabilityOut q1 = Fin v →
  Qeq_bool v 0 = false →
  static_cast_float (Fin v) = Fin w →
  Qeq_bool w 0 = false →
  ∃ q2,
    isTraversable (selfOut q1) center radiusMax computeUntraversablePolygon
      radiusMin = Some q2
    ∧ returned q2 = true
    ∧ (traversabilityOut q2 = Fin v ∨ traversabilityOut q2 = Fin w).
Proof.
  intros Hq1 Hret Hout Hnz Hw Hwnz.
  pose proof Hq1 as Hfirst. unfold isTraversable in Hq1.
  set (m := traversabilityMap_ self) in *.
  destruct (isInside m center) eqn:Hin; simpl in Hq1.
  2: { injection Hq1 as <-. simpl in *. eexists. split; [exact Hfirst|].
       simpl. split; [done|by left]. }
  destruct (isValid m (getIndex m center) "traversability_footprint")
    as [[]|] eqn:Hvalid; [| |done].
  { destruct (at_ m _ _); [|done]. injection Hq1 as <-. simpl in *.
    eexists. split; [exact Hfirst|]. simpl. split; [done|by left]. }
  assert (∃ self2,
            at_ (traversabilityMap_ self2) "traversability_footprint"
              (getIndex m center) = Some (Fin w)
            ∧ selfOut q1 = self2) as (self2 & Hat & Hself).
  { destruct (spiralLoop _ _ _ _ _ _) as [[st|b st]|] eqn:El; [| |done].
    - destruct (circleIsTraversable st); [|injection Hq1 as <-; done].
      unfold setTraversabilityFootprint, setAt in Hq1.
      destruct (data_ (traversabilityMap_ (spiralSelf st)) !! _) as [mat|] eqn:Em;
        [|done].
      simpl in Hq1. injection Hq1 as <-. simpl in *. eexists. split; [|done].
      unfold at_. simpl. rewrite lookup_insert_eq. simpl.
      by rewrite fn_lookup_insert, Hout, Hw.
    - apply spiralLoop_returns_false in El as ->.
      injection Hq1 as <-. done. }
  pose proof (isTraversable_cacheWrites _ _ _ _ _ _ Hfirst) as Hcw.
  destruct (cacheWrites_geometry _ _ center Hcw) as [Hin' Hidx'].
  fold m in Hin', Hidx'.
  destruct (cached_query (selfOut q1) center radiusMax
              computeUntraversablePolygon radiusMin w) as (p & Hq2).
  { by rewrite Hin'. }
  { by rewrite Hidx', Hself. }
  eexists. split; [exact Hq2|]. simpl. unfold fneb. simpl. rewrite Hwnz.
  split; [done|by right].
Qed.

(** ** The blend branch on a concrete strip *)

(** C1 fails on the code.  On [Examples.discObject] (seven cells of
    traversability 1, cell 1 inadmissible), the spiral around cell 3 with
    [radiusMax = 3] and [radiusMin = 1] counts the three cells 3, 2 and 4
    (running sum 3, average 1) and meets the inadmissible cell 1 at radius
    2 > 1: the blend branch, with factor ((2 - 1) / (3 - 1) + 1) / 2 = 3/4.
    The claim promises (true, 3/4) whether or not the polygon is
    requested.  Without the polygon the code leaves through the
    [return false] that follows the branch: it returns false, with score
    3/4.  With the polygon the loop ends, and the score, already divided
    by [nCells] in the branch, is divided by [nCells] again after the
    loop: it returns true with score 3/4 / 3 = 1/4. *)
Theorem blend_branch_outcome :
  reachesBlend (G := Strip.core) Examples.discObject Examples.discCenter
    (Fin 3) false (Fin 1) Examples.blendState (0, 1) (Fin 2)
  ∧ reduced (traversability Examples.blendState) = Fin 3
  ∧ nCells Examples.blendState = 3
  ∧ reduced (blendFactor (Fin 2) (Fin 1) (Fin 3)) = Fin (3 # 4)
  ∧ queryOutcome (isTraversable (G := Strip.core) Examples.discObject
                    Examples.discCenter (Fin 3) false (Fin 1))
    = Some (false, Fin (3 # 4))
  ∧ queryOutcome (isTraversable (G := Strip.core) Examples.discObject
                    Examples.discCenter (Fin 3) true (Fin 1))
    = Some (true, Fin (1 # 4)).
Proof.
  split.
  { exists (take 3 (Strip.spiral Examples.discGrid Examples.discCenter (Fin 3))),
      (drop 4 (Strip.spiral Examples.discGrid Examples.discCenter (Fin 3))),
      Examples.blendChecked.
    repeat split; vm_compute; reflexivity. }
  repeat split; vm_compute; reflexivity.
Qed.

(** C2 fails on the code.  On the same strip, the first call of the query
    without the polygon returns false and stores the blended score 3/4 in
    the cache; the second call reads the cache and returns true.  With
    [radiusMin = 0] the first call returns false with the running sum 3
    as its score and stores 0.0; the second call returns false with score
    0.0. *)
Theorem repeated_query_differs :
  queryOutcome (isTraversable4 (G := Strip.core) Examples.discObject
                  Examples.discCenter (Fin 3) (Fin 1))
  = Some (false, Fin (3 # 4))
  ∧ queryOutcome
      (let? q := isTraversable4 (G := Strip.core) Examples.discObject
                   Examples.discCenter (Fin 3) (Fin 1) in
       isTraversable4 (G := Strip.core) (selfOut q) Examples.discCenter
         (Fin 3) (Fin 1))
    = Some (true, Fin (3 # 4))
  ∧ queryOutcome (isTraversable4 (G := Strip.core) Examples.discObject
                    Examples.discCenter (Fin 3) zero)
    = Some (false, Fin 3)
  ∧ queryOutcome
      (let? q := isTraversable4 (G := Strip.core) Examples.discObject
                   Examples.discCenter (Fin 3) zero in
       isTraversable4 (G := Strip.core) (selfOut q) Examples.discCenter
         (Fin 3) zero)
    = Some (false, zero).
Proof. repeat split; vm_compute; reflexivity. Qed.

(** ** Paths on a concrete strip *)

(** The fusion formula of a round with [i > 1], for a segment of length
    [l] that scores [t], a prior result [t0] and the value [g] read from
    [lengthPath]. *)
Lemma fused_score (g l t t0 : Q) :
  ¬ (g + l == 0)%Q →
  same_value
    (fdiv (fadd (fmul (Fin l) (Fin t)) (fmul (Fin g) (Fin t0)))
          (fadd (Fin g) (Fin l)))
    (Fin ((l * t + g * t0) / (g + l))).
Proof.
  intros Hnz. simpl. destruct (Qeq_bool (g + l) 0) eqn:E; simpl; [|reflexivity].
  by apply Qeq_bool_iff in E.
Qed.

(** When the segment and the prior result score the same [t], the fused
    score is [t] for every finite value read from [lengthPath] but [- l]. *)
Lemma fused_score_uniform (g l t : Q) :
  ¬ (g + l == 0)%Q →
  same_value
    (fdiv (fadd (fmul (Fin l) (Fin t)) (fmul (Fin g) (Fin t)))
          (fadd (Fin g) (Fin l)))
    (Fin t).
Proof.
  intros Hnz. simpl. destruct (Qeq_bool (g + l) 0) eqn:E; simpl.
  - by apply Qeq_bool_iff in E.
  - field. exact Hnz.
Qed.

(** C5 fails on the code.  [Examples.straightPath] has two segments of
    length 4; on [Examples.pathObject] the first scores 1 and the second
    3/4, so the length-weighted average is 7/8.  The code weighs the
    prior result with the value it reads from the uninitialised
    [lengthPath]: when that value is 0 the path scores 3/4, when it is not
    a number the path scores NaN, and only when it happens to be the
    length 4 of the path so far does the path score 7/8. *)
Theorem path_average_reads_uninitialised_length :
  norm (GridMapCore := Strip.core) (vsub (4, 0)%Q (0, 0)%Q) = 4%Q
  ∧ norm (GridMapCore := Strip.core) (vsub (8, 0)%Q (4, 0)%Q) = 4%Q
  ∧ pathOutcome (checkCircularFootprintPath (G := Strip.core) (λ _, zero)
                   Examples.pathObject Examples.shortPath false)
    = Some (true, one, zero)
  ∧ pathOutcome (checkCircularFootprintPath (G := Strip.core) (λ _, zero)
                   Examples.pathObject Examples.secondSegment false)
    = Some (true, Fin (3 # 4), zero)
  ∧ pathOutcome (checkCircularFootprintPath (G := Strip.core) (λ _, zero)
                   Examples.pathObject Examples.straightPath false)
    = Some (true, Fin (3 # 4), zero)
  ∧ pathOutcome (checkCircularFootprintPath (G := Strip.core) (λ _, NaN)
                   Examples.pathObject Examples.straightPath false)
    = Some (true, NaN, zero)
  ∧ pathOutcome (checkCircularFootprintPath (G := Strip.core) (λ _, Fin 4)
                   Examples.pathObject Examples.straightPath false)
    = Some (true, Fin (7 # 8), zero).
Proof. repeat split; vm_compute; reflexivity. Qed.

(** C6 fails on the code.  On [Examples.blockedObject] the first segment
    of [Examples.straightPath] scores 1 and the second meets the
    inadmissible cell 8.  The check returns with [is_safe = false], but
    [result.traversability] is the 1 that the first segment wrote, not the
    default 0.0. *)
Theorem failed_path_keeps_partial_score (lengthPath0 : nat → double) :
  pathOutcome (checkFootprintPath (G := Strip.core) lengthPath0
                 Examples.blockedObject Examples.straightPath
                 Examples.emptyResult false)
  = Some (false, one, zero).
Proof. vm_compute. reflexivity. Qed.

(** * Further properties *)

(** ** The three checks are one memoised scheme *)

Lemma setAt_lookup (m m' : GridMap) (layer other : string) (index : Index)
    (v : double) :
  setAt m layer index v = Some m' →
  data_ m' !! other
  = if decide (layer = other)
    then (λ mat : Matrix, <[index := v]> mat) <$> data_ m !! other
    else data_ m !! other.
Proof.
  unfold setAt. destruct (data_ m !! layer) as [mat|] eqn:E; [|done].
  intros [= <-]. simpl. case_decide as Hl.
  - subst. by rewrite lookup_insert_eq, E.
  - by rewrite lookup_insert_ne.
Qed.

Lemma at_lookup (m m' : GridMap) (layer : string) (index : Index) :
  data_ m' !! layer = data_ m !! layer → at_ m' layer index = at_ m layer index.
Proof. unfold at_. by intros ->. Qed.

Lemma isValid_lookup (m m' : GridMap) (layer : string) (index : Index) :
  data_ m' !! layer = data_ m !! layer →
  isValid m' index layer = isValid m index layer.
Proof. unfold isValid. intros H. by rewrite (at_lookup _ _ _ _ H). Qed.

Section Memo.
Context {G : GridMapCore}.

Lemma checkForSlope_memo (self : TraversabilityMap) (index : Index) :
  checkForSlope self index
  = memoCheck slopeType_ "slope_footprint" (slopeSearch self index) self index.
Proof. reflexivity. Qed.

Lemma checkForRoughness_memo (self : TraversabilityMap) (index : Index) :
  checkForRoughness self index
  = memoCheck roughnessType_ "roughness_footprint" (roughnessSearch self index)
      self index.
Proof. reflexivity. Qed.

Lemma checkForStep_memo (self : TraversabilityMap) (index : Index) :
  checkForStep self index
  = memoCheck stepType_ "step_footprint" (stepSearch self index) self index.
Proof.
  unfold checkForStep, memoCheck, stepSearch.
  destruct (at_ _ stepType_ index) as [v|]; [|done].
  destruct (feqb v zero); [|done].
  destruct (isValid _ index "step_footprint") as [[]|]; [done| |done].
  simpl. destruct (at_ _ "elevation" index) as [h|]; [|done].
  destruct (stepCandidates _ _ _ _) as [indices|]; done.
Qed.

End Memo.

(** A memoised check writes at most the one cache cell of its index. *)
Lemma memoCheck_writes (base cache : string) (search : option bool)
    (self self' : TraversabilityMap) (index : Index) (b : bool) :
  memoCheck base cache search self index = Some (b, self') →
  self' = self
  ∨ ∃ m, setAt (traversabilityMap_ self) cache index (if b then one else zero)
         = Some m
         ∧ self' = setTraversabilityMap_ self m.
Proof.
  unfold memoCheck. intros H.
  repeat (case_match; simplify_eq/=); eauto.
Qed.

Lemma memoCheck_other_layer (base cache : string) (search : option bool)
    (self self' : TraversabilityMap) (index : Index) (b : bool) (layer : string) :
  memoCheck base cache search self index = Some (b, self') →
  layer ≠ cache →
  data_ (traversabilityMap_ self') !! layer
  = data_ (traversabilityMap_ self) !! layer.
Proof.
  intros H Hne. apply memoCheck_writes in H as [->|(m & Hset & ->)]; [done|].
  simpl. rewrite (setAt_lookup _ _ _ layer _ _ Hset). by case_decide.
Qed.

(** Once a memoised check has answered, it gives the same answer, without
    a write, on every object whose base and cache layers are those it
    left. *)
Lemma memoCheck_settled (base cache : string) (search search' : option bool)
    (self self1 self2 : TraversabilityMap) (index : Index) (b : bool) :
  base ≠ cache →
  memoCheck base cache search self index = Some (b, self1) →
  data_ (traversabilityMap_ self2) !! base
  = data_ (traversabilityMap_ self1) !! base →
  data_ (traversabilityMap_ self2) !! cache
  = data_ (traversabilityMap_ self1) !! cache →
  memoCheck base cache search' self2 index = Some (b, self2).
Proof.
  intros Hne H Hbase Hcache.
  unfold memoCheck. rewrite (isValid_lookup _ _ _ _ Hcache),
    (at_lookup _ _ _ _ Hbase), (at_lookup _ _ _ _ Hcache).
  pose proof (memoCheck_other_layer _ _ _ _ _ _ _ base H Hne) as Hb1.
  rewrite (at_lookup _ _ _ index Hb1).
  unfold memoCheck in H.
  destruct (at_ (traversabilityMap_ self) base index) as [v|]; [|done].
  destruct (feqb v zero); [|by simplify_eq].
  destruct (isValid (traversabilityMap_ self) index cache) as [[]|] eqn:Hv;
    [| |done]; simpl in H.
  - destruct (at_ (traversabilityMap_ self) cache index) as [c|] eqn:Hc; [|done].
    assert (self1 = self) as -> by (destruct (feqb c zero); by simplify_eq).
    rewrite Hv, Hc. simpl. destruct (feqb c zero); by simplify_eq.
  - destruct search as [bad|]; [|done].
    assert (∃ m, setAt (traversabilityMap_ self) cache index
                   (if b then one else zero) = Some m
                 ∧ self1 = setTraversabilityMap_ self m) as (m & Hset & ->).
    { destruct bad, (setAt _ _ _ _) as [m|] eqn:Hset; simplify_eq/=; eauto. }
    unfold isValid, at_. simpl.
    rewrite (setAt_lookup _ _ _ cache _ _ Hset).
    rewrite decide_True by done.
    unfold setAt in Hset.
    destruct (data_ (traversabilityMap_ self) !! cache) as [mat|]; [|done].
    simpl. rewrite fn_lookup_insert. by destruct b.
Qed.

(** ** The admissibility of a cell is memoised *)

Section Memoised.
Context {G : GridMapCore}.

Lemma checkForSlope_settled (self self1 self2 : TraversabilityMap) (index : Index)
    (b : bool) :
  checkForSlope self index = Some (b, self1) →
  data_ (traversabilityMap_ self2) !! slopeType_
  = data_ (traversabilityMap_ self1) !! slopeType_ →
  data_ (traversabilityMap_ self2) !! "slope_footprint"
  = data_ (traversabilityMap_ self1) !! "slope_footprint" →
  checkForSlope self2 index = Some (b, self2).
Proof.
  rewrite !checkForSlope_memo. by apply memoCheck_settled.
Qed.

Lemma checkForStep_settled (self self1 self2 : TraversabilityMap) (index : Index)
    (b : bool) :
  checkForStep self index = Some (b, self1) →
  data_ (traversabilityMap_ self2) !! stepType_
  = data_ (traversabilityMap_ self1) !! stepType_ →
  data_ (traversabilityMap_ self2) !! "step_footprint"
  = data_ (traversabilityMap_ self1) !! "step_footprint" →
  checkForStep self2 index = Some (b, self2).
Proof.
  rewrite !checkForStep_memo. by apply memoCheck_settled.
Qed.

Lemma checkForRoughness_settled (self self1 self2 : TraversabilityMap)
    (index : Index) (b : bool) :
  checkForRoughness self index = Some (b, self1) →
  data_ (traversabilityMap_ self2) !! roughnessType_
  = data_ (traversabilityMap_ self1) !! roughnessType_ →
  data_ (traversabilityMap_ self2) !! "roughness_footprint"
  = data_ (traversabilityMap_ self1) !! "roughness_footprint" →
  checkForRoughness self2 index = Some (b, self2).
Proof.
  rewrite !checkForRoughness_memo. by apply memoCheck_settled.
Qed.

(** X1.  The admissibility check is memoised: asked again about the same
    cell, on the object that the first call left, it gives the same
    verdict and leaves the object as it is. *)
Theorem isTraversableForFilters_repeats (self self' : TraversabilityMap)
    (index : Index) (b : bool) :
  isTraversableForFilters self index = Some (b, self') →
  isTraversableForFilters self' index = Some (b, self').
Proof.
  unfold isTraversableForFilters.
  destruct (checkForSlope self index) as [[b1 s1]|] eqn:E1; [|done].
  destruct b1.
  2: { intros [= <- <-]. by rewrite (checkForSlope_settled _ _ s1 _ _ E1). }
  destruct (checkForStep s1 index) as [[b2 s2]|] eqn:E2; [|done].
  pose proof E2 as F2. rewrite checkForStep_memo in F2.
  destruct b2.
  2: { intros [= <- <-].
       rewrite (checkForSlope_settled _ _ s2 _ _ E1);
         [|by apply (memoCheck_other_layer _ _ _ _ _ _ _ _ F2)..].
       by rewrite (checkForStep_settled _ _ s2 _ _ E2). }
  pose proof (cacheWrites_trans _ _ _ (checkForSlope_cacheWrites _ _ _ _ E1)
                (checkForStep_cacheWrites _ _ _ _ E2)) as Hw.
  destruct (checkForRoughness_ s2) eqn:Er.
  - destruct (checkForRoughness s2 index) as [[b3 s3]|] eqn:E3; [|done].
    pose proof E3 as F3. rewrite checkForRoughness_memo in F3.
    assert (checkForRoughness_ s3 = true) as Er3.
    { apply checkForRoughness_cacheWrites, cacheWrites_config in E3
        as (_ & -> & _). done. }
    assert (isTraversableForFilters s3 index = Some (b3, s3)) as Hgoal.
    { unfold isTraversableForFilters.
      rewrite (checkForSlope_settled _ _ s3 _ _ E1).
      2,3: rewrite (memoCheck_other_layer _ _ _ _ _ _ _ _ F3) by done;
           by apply (memoCheck_other_layer _ _ _ _ _ _ _ _ F2).
      rewrite (checkForStep_settled _ _ s3 _ _ E2);
        [|by apply (memoCheck_other_layer _ _ _ _ _ _ _ _ F3)..].
      rewrite Er3, (checkForRoughness_settled _ _ s3 _ _ E3) by done.
      by destruct b3. }
    destruct b3; intros [= <- <-]; exact Hgoal.
  - intros [= <- <-].
    rewrite (checkForSlope_settled _ _ s2 _ _ E1);
      [|by apply (memoCheck_other_layer _ _ _ _ _ _ _ _ F2)..].
    by rewrite (checkForStep_settled _ _ s2 _ _ E2), Er.
Qed.

End Memoised.

(** ** Queries write to the caches only *)

Lemma baseLayersKept_refl (self : TraversabilityMap) : baseLayersKept self self.
Proof. by intros layer _. Qed.

Lemma baseLayersKept_trans (a b c : TraversabilityMap) :
  baseLayersKept a b → baseLayersKept b c → baseLayersKept a c.
Proof. intros H1 H2 layer Hl. by rewrite (H2 _ Hl), (H1 _ Hl). Qed.

Lemma setAt_baseLayersKept (self : TraversabilityMap) (cache : string)
    (index : Index) (v : double) (m : GridMap) :
  cache ∈ footprintLayers →
  setAt (traversabilityMap_ self) cache index v = Some m →
  baseLayersKept self (setTraversabilityMap_ self m).
Proof.
  intros Hc Hset layer Hl. simpl.
  rewrite (setAt_lookup _ _ _ layer _ _ Hset).
  case_decide; [by subst|done].
Qed.

Lemma memoCheck_baseLayersKept (base cache : string) (search : option bool)
    (self self' : TraversabilityMap) (index : Index) (b : bool) :
  cache ∈ footprintLayers →
  memoCheck base cache search self index = Some (b, self') →
  baseLayersKept self self'.
Proof.
  intros Hc H layer Hl. apply (memoCheck_other_layer _ _ _ _ _ _ _ _ H).
  by intros ->.
Qed.

Lemma setTraversabilityFootprint_baseLayersKept (self self' : TraversabilityMap)
    (index : Index) (v : double) :
  setTraversabilityFootprint self index v = Some self' → baseLayersKept self self'.
Proof.
  unfold setTraversabilityFootprint.
  destruct (setAt _ _ _ _) as [m|] eqn:E; [|done].
  intros [= <-]. eapply setAt_baseLayersKept; [|exact E].
  unfold footprintLayers. repeat constructor.
Qed.

Section BaseLayers.
Context {G : GridMapCore}.

Lemma isTraversableForFilters_baseLayersKept (self self' : TraversabilityMap)
    (index : Index) (b : bool) :
  isTraversableForFilters self index = Some (b, self') → baseLayersKept self self'.
Proof.
  unfold isTraversableForFilters.
  assert (∀ c, c ∈ ["slope_footprint"; "step_footprint"; "roughness_footprint"] →
               c ∈ footprintLayers) as Hin.
  { intros c. unfold footprintLayers. rewrite !elem_of_cons. tauto. }
  destruct (checkForSlope self index) as [[b1 s1]|] eqn:E1; [|done].
  rewrite checkForSlope_memo in E1.
  apply memoCheck_baseLayersKept in E1; [|apply Hin; repeat constructor].
  destruct b1; [|by intros [= _ <-]].
  destruct (checkForStep s1 index) as [[b2 s2]|] eqn:E2; [|done].
  rewrite checkForStep_memo in E2.
  apply memoCheck_baseLayersKept in E2; [|apply Hin; repeat constructor].
  pose proof (baseLayersKept_trans _ _ _ E1 E2) as E12.
  destruct b2; [|by intros [= _ <-]].
  destruct (checkForRoughness_ s2); [|by intros [= _ <-]].
  destruct (checkForRoughness s2 index) as [[b3 s3]|] eqn:E3; [|done].
  rewrite checkForRoughness_memo in E3.
  apply memoCheck_baseLayersKept in E3; [|apply Hin; repeat constructor].
  destruct b3; intros [= _ <-]; by eapply baseLayersKept_trans.
Qed.

Lemma spiralBody_baseLayersKept (indexCenter : Index) (radiusMax radiusMin : double)
    (computeUntraversablePolygon : bool) (st : SpiralState)
    (cell : Index * double) (r : Flow SpiralState) :
  spiralBody indexCenter radiusMax radiusMin computeUntraversablePolygon st cell
    = Some r →
  baseLayersKept (spiralSelf st)
    (spiralSelf (match r with Next s | Return _ s => s end)).
Proof.
  unfold spiralBody. destruct cell as [index radius].
  destruct (isTraversableForFilters (spiralSelf st) index) as [[ok self1]|] eqn:E;
    [|done].
  apply isTraversableForFilters_baseLayersKept in E.
  destruct ok; simpl.
  - destruct (cellTraversability self1 index); [|done]. by intros [= <-].
  - intros Hr.
    repeat (case_match; simplify_eq/=);
      try (eapply baseLayersKept_trans; [exact E|]);
      eauto using setTraversabilityFootprint_baseLayersKept, baseLayersKept_refl.
Qed.

Lemma spiralLoop_baseLayersKept (indexCenter : Index) (radiusMax radiusMin : double)
    (computeUntraversablePolygon : bool) (cells : list (Index * double))
    (st : SpiralState) (r : Flow SpiralState) :
  spiralLoop indexCenter radiusMax radiusMin computeUntraversablePolygon st cells
    = Some r →
  baseLayersKept (spiralSelf st)
    (spiralSelf (match r with Next s | Return _ s => s end)).
Proof.
  revert st. induction cells as [|cell rest IH]; intros st; simpl.
  - intros [= <-]. apply baseLayersKept_refl.
  - destruct (traversableRadiusBiggerMinRadius st).
    { intros [= <-]. apply baseLayersKept_refl. }
    destruct (spiralBody _ _ _ _ st cell) as [[st1|b st1]|] eqn:Eb; [| |done];
      apply spiralBody_baseLayersKept in Eb.
    + intros Hl. apply IH in Hl. by eapply baseLayersKept_trans.
    + by intros [= <-].
Qed.

Lemma isTraversable_baseLayersKept (self : TraversabilityMap) (center : Position)
    (radiusMax : double) (computeUntraversablePolygon : bool) (radiusMin : double)
    (q : QueryResult) :
  isTraversable self center radiusMax computeUntraversablePolygon radiusMin = Some q →
  baseLayersKept self (selfOut q).
Proof.
  unfold isTraversable.
  destruct (isInside _ center); simpl; [|intros [= <-]; apply baseLayersKept_refl].
  destruct (isValid _ _ _) as [[]|]; [| |done].
  { destruct (at_ _ _ _); [|done]. intros [= <-]. apply baseLayersKept_refl. }
  destruct (spiralLoop _ _ _ _ _ _) as [[st|b st]|] eqn:El; [| |done];
    apply spiralLoop_baseLayersKept in El; simpl in El.
  - destruct (circleIsTraversable st).
    + destruct (setTraversabilityFootprint _ _ _) as [s|] eqn:Es; [|done].
      apply setTraversabilityFootprint_baseLayersKept in Es.
      intros [= <-]. by eapply baseLayersKept_trans.
    + by intros [= <-].
  - by intros [= <-].
Qed.

Lemma polygonLoop_baseLayersKept (computeUntraversablePolygon : bool)
    (cells : list Index) (st : PolygonState) (r : Flow PolygonState) :
  polygonLoop computeUntraversablePolygon st cells = Some r →
  baseLayersKept (polygonSelf st)
    (polygonSelf (match r with Next s | Return _ s => s end)).
Proof.
  revert st. induction cells as [|index rest IH]; intros st; simpl.
  - intros [= <-]. apply baseLayersKept_refl.
  - destruct (isTraversableForFilters (polygonSelf st) index) as [[ok self1]|] eqn:E;
      [|done].
    apply isTraversableForFilters_baseLayersKept in E.
    destruct ok; simpl.
    + destruct (cellTraversability self1 index); [|done].
      intros Hl. apply IH in Hl. by eapply baseLayersKept_trans.
    + destruct computeUntraversablePolygon.
      * intros Hl. apply IH in Hl. by eapply baseLayersKept_trans.
      * by intros [= <-].
Qed.

Lemma isTraversablePolygon_baseLayersKept (self : TraversabilityMap)
    (polygon : Polygon) (computeUntraversablePolygon : bool)
    (untraversablePolygon : Polygon) (q : QueryResult) :
  isTraversablePolygon self polygon computeUntraversablePolygon untraversablePolygon
    = Some q →
  baseLayersKept self (selfOut q).
Proof.
  unfold isTraversablePolygon.
  destruct (polygonLoop _ _ _) as [[st|b st]|] eqn:El; [| |done];
    apply polygonLoop_baseLayersKept in El; simpl in El.
  - destruct (if polygonIsTraversable st then _ else _). by intros [= <-].
  - by intros [= <-].
Qed.

Lemma lineLoop_baseLayersKept (radius offset : double)
    (computeUntraversablePolygon publishPolygons : bool) (cells : list Index)
    (st : LineState) (r : Flow LineState) :
  lineLoop radius offset computeUntraversablePolygon publishPolygons st cells
    = Some r →
  baseLayersKept (lineSelf st)
    (lineSelf (match r with Next s | Return _ s => s end)).
Proof.
  revert st. induction cells as [|cell rest IH]; intros st; simpl.
  - intros [= <-]. apply baseLayersKept_refl.
  - destruct (pathIsTraversable st).
    + destruct (isTraversable _ _ _ _ _) as [q|] eqn:Eq; [|done].
      apply isTraversable_baseLayersKept in Eq.
      destruct (negb (returned q) && negb computeUntraversablePolygon
                && negb publishPolygons).
      * by intros [= <-].
      * intros Hl. apply IH in Hl. by eapply baseLayersKept_trans.
    + simpl. destruct (negb computeUntraversablePolygon && negb publishPolygons).
      * intros [= <-]. apply baseLayersKept_refl.
      * intros Hl. by apply IH in Hl.
Qed.

Lemma circularBody_baseLayersKept (v : double) (path : FootprintPath)
    (publishPolygons : bool) (arraySize i : nat) (st : CircularState)
    (pose : Pose) (r : Flow CircularState) :
  circularBody v path publishPolygons arraySize i st pose = Some r →
  baseLayersKept (circularSelf st)
    (circularSelf (match r with Next s | Return _ s => s end)).
Proof.
  unfold circularBody.
  destruct (Nat.eqb arraySize 1).
  - destruct (if checkRobotInclination_ _ then _ else _) as [[]|]; [| |done].
    + destruct (isTraversable _ _ _ _ _) as [q|] eqn:Eq; [|done].
      apply isTraversable_baseLayersKept in Eq.
      destruct (returned q); by intros [= <-].
    + intros [= <-]. apply baseLayersKept_refl.
  - destruct (Nat.ltb 1 arraySize && Nat.ltb 0 i);
      [|intros [= <-]; apply baseLayersKept_refl].
    destruct (if checkRobotInclination_ _ then _ else _) as [[]|]; [| |done].
    + destruct (lineLoop _ _ _ _ _ _) as [[l|b l]|] eqn:El; [| |done];
        apply lineLoop_baseLayersKept in El; simpl in El.
      * destruct (pathIsTraversable l); by intros [= <-].
      * by intros [= <-].
    + intros [= <-]. apply baseLayersKept_refl.
Qed.

Lemma circularLoop_baseLayersKept (lengthPath0 : nat → double)
    (path : FootprintPath) (publishPolygons : bool) (arraySize : nat)
    (poses : list Pose) (i : nat) (st : CircularState) (r : Flow CircularState) :
  circularLoop lengthPath0 path publishPolygons arraySize i st poses = Some r →
  baseLayersKept (circularSelf st)
    (circularSelf (match r with Next s | Return _ s => s end)).
Proof.
  revert i st. induction poses as [|pose rest IH]; intros i st; simpl.
  - intros [= <-]. apply baseLayersKept_refl.
  - destruct (circularBody _ _ _ _ _ st pose) as [[st1|b st1]|] eqn:Eb; [| |done];
      apply circularBody_baseLayersKept in Eb.
    + intros Hl. apply IH in Hl. by eapply baseLayersKept_trans.
    + by intros [= <-].
Qed.

Lemma polygonalBody_baseLayersKept (path : FootprintPath) (arraySize i : nat)
    (st : PolygonalState) (pose : Pose) (r : Flow PolygonalState) :
  polygonalBody path arraySize i st pose = Some r →
  baseLayersKept (polygonalSelf st)
    (polygonalSelf (match r with Next s | Return _ s => s end)).
Proof.
  unfold polygonalBody.
  destruct (if conservative path && Nat.ltb 0 i then _ else _) as [p1 p2].
  destruct (Nat.eqb arraySize 1).
  - destruct (if checkRobotInclination_ _ then _ else _) as [[]|]; [| |done].
    + destruct (isTraversablePolygon _ _ _ _) as [q|] eqn:Eq; [|done].
      apply isTraversablePolygon_baseLayersKept in Eq.
      destruct (returned q); by intros [= <-].
    + intros [= <-]. apply baseLayersKept_refl.
  - destruct (Nat.ltb 1 arraySize && Nat.ltb 0 i);
      [|intros [= <-]; apply baseLayersKept_refl].
    destruct (if checkRobotInclination_ _ then _ else _) as [[]|]; [| |done].
    + destruct (isTraversablePolygon _ _ _ _) as [q|] eqn:Eq; [|done].
      apply isTraversablePolygon_baseLayersKept in Eq.
      destruct (returned q); by intros [= <-].
    + intros [= <-]. apply baseLayersKept_refl.
Qed.

Lemma polygonalLoop_baseLayersKept (path : FootprintPath) (arraySize : nat)
    (poses : list Pose) (i : nat) (st : PolygonalState) (r : Flow PolygonalState) :
  polygonalLoop path arraySize i st poses = Some r →
  baseLayersKept (polygonalSelf st)
    (polygonalSelf (match r with Next s | Return _ s => s end)).
Proof.
  revert i st. induction poses as [|pose rest IH]; intros i st; simpl.
  - intros [= <-]. apply baseLayersKept_refl.
  - destruct (polygonalBody _ _ _ st pose) as [[st1|b st1]|] eqn:Eb; [| |done];
      apply polygonalBody_baseLayersKept in Eb.
    + intros Hl. apply IH in Hl. by eapply baseLayersKept_trans.
    + by intros [= <-].
Qed.

Lemma traversabilityFootprintLoop_kept (radius offset : double)
    (cells : list Index) (self self' : TraversabilityMap) :
  traversabilityFootprintLoop radius offset self cells = Some self' →
  baseLayersKept self self' ∧ cacheWrites self self'.
Proof.
  revert self. induction cells as [|cell rest IH]; intros self; simpl.
  - intros [= <-]. split; [apply baseLayersKept_refl|apply cacheWrites_refl].
  - unfold isTraversable4.
    destruct (isTraversable _ _ _ _ _) as [q|] eqn:Eq; [|done].
    intros Hl. apply IH in Hl as [H1 H2]. split.
    + eapply baseLayersKept_trans; [|exact H1].
      by eapply isTraversable_baseLayersKept.
    + eapply cacheWrites_trans; [|exact H2].
      by eapply isTraversable_cacheWrites.
Qed.

End BaseLayers.

(** X2.  The disc query and the polygon query write to the caches only:
    in the object they leave, every layer but the four footprint layers
    holds what it held, no layer is added or removed, and the
    configuration is the same. *)
Theorem queries_write_caches_only {G : GridMapCore} (self : TraversabilityMap)
    (center : Position) (radiusMax radiusMin : double) (polygon : Polygon)
    (computeUntraversablePolygon : bool) (untraversablePolygon : Polygon) :
  (∀ q, isTraversable self center radiusMax computeUntraversablePolygon radiusMin
        = Some q →
        onlyCachesWritten self (selfOut q))
  ∧ (∀ q, isTraversablePolygon self polygon computeUntraversablePolygon
            untraversablePolygon = Some q →
          onlyCachesWritten self (selfOut q)).
Proof.
  split; intros q Hq; split.
  - by eapply isTraversable_cacheWrites.
  - by eapply isTraversable_baseLayersKept.
  - by eapply isTraversablePolygon_cacheWrites.
  - by eapply isTraversablePolygon_baseLayersKept.
Qed.

(** X3.  So do the path check and [traversabilityFootprint]: whatever
    the path, the object they leave differs from the one they were given
    in cells of the four footprint layers only. *)
Theorem paths_write_caches_only {G : GridMapCore} (lengthPath0 : nat → double)
    (self : TraversabilityMap) (path : FootprintPath)
    (result : TraversabilityResult) (publishPolygons : bool)
    (radius offset : double) :
  (∀ r, checkFootprintPath lengthPath0 self path result publishPolygons = Some r →
        onlyCachesWritten self (pathSelfOut r))
  ∧ (∀ b self', traversabilityFootprint self radius offset = Some (b, self') →
                b = true ∧ onlyCachesWritten self self').
Proof.
  split.
  - intros r. unfold checkFootprintPath.
    destruct (traversabilityMapInitialized_ self); simpl.
    2: { intros [= <-]. split; [apply cacheWrites_refl|apply baseLayersKept_refl]. }
    destruct (Nat.eqb (length (poses path)) 0).
    { intros [= <-]. split; [apply cacheWrites_refl|apply baseLayersKept_refl]. }
    destruct (Nat.eqb (length (footprint path)) 0).
    + unfold checkCircularFootprintPath.
      destruct (circularLoop _ _ _ _ _ _ _) as [fl|] eqn:El; [|done].
      pose proof (circularLoop_cacheWrites _ _ _ _ _ _ _ _ El) as H1.
      pose proof (circularLoop_baseLayersKept _ _ _ _ _ _ _ _ El) as H2.
      destruct fl; intros [= <-]; by split.
    + unfold checkPolygonalFootprintPath.
      destruct (polygonalLoop _ _ _ _ _) as [fl|] eqn:El; [|done].
      pose proof (polygonalLoop_cacheWrites _ _ _ _ _ _ El) as H1.
      pose proof (polygonalLoop_baseLayersKept _ _ _ _ _ _ El) as H2.
      destruct fl; intros [= <-]; by split.
  - intros b self'. unfold traversabilityFootprint.
    destruct (traversabilityFootprintLoop _ _ _ _) as [s|] eqn:El; [|done].
    intros [= <- <-]. split; [done|].
    apply traversabilityFootprintLoop_kept in El as [H1 H2]. by split.
Qed.

(** ** The queries on terrain that needs no search *)

Section Clear.
Context {G : GridMapCore}.

Lemma isTraversableForFilters_clear (self : TraversabilityMap) (index : Index) :
  clearCell self index → isTraversableForFilters self index = Some (true, self).
Proof.
  intros (Hs & Ht & Hr). unfold isTraversableForFilters.
  rewrite (checkForSlope_nonzero _ _ Hs), (checkForStep_nonzero _ _ Ht).
  destruct (checkForRoughness_ self); [|done].
  by rewrite (checkForRoughness_nonzero _ _ (Hr eq_refl)).
Qed.

Lemma cellTraversability_score (self : TraversabilityMap) (index : Index) :
  is_Some (data_ (traversabilityMap_ self) !! traversabilityType_) →
  cellTraversability self index = Some (cellScore self index).
Proof.
  intros [mat E]. unfold cellTraversability, cellScore, isValid, at_.
  rewrite E. simpl. by destruct (isfinite (mat index)).
Qed.


Lemma polygonLoop_clear (computeUntraversablePolygon : bool) (cells : list Index)
    (st : PolygonState) :
  is_Some (data_ (traversabilityMap_ (polygonSelf st)) !! traversabilityType_) →
  (∀ cell, cell ∈ cells → clearCell (polygonSelf st) cell) →
  polygonLoop computeUntraversablePolygon st cells
  = Some (Next (mkPolygonState (polygonCells st + Z.of_nat (length cells))
                  (scoreSum (polygonSelf st) (polygonSum st) cells)
                  (polygonIsTraversable st) (polygonPositions st)
                  (polygonSelf st))).
Proof.
  revert st. induction cells as [|index rest IH]; intros st Hlayer Hclear.
  - simpl. rewrite Z.add_0_r. by destruct st.
  - simpl.
    rewrite isTraversableForFilters_clear by (apply Hclear; left).
    simpl. rewrite cellTraversability_score by done.
    rewrite IH; simpl; [|done|].
    + do 3 f_equal. lia.
    + intros cell Hcell. apply Hclear. by right.
Qed.

End Clear.


(** X5.  A polygon query over cells that no check has to search leaves
    the object as it is.  With no cell in the polygon it returns the
    default as the score, true exactly when the default is not 0.0;
    otherwise it returns true with the mean of the cell scores.  The
    polygon handed in comes back untouched unless the hull is requested,
    in which case the query returns the empty polygon. *)
Theorem polygon_query_on_clear_terrain {G : GridMapCore} (self : TraversabilityMap)
    (polygon : Polygon) (computeUntraversablePolygon : bool)
    (untraversablePolygon : Polygon) :
  let m := traversabilityMap_ self in
  let cells := PolygonIterator m polygon in
  is_Some (data_ m !! traversabilityType_) →
  (∀ cell, cell ∈ cells → clearCell self cell) →
  isTraversablePolygon self polygon computeUntraversablePolygon untraversablePolygon
  = Some (mkQueryResult
            (if decide (cells = []) then fneb (traversabilityDefault_ self) zero
             else true)
            (if decide (cells = []) then traversabilityDefault_ self
             else fdiv (scoreSum self zero cells) (of_int (Z.of_nat (length cells))))
            (if computeUntraversablePolygon
             then (if decide (cells = [])
                   then (if fneb (traversabilityDefault_ self) zero then []
                         else monotoneChainConvexHullOfPoints [])
                   else [])
             else untraversablePolygon)
            self).
Proof.
  intros m cells Hlayer Hclear. unfold isTraversablePolygon. fold m cells.
  rewrite polygonLoop_clear by done.
  cbn [polygonCells polygonSum polygonIsTraversable polygonSelf polygonPositions].
  rewrite Z.add_0_l. clearbody cells.
  destruct cells as [|c rest].
  - rewrite !decide_True by done. simpl.
    by destruct computeUntraversablePolygon, (fneb _ _).
  - rewrite !decide_False by done.
    replace (Z.of_nat (length (c :: rest)) =? 0) with false by done.
    by destruct computeUntraversablePolygon.
Qed.

(** ** The disc query on an obstruction *)

Lemma setTraversabilityFootprint_at (self self' : TraversabilityMap)
    (index : Index) (v : double) :
  setTraversabilityFootprint self index v = Some self' →
  at_ (traversabilityMap_ self') "traversability_footprint" index
  = Some (static_cast_float v).
Proof.
  unfold setTraversabilityFootprint, setAt.
  destruct (data_ (traversabilityMap_ self) !! _) as [mat|]; [|done].
  intros [= <-]. unfold at_. simpl. rewrite lookup_insert_eq. simpl.
  by rewrite fn_lookup_insert.
Qed.

Section Obstruction.
Context {G : GridMapCore}.

(** The checks do not touch the layer of the disc scores. *)
Lemma isTraversableForFilters_keeps_scores (self self' : TraversabilityMap)
    (index : Index) (b : bool) :
  isTraversableForFilters self index = Some (b, self') →
  data_ (traversabilityMap_ self') !! "traversability_footprint"
  = data_ (traversabilityMap_ self) !! "traversability_footprint".
Proof.
  unfold isTraversableForFilters.
  destruct (checkForSlope self index) as [[b1 s1]|] eqn:E1; [|done].
  rewrite checkForSlope_memo in E1.
  apply (memoCheck_other_layer _ _ _ _ _ _ _ "traversability_footprint") in E1;
    [|done].
  destruct b1; [|by intros [= _ <-]].
  destruct (checkForStep s1 index) as [[b2 s2]|] eqn:E2; [|done].
  rewrite checkForStep_memo in E2.
  apply (memoCheck_other_layer _ _ _ _ _ _ _ "traversability_footprint") in E2;
    [|done].
  destruct b2; [|intros [= _ <-]; congruence].
  destruct (checkForRoughness_ s2); [|intros [= _ <-]; congruence].
  destruct (checkForRoughness s2 index) as [[b3 s3]|] eqn:E3; [|done].
  rewrite checkForRoughness_memo in E3.
  apply (memoCheck_other_layer _ _ _ _ _ _ _ "traversability_footprint") in E3;
    [|done].
  destruct b3; intros [= _ <-]; congruence.
Qed.

Variables (indexCenter : Index) (radiusMax radiusMin : double)
          (computeUntraversablePolygon : bool).

Lemma spiralBody_failed (st : SpiralState) (cell : Index * double)
    (r : Flow SpiralState) :
  searchFailed indexCenter st →
  spiralBody indexCenter radiusMax radiusMin computeUntraversablePolygon st cell
    = Some r →
  searchFailed indexCenter (match r with Next s | Return _ s => s end).
Proof.
  intros [Hc Hat]. unfold spiralBody. destruct cell as [index radius].
  destruct (isTraversableForFilters (spiralSelf st) index) as [[ok self1]|] eqn:E;
    [|done].
  apply isTraversableForFilters_keeps_scores in E.
  rewrite <- (at_lookup _ _ _ indexCenter E) in Hat.
  destruct ok; simpl.
  - destruct (cellTraversability self1 index); [|done]. by intros [= <-].
  - rewrite Hc. intros Hr.
    destruct (feqb radiusMin zero), (fleb radius radiusMin);
      destruct (setTraversabilityFootprint self1 indexCenter zero) as [s2|] eqn:Es;
      simpl in Hr; try done;
      try apply setTraversabilityFootprint_at in Es;
      destruct computeUntraversablePolygon; by simplify_eq/=.
Qed.

Lemma spiralLoop_failed (cells : list (Index * double)) (st : SpiralState)
    (r : Flow SpiralState) :
  searchFailed indexCenter st →
  spiralLoop indexCenter radiusMax radiusMin computeUntraversablePolygon st cells
    = Some r →
  searchFailed indexCenter (match r with Next s | Return _ s => s end).
Proof.
  revert st. induction cells as [|cell rest IH]; intros st Hf; simpl.
  - by intros [= <-].
  - destruct (traversableRadiusBiggerMinRadius st); [by intros [= <-]|].
    destruct (spiralBody _ _ _ _ st cell) as [[st1|b st1]|] eqn:Eb; [| |done];
      apply (spiralBody_failed _ _ _ Hf) in Eb.
    + by apply IH.
    + by intros [= <-].
Qed.

(** The round of the spiral loop on an obstruction. *)
Lemma spiralBody_obstructed (st : SpiralState) (index : Index) (r : double)
    (self1 : TraversabilityMap) :
  isTraversableForFilters (spiralSelf st) index = Some (false, self1) →
  feqb radiusMin zero = true ∨ fleb r radiusMin = true →
  is_Some (data_ (traversabilityMap_ self1) !! "traversability_footprint") →
  ∃ st1,
    spiralBody indexCenter radiusMax radiusMin computeUntraversablePolygon st
      (index, r)
    = Some (if computeUntraversablePolygon then Next st1 else Return false st1)
    ∧ searchFailed indexCenter st1.
Proof.
  intros Hcell Hr Hlayer.
  destruct (setTraversabilityFootprint_total self1 indexCenter zero Hlayer)
    as (self2 & Hset & Hat).
  unfold spiralBody. rewrite Hcell. simpl. rewrite Hset.
  eexists (mkSpiralState _ _ _ false _ _ self2).
  split; [|by split].
  destruct Hr as [-> | Hr]; [|rewrite Hr; destruct (feqb radiusMin zero)];
    by destruct computeUntraversablePolygon.
Qed.

End Obstruction.

(** X6.  A fresh disc query whose spiral meets an inadmissible cell
    within [radiusMin] of the centre (any inadmissible cell, when
    [radiusMin] is 0.0) returns false and leaves 0.0 in the cache cell
    of the centre, in both modes; when the polygon is not requested it
    returns at that cell, without a further check. *)
Theorem disc_query_obstructed {G : GridMapCore} (self : TraversabilityMap)
    (center : Position) (radiusMax : double) (computeUntraversablePolygon : bool)
    (radiusMin : double) :
  let m := traversabilityMap_ self in
  isInside m center = true →
  isValid m (getIndex m center) "traversability_footprint" = Some false →
  meetsObstruction self center radiusMax computeUntraversablePolygon radiusMin →
  (computeUntraversablePolygon = false →
   is_Some (isTraversable self center radiusMax computeUntraversablePolygon
              radiusMin))
  ∧ ∀ q,
      isTraversable self center radiusMax computeUntraversablePolygon radiusMin
        = Some q →
      returned q = false
      ∧ at_ (traversabilityMap_ (selfOut q)) "traversability_footprint"
          (getIndex m center) = Some zero.
Proof.
  intros m Hin Hcache
    (before & index & r & rest & st & self1 & Hcells & Hloop & Hrun & Hcell & Hr).
  fold m in Hcells, Hloop.
  assert (is_Some (data_ m !! "traversability_footprint")) as Hlayer.
  { unfold isValid, at_ in Hcache.
    destruct (data_ m !! "traversability_footprint"); [eauto|done]. }
  pose proof (spiralLoop_cacheWrites _ _ _ _ _ _ _ Hloop) as Hw1. simpl in Hw1.
  pose proof (isTraversableForFilters_cacheWrites _ _ _ _ Hcell) as Hw2.
  pose proof (cacheWrites_layer _ _ _ (cacheWrites_trans _ _ _ Hw1 Hw2) Hlayer)
    as Hlayer1.
  destruct (spiralBody_obstructed (getIndex m center) radiusMax radiusMin
              computeUntraversablePolygon st index r self1 Hcell Hr Hlayer1)
    as (st1 & Hbody & Hf).
  unfold isTraversable. fold m. rewrite Hin, Hcache. simpl.
  rewrite Hcells, spiralLoop_app, Hloop.
  cbn [spiralLoop]. rewrite Hrun, Hbody.
  destruct computeUntraversablePolygon; simpl.
  - split; [done|]. intros q.
    destruct (spiralLoop _ _ _ _ st1 rest) as [[st2|b st2]|] eqn:El; [| |done];
      pose proof (spiralLoop_failed _ _ _ _ _ _ _ Hf El) as [Hc2 Hat2];
      simpl in Hc2, Hat2.
    + rewrite Hc2. by intros [= <-].
    + apply spiralLoop_returns_false in El as ->. by intros [= <-].
  - destruct Hf as [Hc1 Hat1]. split; [by eexists|]. by intros q [= <-].
Qed.

(** ** The polygon query on an obstruction *)

Section PolygonObstruction.
Context {G : GridMapCore}.

Lemma polygonLoop_app (computeUntraversablePolygon : bool)
    (before rest : list Index) (st : PolygonState) :
  polygonLoop computeUntraversablePolygon st (before ++ rest)
  = match polygonLoop computeUntraversablePolygon st before with
    | Some (Next st1) => polygonLoop computeUntraversablePolygon st1 rest
    | other => other
    end.
Proof.
  revert st. induction before as [|index before IH]; intros st; simpl; [done|].
  destruct (isTraversableForFilters (polygonSelf st) index) as [[ok self1]|];
    [|done].
  destruct ok; simpl.
  - destruct (cellTraversability self1 index); [|done]. apply IH.
  - destruct computeUntraversablePolygon; [apply IH|done].
Qed.

Lemma polygonLoop_failed (computeUntraversablePolygon : bool) (cells : list Index)
    (st : PolygonState) (r : Flow PolygonState) :
  polygonIsTraversable st = false →
  polygonLoop computeUntraversablePolygon st cells = Some r →
  polygonIsTraversable (match r with Next s | Return _ s => s end) = false.
Proof.
  revert st. induction cells as [|index rest IH]; intros st Hf; simpl.
  - by intros [= <-].
  - destruct (isTraversableForFilters (polygonSelf st) index) as [[ok self1]|];
      [|done].
    destruct ok; simpl.
    + destruct (cellTraversability self1 index); [|done]. by apply IH.
    + destruct computeUntraversablePolygon; [by apply IH|by intros [= <-]].
Qed.

Lemma polygonLoop_returns_false (computeUntraversablePolygon : bool)
    (cells : list Index) (st st' : PolygonState) (b : bool) :
  polygonLoop computeUntraversablePolygon st cells = Some (Return b st') →
  b = false.
Proof.
  revert st. induction cells as [|index rest IH]; intros st; simpl; [done|].
  destruct (isTraversableForFilters (polygonSelf st) index) as [[ok self1]|];
    [|done].
  destruct ok; simpl.
  - destruct (cellTraversability self1 index); [|done]. apply IH.
  - destruct computeUntraversablePolygon; [apply IH|by intros [= <- _]].
Qed.

End PolygonObstruction.

(** X7.  The polygon query at an inadmissible cell.  Without the hull it
    returns false at the first such cell: the cells after it are not
    checked, the score handed back is the running sum so far and the
    polygon of the caller is untouched.  With the hull, it goes on, and
    whenever it returns it returns false. *)
Theorem polygon_query_obstructed {G : GridMapCore} (self : TraversabilityMap)
    (polygon : Polygon) (computeUntraversablePolygon : bool)
    (untraversablePolygon : Polygon)
    (before rest : list Index) (index : Index) (st : PolygonState)
    (self1 : TraversabilityMap) :
  PolygonIterator (traversabilityMap_ self) polygon = before ++ index :: rest →
  polygonLoop computeUntraversablePolygon (mkPolygonState 0 zero true [] self)
    before = Some (Next st) →
  isTraversableForFilters (polygonSelf st) index = Some (false, self1) →
  (computeUntraversablePolygon = false →
   isTraversablePolygon self polygon computeUntraversablePolygon
     untraversablePolygon
   = Some (mkQueryResult false (polygonSum st) untraversablePolygon self1))
  ∧ ∀ q,
      isTraversablePolygon self polygon computeUntraversablePolygon
        untraversablePolygon = Some q →
      returned q = false.
Proof.
  intros Hcells Hloop Hcell. unfold isTraversablePolygon.
  rewrite Hcells, polygonLoop_app, Hloop. cbn [polygonLoop]. rewrite Hcell.
  simpl. destruct computeUntraversablePolygon.
  - split; [done|]. intros q.
    destruct (polygonLoop _ _ rest) as [[st2|b st2]|] eqn:El; [| |done].
    + apply polygonLoop_failed in El; [|done]. simpl in El. rewrite El.
      by intros [= <-].
    + apply polygonLoop_returns_false in El as ->. by intros [= <-].
  - split; [done|]. by intros q [= <-].
Qed.

(** ** The cells of a segment that are checked *)

Lemma lineSamples_lookup (nSkip : nat) (cells : list Index) (toSkip k : nat) :
  lineSamples nSkip toSkip cells !! k = cells !! (toSkip + k * S nSkip)%nat.
Proof.
  revert toSkip k. induction cells as [|c rest IH]; intros toSkip k; simpl.
  - by rewrite !lookup_nil.
  - destruct toSkip as [|t].
    + destruct k as [|k]; simpl; [done|]. rewrite IH. f_equal.
    + rewrite IH. done.
Qed.

Lemma everyFourth_lookup (cells : list Index) (k : nat) :
  everyFourth cells !! k = cells !! (4 * k)%nat.
Proof.
  revert cells. induction k as [|k IH]; intros cells.
  - by destruct cells.
  - replace (4 * S k)%nat with (S (S (S (S (4 * k))))) by lia.
    destruct cells as [|c0 [|c1 [|c2 [|c3 rest]]]];
      cbn [everyFourth lookup list_lookup]; rewrite ?lookup_nil;
      first [done|apply IH].
Qed.

Lemma lineSamples_everyFourth (cells : list Index) :
  lineSamples 3 0 cells = everyFourth cells.
Proof.
  apply list_eq. intros k.
  rewrite lineSamples_lookup, everyFourth_lookup. f_equal. lia.
Qed.

(** X8.  The check of a circular-footprint path of two poses, with the
    inclination check off, is the loop of disc queries (radii
    [radius + 0.15] and [radius]) over the first cell and every fourth
    cell after it of the line from the cell of the second pose to the
    cell of the first: sample [k] is cell [4 k] of the line iterator, and
    the cells in between are not queried.  When the loop runs to its end
    with every disc traversable, the path is safe and its traversability
    is the mean of the scores of the samples. *)
Theorem line_samples_every_fourth {G : GridMapCore} (lengthPath0 : nat → double)
    (self : TraversabilityMap) (path : FootprintPath) (publishPolygons : bool)
    (pose1 pose2 : Pose) :
  let m := traversabilityMap_ self in
  let line :=
    LineIterator m (getIndex m (posePosition2 pose2))
      (getIndex m (posePosition2 pose1)) in
  (∀ k, everyFourth line !! k = line !! (4 * k)%nat)
  ∧ (checkRobotInclination_ self = false →
     poses path = [pose1; pose2] →
     checkCircularFootprintPath lengthPath0 self path publishPolygons
     = segmentResult
       <$> lineLoop (radius path) (Fin (3 # 20))
             (compute_untraversable_polygon path) publishPolygons
             (mkLineState true NaN zero 0 [] [] self) (everyFourth line)).
Proof.
  intros m line. split; [apply everyFourth_lookup|].
  intros Hincl Hposes. unfold checkCircularFootprintPath. rewrite Hposes.
  cbn [length circularLoop]. unfold circularBody at 1.
  cbn [Nat.eqb Nat.ltb Nat.leb andb]. cbn beta iota zeta.
  unfold circularBody.
  cbn [Nat.eqb Nat.ltb Nat.leb andb circularStart circularEnd circularSelf
       circularResult circularUntraversablePolygon].
  rewrite Hincl. cbn [negb]. cbv zeta. rewrite lineSamples_everyFourth.
  fold m. fold line.
  destruct (lineLoop _ _ _ _ _ (everyFourth line)) as [[l|b l]|]; [| |done].
  - cbn [fmap option_fmap option_map segmentResult].
    destruct (pathIsTraversable l); reflexivity.
  - reflexivity.
Qed.

(** ** What a path check returns *)

Section PathReturn.
Context {G : GridMapCore}.

Lemma lineLoop_returns_true (radius offset : double)
    (computeUntraversablePolygon publishPolygons : bool) (cells : list Index)
    (st st' : LineState) (b : bool) :
  lineLoop radius offset computeUntraversablePolygon publishPolygons st cells
    = Some (Return b st') →
  b = true.
Proof.
  revert st. induction cells as [|cell rest IH]; intros st; simpl; [done|].
  destruct (if pathIsTraversable st then _ else _) as [q|]; [|done].
  destruct (negb (returned q) && negb computeUntraversablePolygon
            && negb publishPolygons); [by intros [= <- _]|apply IH].
Qed.

(** A round of the circular loop leaves only with true, and never writes
    the area. *)
Lemma circularBody_returns_true (v : double) (path : FootprintPath)
    (publishPolygons : bool) (arraySize i : nat) (st : CircularState)
    (pose : Pose) (r : Flow CircularState) :
  circularBody v path publishPolygons arraySize i st pose = Some r →
  match r with
  | Next st' => result_area (circularResult st') = result_area (circularResult st)
  | Return b st' =>
      b = true ∧ circularResult st' = circularResult st
  end.
Proof.
  unfold circularBody.
  destruct (Nat.eqb arraySize 1).
  - destruct (if checkRobotInclination_ _ then _ else _) as [[]|]; [| |done].
    + destruct (isTraversable _ _ _ _ _) as [q|]; [|done].
      destruct (returned q); by intros [= <-].
    + by intros [= <-].
  - destruct (Nat.ltb 1 arraySize && Nat.ltb 0 i); [|by intros [= <-]].
    destruct (if checkRobotInclination_ _ then _ else _) as [[]|]; [| |done].
    + destruct (lineLoop _ _ _ _ _ _) as [[l|b l]|] eqn:El; [| |done].
      * destruct (pathIsTraversable l); intros [= <-]; [|done].
        by destruct (Nat.ltb 1 i).
      * apply lineLoop_returns_true in El as ->. by intros [= <-].
    + by intros [= <-].
Qed.

Lemma circularLoop_returns_true (lengthPath0 : nat → double)
    (path : FootprintPath) (publishPolygons : bool) (arraySize : nat)
    (poses : list Pose) (i : nat) (st : CircularState) (r : Flow CircularState) :
  circularLoop lengthPath0 path publishPolygons arraySize i st poses = Some r →
  result_area (circularResult (match r with Next s | Return _ s => s end))
  = result_area (circularResult st)
  ∧ match r with Next _ => True | Return b _ => b = true end.
Proof.
  revert i st. induction poses as [|pose rest IH]; intros i st; simpl.
  - by intros [= <-].
  - destruct (circularBody _ _ _ _ _ st pose) as [[st1|b st1]|] eqn:Eb; [| |done];
      apply circularBody_returns_true in Eb.
    + intros Hl. apply IH in Hl as [Ha Hb]. split; [congruence|done].
    + intros [= <-]. destruct Eb as [-> ->]. done.
Qed.

Lemma polygonalBody_returns_true (path : FootprintPath) (arraySize i : nat)
    (st : PolygonalState) (pose : Pose) (st' : PolygonalState) (b : bool) :
  polygonalBody path arraySize i st pose = Some (Return b st') → b = true.
Proof.
  unfold polygonalBody.
  destruct (if conservative path && Nat.ltb 0 i then _ else _) as [p1 p2].
  repeat (case_match; simplify_eq/=); intros; by simplify_eq/=.
Qed.

Lemma polygonalLoop_returns_true (path : FootprintPath) (arraySize : nat)
    (poses : list Pose) (i : nat) (st st' : PolygonalState) (b : bool) :
  polygonalLoop path arraySize i st poses = Some (Return b st') → b = true.
Proof.
  revert i st. induction poses as [|pose rest IH]; intros i st; simpl; [done|].
  destruct (polygonalBody _ _ _ st pose) as [[st1|b1 st1]|] eqn:Eb; [| |done].
  - apply IH.
  - intros [= <- <-]. by eapply polygonalBody_returns_true.
Qed.

End PathReturn.

(** X9.  [checkFootprintPath] reports a failure to its caller in one case
    only, the path without poses on an initialised map; every other call
    that returns, returns true, whatever the verdict [is_safe].  On a map
    that is not initialised and on a path without poses it sets
    [is_safe] to false and touches nothing else, neither the other
    fields of the result nor the object.  A circular-footprint path never
    gets an area: [result.area] is 0.0. *)
Theorem checkFootprintPath_return_value {G : GridMapCore}
    (lengthPath0 : nat → double) (self : TraversabilityMap)
    (path : FootprintPath) (result : TraversabilityResult)
    (publishPolygons : bool) (r : PathResult) :
  checkFootprintPath lengthPath0 self path result publishPolygons = Some r →
  checked r
  = negb (traversabilityMapInitialized_ self && Nat.eqb (length (poses path)) 0)
  ∧ (traversabilityMapInitialized_ self = false ∨ poses path = [] →
     resultOut r = setIsSafe result false ∧ pathSelfOut r = self)
  ∧ (traversabilityMapInitialized_ self = true → poses path ≠ [] →
     footprint path = [] → result_area (resultOut r) = zero).
Proof.
  unfold checkFootprintPath.
  destruct (traversabilityMapInitialized_ self); simpl.
  2: { intros [= <-]. simpl. repeat split; done. }
  destruct (poses path) as [|pose rest] eqn:Ep; simpl.
  { intros [= <-]. simpl. repeat split; done. }
  destruct (footprint path) as [|pt pts] eqn:Ef; simpl.
  - unfold checkCircularFootprintPath. rewrite Ep.
    destruct (circularLoop _ _ _ _ _ _ _) as [fl|] eqn:El; [|done].
    apply circularLoop_returns_true in El as [Ha Hb].
    destruct fl as [st|b st]; intros [= <-]; simpl in *.
    + split; [done|]. split; [by intros [|]|]. by intros _ _ _.
    + subst b. split; [done|]. split; [by intros [|]|]. by intros _ _ _.
  - unfold checkPolygonalFootprintPath. rewrite Ep.
    destruct (polygonalLoop _ _ _ _ _) as [[st|b st]|] eqn:El; [| |done].
    + intros [= <-]. simpl. split; [done|]. split; [by intros [|]|done].
    + apply polygonalLoop_returns_true in El as ->.
      intros [= <-]. simpl. split; [done|]. split; [by intros [|]|done].
Qed.

(** X10.  A circular-footprint path of one pose, without the inclination
    check, is the disc query at that pose with [radiusMax] the radius
    plus 0.15 and [radiusMin] the radius: the check returns true,
    [is_safe] is what the query returns, the traversability is the score
    of the query when it returns true and 0.0 otherwise, and the object
    is the one the query leaves. *)
Theorem single_pose_path_is_disc_query {G : GridMapCore}
    (lengthPath0 : nat → double) (self : TraversabilityMap)
    (path : FootprintPath) (result : TraversabilityResult)
    (publishPolygons : bool) (pose : Pose) :
  traversabilityMapInitialized_ self = true →
  checkRobotInclination_ self = false →
  poses path = [pose] →
  footprint path = [] →
  checkFootprintPath lengthPath0 self path result publishPolygons
  = (λ q, mkPathResult true
            (mkTraversabilityResult (returned q)
               (if returned q then traversabilityOut q else zero) zero)
            (selfOut q))
    <$> isTraversable self (posePosition2 pose) (fadd (radius path) (Fin (3 # 20)))
          (compute_untraversable_polygon path) (radius path).
Proof.
  intros Hinit Hincl Hposes Hfoot.
  unfold checkFootprintPath, checkCircularFootprintPath.
  rewrite Hinit, Hposes, Hfoot. simpl.
  unfold circularBody. simpl. rewrite Hincl. simpl.
  destruct (isTraversable _ _ _ _ _) as [q|]; [|done]. simpl.
  by destruct (returned q).
Qed.

(** X11.  The part of the fail-fast rule that holds: on a path of at most
    two poses (a single footprint or a single segment), a check that ends
    with [is_safe = false] hands back the default result, traversability
    0.0 and area 0.0. *)
Theorem short_path_unsafe_is_default {G : GridMapCore}
    (lengthPath0 : nat → double) (self : TraversabilityMap)
    (path : FootprintPath) (publishPolygons : bool) (r : PathResult) :
  (length (poses path) ≤ 2)%nat →
  checkCircularFootprintPath lengthPath0 self path publishPolygons = Some r →
  is_safe (resultOut r) = false →
  resultOut r = mkTraversabilityResult false zero zero.
Proof.
  intros Hlen. unfold checkCircularFootprintPath.
  destruct (poses path) as [|p1 [|p2 [|p3 rest]]] eqn:Ep; simpl in Hlen; [| | |lia].
  - simpl. by intros [= <-].
  - simpl.
    destruct (circularBody _ _ _ _ _ _ p1) as [[st|b st]|] eqn:Eb; [| |done].
    + by intros [= <-].
    + apply circularBody_returns_true in Eb as [-> Hres].
      intros [= <-]. simpl. by rewrite Hres.
  - cbn [circularLoop length].
    assert (circularBody (lengthPath0 0%nat) path publishPolygons 2 0
              (circularStart self) p1
            = Some (Next (mkCircularState (posePosition2 p1)
                            (mkTraversabilityResult false zero zero) [] self)))
      as -> by done.
    destruct (circularBody _ _ _ _ _ _ p2) as [[st|b st]|] eqn:Eb; [| |done].
    + by intros [= <-].
    + apply circularBody_returns_true in Eb as [-> Hres].
      intros [= <-]. simpl. by rewrite Hres.
Qed.

(** ** What the setters accept *)

Lemma allLayersExist_true (m : GridMap) (layers : list string) :
  allLayersExist m layers = true ↔ ∀ layer, layer ∈ layers → exists_ m layer = true.
Proof.
  induction layers as [|l layers IH]; simpl.
  - split; [|done]. intros _ layer Hl. by apply elem_of_nil in Hl.
  - destruct (exists_ m l) eqn:E; simpl.
    + rewrite IH. split.
      * intros H layer Hl. apply elem_of_cons in Hl as [->|Hl]; [done|by apply H].
      * intros H layer Hl. apply H. by right.
    + split; [done|]. intros H. rewrite <- E. apply H. by left.
Qed.

Lemma setElevationMap_accepts (self : TraversabilityMap) (msg : GridMapMsg) :
  (setElevationMap self msg).1 = true
  ↔ msg_frame_id msg = mapFrameId_ self
    ∧ ∀ layer, layer ∈ elevationMapLayers_ self →
               exists_ (msg_map msg) layer = true.
Proof.
  assert ((setElevationMap self msg).1
          = String.eqb (mapFrameId_ self) (msg_frame_id msg)
            && allLayersExist (msg_map msg) (elevationMapLayers_ self)) as ->.
  { unfold setElevationMap, getMapFrameId.
    destruct (String.eqb _ _); [|done]. simpl. by destruct (allLayersExist _ _). }
  rewrite andb_true_iff, String.eqb_eq, allLayersExist_true.
  split; intros [Hf Hl]; split; try done; by symmetry.
Qed.

Lemma setTraversabilityMap_accepts (self : TraversabilityMap) (msg : GridMapMsg) :
  (setTraversabilityMap self msg).1 = true
  ↔ ∀ layer, layer ∈ traversabilityMapLayers_ self →
             exists_ (msg_map msg) layer = true.
Proof.
  assert ((setTraversabilityMap self msg).1
          = allLayersExist (msg_map msg) (traversabilityMapLayers_ self)) as ->.
  { unfold setTraversabilityMap. simpl.
    by destruct (allLayersExist (msg_map msg) (traversabilityMapLayers_ self)). }
  by rewrite allLayersExist_true.
Qed.

(** X12.  [setElevationMap] accepts a message exactly when its frame is
    the expected one and its map has every required layer;
    [setTraversabilityMap] accepts exactly when the map has every required
    layer, whatever the frame.  An accepted map is stored as it came, the
    flag of that map is set, [zPosition_] is the height of the message,
    and the other map and its flag are as before. *)
Theorem setters_accept (self : TraversabilityMap) (msg : GridMapMsg) :
  ((setElevationMap self msg).1 = true
   ↔ msg_frame_id msg = mapFrameId_ self
     ∧ ∀ layer, layer ∈ elevationMapLayers_ self →
                exists_ (msg_map msg) layer = true)
  ∧ ((setElevationMap self msg).1 = true →
     (setElevationMap self msg).2
     = installElevationMap (setZPosition_ self (msg_position_z msg)) (msg_map msg))
  ∧ ((setTraversabilityMap self msg).1 = true
     ↔ ∀ layer, layer ∈ traversabilityMapLayers_ self →
                exists_ (msg_map msg) layer = true)
  ∧ ((setTraversabilityMap self msg).1 = true →
     (setTraversabilityMap self msg).2
     = installTraversabilityMap (setZPosition_ self (msg_position_z msg))
         (msg_map msg)).
Proof.
  split; [apply setElevationMap_accepts|].
  split; [|split; [apply setTraversabilityMap_accepts|]].
  - unfold setElevationMap, getMapFrameId.
    destruct (String.eqb _ _); [|done]. simpl.
    by destruct (allLayersExist (msg_map msg) (elevationMapLayers_ self)).
  - unfold setTraversabilityMap. simpl.
    by destruct (allLayersExist (msg_map msg) (traversabilityMapLayers_ self)).
Qed.

Lemma createLayers_elem (self : TraversabilityMap) (useRawMap : bool)
    (layer : string) :
  (layer ∈ elevationMapLayers_ (createLayers (createLayers self useRawMap).2
                                  useRawMap).2
   ↔ layer ∈ elevationMapLayers_ (createLayers self useRawMap).2)
  ∧ (layer ∈ traversabilityMapLayers_ (createLayers (createLayers self useRawMap).2
                                         useRawMap).2
     ↔ layer ∈ traversabilityMapLayers_ (createLayers self useRawMap).2).
Proof.
  unfold createLayers. simpl. rewrite !elem_of_app. tauto.
Qed.

(** X13.  [createLayers] appends to the lists of required layers, so a
    second call leaves every name twice; the setters do not mind: after
    the second call they accept exactly the messages they accepted after
    the first.  With bounds ([useRawMap] false) an elevation map needs
    the layers elevation, upper_bound and lower_bound besides those
    required before. *)
Theorem createLayers_twice (self : TraversabilityMap) (useRawMap : bool)
    (msg : GridMapMsg) :
  (createLayers self useRawMap).1 = true
  ∧ (setElevationMap (createLayers (createLayers self useRawMap).2 useRawMap).2
       msg).1
    = (setElevationMap (createLayers self useRawMap).2 msg).1
  ∧ (setTraversabilityMap (createLayers (createLayers self useRawMap).2 useRawMap).2
       msg).1
    = (setTraversabilityMap (createLayers self useRawMap).2 msg).1
  ∧ ((setElevationMap (createLayers self false).2 msg).1 = true
     ↔ msg_frame_id msg = mapFrameId_ self
       ∧ (∀ layer, layer ∈ elevationMapLayers_ self →
                   exists_ (msg_map msg) layer = true)
       ∧ exists_ (msg_map msg) "elevation" = true
       ∧ exists_ (msg_map msg) "upper_bound" = true
       ∧ exists_ (msg_map msg) "lower_bound" = true).
Proof.
  split; [done|].
  assert (∀ a b : bool, (a = true ↔ b = true) → a = b) as Hbool.
  { intros [] []; intuition congruence. }
  split; [|split].
  - apply Hbool.
    rewrite !setElevationMap_accepts.
    split; intros [Hf Hl]; (split; [exact Hf|]); intros layer Hin; apply Hl;
      by apply (createLayers_elem self useRawMap layer).
  - apply Hbool.
    rewrite !setTraversabilityMap_accepts.
    split; intros Hl layer Hin; apply Hl;
      by apply (createLayers_elem self useRawMap layer).
  - rewrite setElevationMap_accepts.
    simpl. split.
    + intros [Hf Hl]. split; [done|]. repeat split.
      * intros layer Hin. apply Hl. rewrite elem_of_app. by left.
      * apply Hl. rewrite elem_of_app. right. by left.
      * apply Hl. rewrite elem_of_app. right. right. by left.
      * apply Hl. rewrite elem_of_app. right. right. right. by left.
    + intros (Hf & Hl & He & Hu & Hlo). split; [done|].
      intros layer. rewrite elem_of_app, !elem_of_cons, elem_of_nil.
      intros [Hin|[->|[->|[->|[]]]]]; auto.
Qed.

(** ** The default for unknown regions *)

Lemma Qle_bool_false (x y : Q) : Qle_bool x y = false → (y < x)%Q.
Proof.
  intros H. apply Qnot_le_lt. intros Hle. apply Qle_bool_iff in Hle. congruence.
Qed.

(** X14.  [setDefaultTraversabilityUnknownRegions] stores a finite value
    clamped into the interval of the two bounds, and a value of the
    interval as it is.  A NaN passes both comparisons and is stored; a
    disc query outside of the map then returns true with NaN as the
    score. *)
Theorem default_for_unknown_regions {G : GridMapCore}
    (traversabilityMinValue traversabilityMaxValue : Q)
    (self : TraversabilityMap) (defaultTraversability : double)
    (center : Position) (radiusMax radiusMin : double)
    (computeUntraversablePolygon : bool) :
  (traversabilityMinValue <= traversabilityMaxValue)%Q →
  let self' :=
    setDefaultTraversabilityUnknownRegions traversabilityMinValue
      traversabilityMaxValue self defaultTraversability in
  match defaultTraversability with
  | Fin q =>
      ∃ r, getDefaultTraversabilityUnknownRegions self' = Fin r
           ∧ (traversabilityMinValue <= r <= traversabilityMaxValue)%Q
           ∧ ((traversabilityMinValue <= q <= traversabilityMaxValue)%Q → r = q)
  | NaN =>
      getDefaultTraversabilityUnknownRegions self' = NaN
      ∧ (isInside (traversabilityMap_ self') center = false →
         isTraversable self' center radiusMax computeUntraversablePolygon radiusMin
         = Some (mkQueryResult true NaN [] self'))
  end.
Proof.
  intros Hle self'. subst self'.
  unfold setDefaultTraversabilityUnknownRegions, boundTraversabilityValue,
    getDefaultTraversabilityUnknownRegions.
  destruct defaultTraversability as [|q].
  - cbn [fltb setTraversabilityDefault_ traversabilityDefault_]. split; [done|].
    intros Hout. unfold isTraversable. rewrite Hout.
    cbn [traversabilityDefault_ setTraversabilityDefault_ fneb feqb negb andb].
    by rewrite andb_false_r.
  - cbn [fltb]. destruct (Qle_bool q traversabilityMaxValue) eqn:Ehi; cbn [negb].
    + apply Qle_bool_iff in Ehi.
      destruct (Qle_bool traversabilityMinValue q) eqn:Elo; cbn [negb].
      * apply Qle_bool_iff in Elo. exists q. by repeat split.
      * apply Qle_bool_false in Elo. exists traversabilityMinValue.
        split; [done|]. split; [split; [apply Qle_refl|done]|].
        intros [Hq _]. exfalso. by apply (Qlt_not_le _ _ Elo).
    + apply Qle_bool_false in Ehi. exists traversabilityMaxValue.
      split; [done|]. split; [split; [done|apply Qle_refl]|].
      intros [_ Hq]. exfalso. by apply (Qlt_not_le _ _ Ehi).
Qed.

(** ** The terrain map *)

Section Terrain.
Context {G : GridMapCore}.
Variables (transformPoint : Q * Q * Q → option (Q * Q * Q))
          (project3dToPixel : Q * Q * Q → Q * Q)
          (fullResolution : Z * Z)
          (position0 : Index → Q * Q * Q)
          (colorVectorToValue : Z * Z * Z → double).

Let toCamera := extractSingleGridPosition transformPoint.
Let inFront (position : Q * Q * Q) : bool := Qle_bool 0 (toCamera position).2.
Let projects (position : Q * Q * Q) : bool :=
  inImage fullResolution (project3dToPixel (toCamera position)).

(** [getPosition3] throws exactly when the layer is missing. *)
Lemma getPosition3_is_Some (m : GridMap) (layer : string) (index : Index)
    (position : Q * Q * Q) :
  is_Some (getPosition3 m layer index position) ↔ exists_ m layer = true.
Proof.
  unfold getPosition3, at_, exists_. rewrite bool_decide_eq_true.
  destruct (data_ m !! layer) as [mat|]; cbn beta iota zeta.
  - split; [by eexists|]. intros _. destruct (mat index); by eexists.
  - split; by intros [? ?].
Qed.

Lemma cellPositions_is_Some (MapOut : GridMap) (cells : list Index) :
  is_Some (cellPositions position0 MapOut cells)
  ↔ exists_ MapOut "elevation" = true ∨ cells = [].
Proof.
  induction cells as [|cell cells IH]; cbn [cellPositions].
  - split; [by right|by eexists].
  - pose proof (getPosition3_is_Some MapOut "elevation" cell (position0 cell))
      as Hcell.
    destruct (getPosition3 MapOut "elevation" cell (position0 cell))
      as [position|]; cbn beta iota zeta.
    + assert (exists_ MapOut "elevation" = true) as Hlayer
        by (apply Hcell; by eexists).
      destruct (proj2 IH (or_introl Hlayer)) as [positions ->].
      split; [by left|by eexists].
    + split; [by intros [? ?]|]. intros [Hlayer|?]; [|done].
      apply Hcell in Hlayer as [? ?]. done.
Qed.

Lemma extractLoop_spec (MapOut : GridMap) (cells : list Index) :
  extractLoop transformPoint position0 MapOut cells
  = (λ positions : list (Q * Q * Q),
       (toCamera <$> filter inFront positions, filter inFront positions))
    <$> cellPositions position0 MapOut cells.
Proof.
  induction cells as [|cell cells IH]; [done|].
  cbn [extractLoop cellPositions].
  destruct (getPosition3 MapOut "elevation" cell (position0 cell))
    as [position|]; [|done].
  cbn beta iota zeta. rewrite IH.
  destruct (cellPositions position0 MapOut cells) as [positions|]; [|done].
  cbn [fmap option_fmap option_map]. fold (toCamera position).
  destruct (Qle_bool 0 (toCamera position).2) eqn:E.
  - rewrite filter_cons_True; [done|]. unfold inFront. by rewrite E.
  - rewrite filter_cons_False; [done|].
    intros H. apply Is_true_true in H. unfold inFront in H. congruence.
Qed.

Lemma projectLoop_spec (before rest : list (Q * Q * Q)) :
  projectLoop project3dToPixel fullResolution (before ++ rest) (length before)
    (toCamera <$> rest)
  = Some ((λ position, project3dToPixel (toCamera position))
            <$> filter projects rest,
          filter projects rest).
Proof.
  revert before. induction rest as [|position rest IH]; intros before; [done|].
  cbn [projectLoop fmap list_fmap].
  specialize (IH (before ++ [position])).
  rewrite <- app_assoc, length_app in IH. cbn [app length] in IH.
  rewrite Nat.add_1_r in IH. rewrite IH.
  fold (inImage fullResolution (project3dToPixel (toCamera position))).
  fold (projects position).
  destruct (projects position) eqn:E.
  - rewrite list_lookup_middle by done.
    rewrite filter_cons_True; [done|]. by rewrite E.
  - rewrite filter_cons_False; [done|].
    intros H. apply Is_true_true in H. congruence.
Qed.

Lemma filter_inFront_projects (positions : list (Q * Q * Q)) :
  filter projects (filter inFront positions)
  = filter (λ position, inFront position && projects position) positions.
Proof.
  induction positions as [|position positions IH]; [done|].
  destruct (inFront position) eqn:Ef.
  - rewrite (filter_cons_True inFront) by by rewrite Ef.
    destruct (projects position) eqn:Ep.
    + rewrite !filter_cons_True; rewrite ?Ef, ?Ep; try done. by rewrite IH.
    + rewrite !filter_cons_False; rewrite ?Ef, ?Ep; try done; exact id.
  - rewrite (filter_cons_False inFront) by (rewrite Ef; exact id).
    rewrite (filter_cons_False (λ p, inFront p && projects p));
      [done|rewrite Ef; exact id].
Qed.

(** X15.  [extractAllGridPosition] throws exactly when the map has a
    cell and no layer elevation.  When it returns, the two passes that
    prepare the terrain map stay aligned: [projectAllGridPosition], run
    on what it returned, never reads [GridPosOdomFrame_vector_] past its
    end, and it leaves in [filtered_GridPosOdomFrame_vector_] exactly the
    cell positions, in the order of the grid iterator, whose camera-frame
    point has z >= 0 and projects inside the full resolution of the
    camera; the pixel at place i of its result is the projection of the
    position at place i. *)
Theorem terrain_pixels_are_paired (MapOut : GridMap) :
  (is_Some (extractAllGridPosition transformPoint position0 MapOut)
   ↔ exists_ MapOut "elevation" = true ∨ GridMapIterator MapOut = [])
  ∧ ∀ cameraFrame odomFrame,
      extractAllGridPosition transformPoint position0 MapOut
      = Some (cameraFrame, odomFrame) →
      ∃ positions,
        cellPositions position0 MapOut (GridMapIterator MapOut) = Some positions
        ∧ let visible :=
            filter (λ position, inFront position && projects position)
              positions in
          projectAllGridPosition project3dToPixel fullResolution odomFrame
            cameraFrame
          = Some ((λ position, project3dToPixel (toCamera position)) <$> visible,
                  visible).
Proof.
  unfold extractAllGridPosition. rewrite extractLoop_spec. split.
  - rewrite <- cellPositions_is_Some.
    destruct (cellPositions position0 MapOut (GridMapIterator MapOut));
      split; intros [? ?]; try done; by eexists.
  - intros cameraFrame odomFrame.
    destruct (cellPositions position0 MapOut (GridMapIterator MapOut))
      as [positions|]; [|done].
    cbn [fmap option_fmap option_map]. intros [= <- <-].
    exists positions. split; [done|]. cbv zeta. unfold projectAllGridPosition.
    pose proof (projectLoop_spec [] (filter inFront positions)) as H.
    cbn [app length] in H. rewrite H. by rewrite filter_inFront_projects.
Qed.








End Terrain.

(** ** Recomputing the traversability map *)

Section Compute.
Context {G : GridMapCore}.
Variables (transformPoint : Q * Q * Q → option (Q * Q * Q))
          (project3dToPixel : Q * Q * Q → Q * Q)
          (fullResolution : Z * Z)
          (position0 : Index → Q * Q * Q)
          (colorVectorToValue : Z * Z * Z → double)
          (filterChainUpdate : GridMap → GridMap → option GridMap).

(** X17.  When the elevation map is not initialised or the filter chain
    fails, [computeTraversability] returns false, keeps the traversability
    map it had, assigns no terrain map and clears
    [traversabilityMapInitialized_].  A path check on the object it leaves
    then returns true without looking at the path, with [is_safe] false
    and the rest of the result as the caller passed it. *)
Theorem computeTraversability_failure (semantic_mask : Image)
    (robotPosition : Position) (self : TraversabilityMap) :
  elevationMapInitialized_ self = false
  ∨ filterChainUpdate (elevationMap_ self) (traversabilityMap_ self) = None →
  ∃ self',
    computeTraversability transformPoint project3dToPixel fullResolution
      position0 colorVectorToValue filterChainUpdate semantic_mask
      robotPosition self = Some (false, self', None)
    ∧ traversabilityMap_ self' = traversabilityMap_ self
    ∧ traversabilityMapInitialized self' = false
    ∧ ∀ lengthPath0 path result publishPolygons,
        checkFootprintPath lengthPath0 self' path result publishPolygons
        = Some (mkPathResult true (setIsSafe result false) self').
Proof.
  intros Hfail. exists (setTraversabilityMapInitialized_ self false).
  split; [|split; [done|split; [done|]]].
  - unfold computeTraversability.
    destruct (elevationMapInitialized_ self); [|done].
    destruct Hfail as [Hfail| ->]; done.
  - intros lengthPath0 path result publishPolygons. by unfold checkFootprintPath.
Qed.


End Compute.

(** ** The verdict of the inclination check *)

(** X19.  [checkInclination] returns false only for a sample that is
    exactly 0.0: whenever it returns, the value is false exactly when the
    robot-slope layer holds 0.0 at a sampled cell.  It throws for two
    coinciding positions that are off the map or when the layer is
    missing; for two distinct positions it only throws when the layer is
    missing and the line has a cell, so positions off the map are
    sampled at whatever cells the line iterator yields. *)
Theorem checkInclination_verdict {G : GridMapCore} (self : TraversabilityMap)
    (start end_ : Position) :
  let m := traversabilityMap_ self in
  (∀ b, checkInclination self start end_ = Some b →
        (b = false ↔ zeroSampleOnLine self start end_))
  ∧ (is_Some (checkInclination self start end_)
     ↔ if Position_eqb end_ start
       then isInside m start = true ∧ exists_ m robotSlopeType_ = true
       else exists_ m robotSlopeType_ = true
            ∨ LineIterator m (getIndex m start) (getIndex m end_) = []).
Proof.
  intros m. subst m.
  unfold checkInclination, zeroSampleOnLine, atPosition, exists_, at_.
  destruct (Position_eqb end_ start).
  - destruct (isInside (traversabilityMap_ self) start).
    + destruct (data_ (traversabilityMap_ self) !! robotSlopeType_) as [mat|];
        cbn beta iota zeta.
      * split.
        -- intros b. destruct (feqb (mat (getIndex _ start)) zero) eqn:E;
             intros [= <-]; split; try done.
           ++ intros _. split; [done|]. by eexists.
           ++ intros (_ & v & [= <-] & Hv). congruence.
        -- rewrite bool_decide_eq_true.
           destruct (feqb (mat (getIndex _ start)) zero); split; try done;
             intros _; by eexists.
      * split; [done|]. rewrite bool_decide_eq_true. split.
        -- by intros [? ?].
        -- by intros [_ [? ?]].
    + split; [done|]. split; [by intros [? ?]|by intros [? _]].
  - destruct (data_ (traversabilityMap_ self) !! robotSlopeType_) as [mat|] eqn:Hmat.
    + rewrite (inclinationLine_spec _ mat _ Hmat). split.
      * intros b [= <-]. rewrite negb_false_iff, existsb_exists. split.
        -- intros (l & Hl & Hz). exists l, (mat l).
           split; [by apply list_elem_of_In|done].
        -- intros (l & v & Hl & [= <-] & Hz). exists l.
           split; [by apply list_elem_of_In|done].
      * rewrite bool_decide_eq_true. split; [|by eexists].
        intros _. left. by eexists.
    + destruct (LineIterator _ _ _) as [|l rest]; cbn [inclinationLine].
      * split.
        -- intros b [= <-]. split; [done|]. intros (l & _ & Hl & _).
           by apply elem_of_nil in Hl.
        -- split; [by right|by eexists].
      * unfold isValid, at_. rewrite Hmat. cbn beta iota zeta. split; [done|].
        rewrite bool_decide_eq_true. split; [by intros [? ?]|].
        intros [[? ?]|?]; done.
Qed.

(** ** The window checks count cells *)

Section Window.
Context {G : GridMapCore}.

Lemma zeroCells_cons (mat : Matrix) (cell : Index) (cells : list Index) :
  zeroCells mat (cell :: cells)
  = ((if feqb (mat cell) zero then 1 else 0) + zeroCells mat cells)%Z.
Proof.
  unfold zeroCells. destruct (feqb (mat cell) zero) eqn:E.
  - rewrite filter_cons_True by by rewrite E. cbn [length]. lia.
  - rewrite filter_cons_False; [lia|]. rewrite E. exact id.
Qed.

Lemma zeroCells_nonneg (mat : Matrix) (cells : list Index) :
  (0 ≤ zeroCells mat cells)%Z.
Proof. unfold zeroCells. lia. Qed.

(** The loop leaves at the first cell where the count exceeds the
    critical number; that happens exactly when the count over the whole
    window exceeds it. *)
Lemma circleCountExceeds_spec (m : GridMap) (layer : string) (mat : Matrix)
    (nCritical : Z) (cells : list Index) (n : Z) :
  data_ m !! layer = Some mat →
  circleCountExceeds m layer nCritical cells n
  = Some (bool_decide (cells ≠ [] ∧ (nCritical < n + zeroCells mat cells)%Z)).
Proof.
  intros Hmat. revert n. induction cells as [|cell cells IH]; intros n.
  - cbn [circleCountExceeds]. rewrite bool_decide_eq_false_2; [done|].
    by intros [? _].
  - cbn [circleCountExceeds]. unfold at_. rewrite Hmat. cbn beta iota zeta.
    rewrite zeroCells_cons. pose proof (zeroCells_nonneg mat cells) as Hpos.
    destruct (feqb (mat cell) zero).
    + destruct (nCritical <? n + 1)%Z eqn:E.
      * apply Z.ltb_lt in E. rewrite bool_decide_eq_true_2; [done|].
        split; [done|lia].
      * apply Z.ltb_ge in E. rewrite IH. f_equal.
        destruct cells as [|cell' cells].
        -- rewrite !bool_decide_eq_false_2; [done| |by intros [? _]].
           intros [_ H]. unfold zeroCells in H. cbn in H. lia.
        -- apply bool_decide_ext. split; intros [_ H]; (split; [done|lia]).
    + destruct (nCritical <? n)%Z eqn:E.
      * apply Z.ltb_lt in E. rewrite bool_decide_eq_true_2; [done|].
        split; [done|lia].
      * apply Z.ltb_ge in E. rewrite IH. f_equal.
        destruct cells as [|cell' cells].
        -- rewrite !bool_decide_eq_false_2; [done| |by intros [? _]].
           intros [_ H]. unfold zeroCells in H. cbn in H. lia.
        -- apply bool_decide_ext. split; intros [_ H]; (split; [done|lia]).
Qed.

Lemma circleCountExceeds_from_zero (m : GridMap) (layer : string) (mat : Matrix)
    (nCritical : Z) (cells : list Index) :
  data_ m !! layer = Some mat →
  circleCountExceeds m layer nCritical cells 0
  = Some (bool_decide (cells ≠ [] ∧ (nCritical < zeroCells mat cells)%Z)).
Proof. intros Hmat. by rewrite (circleCountExceeds_spec _ _ mat _ _ _ Hmat). Qed.

Lemma memoCheck_searches (base cache : string) (bad : bool)
    (self : TraversabilityMap) (index : Index) (mat : Matrix) :
  data_ (traversabilityMap_ self) !! base = Some mat →
  feqb (mat index) zero = true →
  isValid (traversabilityMap_ self) index cache = Some false →
  ∃ self',
    memoCheck base cache (Some bad) self index = Some (negb bad, self')
    ∧ at_ (traversabilityMap_ self') cache index
      = Some (if bad then zero else one).
Proof.
  intros Hmat Hzero Hvalid. unfold memoCheck, at_. rewrite Hmat.
  cbn beta iota zeta. rewrite Hzero, Hvalid. cbn beta iota zeta.
  unfold isValid, at_ in Hvalid. unfold setAt.
  destruct (data_ (traversabilityMap_ self) !! cache) as [cacheMat|]; [|done].
  destruct bad; cbn beta iota zeta; eexists; (split; [reflexivity|]);
    cbn [traversabilityMap_ setTraversabilityMap_ data_ setData];
    rewrite lookup_insert_eq; cbn beta iota zeta; f_equal;
    unfold insert, fn_insert; by case_decide.
Qed.

(** X20.  A slope or roughness check that has to search (base value 0.0,
    no cached verdict) fails exactly when its circle of three cell sizes
    has a cell and more of its cells hold 0.0 in the base layer than the
    critical number; the early exit of the loop does not change that.
    The critical number is the one the code computes in double
    arithmetic, floor(2 windowRadius criticalLength / pow(resolution, 2))
    for slopes and the same with 1.5 for roughness: for the resolution
    0.15 and the gap width 0.3 it is 3 for slopes and 2 for roughness,
    where the exact quotients are 4 and 3.  The verdict is written to the
    cache cell, 1.0 for a pass and 0.0 for a failure. *)
Theorem window_checks_count (self : TraversabilityMap) (index : Index) :
  let m := traversabilityMap_ self in
  let cells := CircleIterator m (getPosition m index) (windowRadiusOf self) in
  (∀ mat,
     data_ m !! slopeType_ = Some mat → feqb (mat index) zero = true →
     isValid m index "slope_footprint" = Some false →
     ∃ self',
       checkForSlope self index = Some (negb (windowFails self 2 mat cells), self')
       ∧ at_ (traversabilityMap_ self') "slope_footprint" index
         = Some (if windowFails self 2 mat cells then zero else one))
  ∧ (∀ mat,
       data_ m !! roughnessType_ = Some mat → feqb (mat index) zero = true →
       isValid m index "roughness_footprint" = Some false →
       ∃ self',
         checkForRoughness self index
         = Some (negb (windowFails self (3 # 2) mat cells), self')
         ∧ at_ (traversabilityMap_ self') "roughness_footprint" index
           = Some (if windowFails self (3 # 2) mat cells then zero else one))
  ∧ (resolution_ m = (3 # 20)%Q → maxGapWidth_ self = (3 # 10)%Q →
     criticalNumber self 2 = 3 ∧ criticalNumber self (3 # 2) = 2).
Proof.
  intros m cells. split; [|split]; [intros mat Hmat Hzero Hvalid..|].
  - rewrite checkForSlope_memo. unfold slopeSearch.
    rewrite (circleCountExceeds_from_zero _ _ mat _ _ Hmat).
    exact (memoCheck_searches _ _ _ _ _ mat Hmat Hzero Hvalid).
  - rewrite checkForRoughness_memo. unfold roughnessSearch.
    rewrite (circleCountExceeds_from_zero _ _ mat _ _ Hmat).
    exact (memoCheck_searches _ _ _ _ _ mat Hmat Hzero Hvalid).
  - intros Hres Hgap. unfold criticalNumber. fold m. rewrite Hres, Hgap.
    split; vm_compute; reflexivity.
Qed.

End Window.

(** ** Publishing *)


(** ** The step check fails only at a drop *)

Section Step.
Context {G : GridMapCore}.

Lemma stepCandidates_elem (m : GridMap) (criticalStepHeight : Q)
    (height : double) (cells indices : list Index) (index : Index) :
  stepCandidates m criticalStepHeight height cells = Some indices →
  index ∈ indices
  ↔ index ∈ cells
    ∧ ∃ e s, at_ m "elevation" index = Some e
             ∧ fltb (fadd (Fin criticalStepHeight) height) e = true
             ∧ at_ m stepType_ index = Some s ∧ feqb s zero = true.
Proof.
  revert indices. induction cells as [|cell cells IH]; intros indices.
  - intros [= <-]. split; [intros H|intros [H _]]; by apply elem_of_nil in H.
  - cbn [stepCandidates].
    destruct (at_ m "elevation" cell) as [e|] eqn:He; [|done].
    cbn beta iota zeta.
    destruct (fltb (fadd (Fin criticalStepHeight) height) e) eqn:Hhigh.
    + destruct (at_ m stepType_ cell) as [s|] eqn:Hs; [|done].
      cbn beta iota zeta.
      destruct (stepCandidates m criticalStepHeight height cells) as [tl|];
        [|done].
      cbn beta iota zeta. intros [= <-]. specialize (IH tl eq_refl).
      destruct (feqb s zero) eqn:Hz.
      * rewrite !elem_of_cons, IH. split.
        -- intros [->|[Hin Hc]]; [|by split; [right|]].
           split; [by left|]. by exists e, s.
        -- intros [[->|Hin] Hc]; [by left|by right].
      * rewrite elem_of_cons, IH. split.
        -- intros [Hin Hc]. by split; [right|].
        -- intros [[->|Hin] Hc]; [|done].
           destruct Hc as (e' & s' & _ & _ & Hs' & Hz'). congruence.
    + cbn beta iota zeta.
      destruct (stepCandidates m criticalStepHeight height cells) as [tl|];
        [|done].
      cbn beta iota zeta. intros [= <-]. specialize (IH tl eq_refl).
      rewrite elem_of_cons, IH. split.
      * intros [Hin Hc]. by split; [right|].
      * intros [[->|Hin] Hc]; [|done].
        destruct Hc as (e' & s' & He' & Hhigh' & _). congruence.
Qed.

Lemma stepProbe_true (self : TraversabilityMap) (subMap : GridMap)
    (center subMapPos : Position) (index : Index) (height : double) (it : Index) :
  stepProbe self subMap center subMapPos index height it = Some true →
  ∃ s e, at_ subMap stepType_ it = Some s ∧ feqb s zero = true
         ∧ at_ subMap "elevation" it = Some e
         ∧ fltb e (fsub height (Fin (criticalStepHeight_ self))) = true.
Proof.
  unfold stepProbe.
  destruct (at_ subMap stepType_ it) as [s|]; [|done]. cbn beta iota zeta.
  destruct (feqb s zero) eqn:Hs.
  - destruct (at_ subMap "elevation" it) as [e|]; [|done]. cbn beta iota zeta.
    destruct (fltb e (fsub height (Fin (criticalStepHeight_ self)))) eqn:He;
      [|done].
    intros _. by exists s, e.
  - done.
Qed.

Lemma stepSubmapLoop_true (self : TraversabilityMap) (subMap : GridMap)
    (center subMapPos : Position) (index : Index) (height : double)
    (cells : list Index) :
  stepSubmapLoop self subMap center subMapPos index height cells = Some true →
  ∃ it, it ∈ cells
        ∧ stepProbe self subMap center subMapPos index height it = Some true.
Proof.
  induction cells as [|cell cells IH]; [done|]. cbn [stepSubmapLoop].
  destruct (stepProbe self subMap center subMapPos index height cell)
    as [[]|] eqn:Hprobe; [| |done]; cbn beta iota zeta.
  - intros _. exists cell. split; [by left|done].
  - intros H. destruct (IH H) as (it & Hin & Hit). exists it.
    split; [by right|done].
Qed.

Lemma stepIndicesLoop_true (self : TraversabilityMap) (center : Position)
    (indices : list Index) :
  stepIndicesLoop self center indices = Some true →
  ∃ index, index ∈ indices ∧ dropAround self index.
Proof.
  induction indices as [|index indices IH]; [done|]. cbn [stepIndicesLoop].
  cbv zeta.
  destruct (getSubmap (traversabilityMap_ self)
              (getPosition (traversabilityMap_ self) index)
              ((5 # 2) * resolution_ (traversabilityMap_ self),
               (5 # 2) * resolution_ (traversabilityMap_ self))%Q)
    as [subMap isSuccess] eqn:Hsub.
  destruct isSuccess; cbn [negb].
  - destruct (at_ (traversabilityMap_ self) "elevation" index) as [height|] eqn:Hh;
      [|done].
    cbn beta iota zeta.
    destruct (stepSubmapLoop self subMap center _ index height _) as [[]|] eqn:Hloop;
      [| |done]; cbn beta iota zeta.
    + intros _. exists index. split; [by left|].
      apply stepSubmapLoop_true in Hloop as (it & Hin & Hprobe).
      apply stepProbe_true in Hprobe as (s & e & Hs & Hz & He & Hlow).
      unfold dropAround. cbv zeta. rewrite Hsub. cbn [fst snd]. right.
      by exists it, height, s, e.
    + intros H. destruct (IH H) as (index' & Hin & Hdrop). exists index'.
      split; [by right|done].
  - intros _. exists index. split; [by left|].
    unfold dropAround. cbv zeta. rewrite Hsub. by left.
Qed.

(** X22.  The step check fails only at a drop between cells with step
    value 0.0.  It probes the submaps around the candidates of its window
    of 2.5 cell sizes, the cells with step value 0.0 that are higher than
    the query cell by more than the critical step height, or, when there
    is no candidate, the submap around the query cell itself.  When it
    has to search (no cached verdict) and returns false, then for one of
    the cells it probed, the submap could not be retrieved or holds a
    cell with step value 0.0 that lies lower than the probed cell by more
    than the critical step height. *)
Theorem step_fails_only_at_a_drop (self self' : TraversabilityMap)
    (indexStep : Index) :
  let m := traversabilityMap_ self in
  let window :=
    CircleIterator m (getPosition m indexStep) ((5 # 2) * resolution_ m)%Q in
  isValid m indexStep "step_footprint" = Some false →
  checkForStep self indexStep = Some (false, self') →
  ∃ index,
    ((index = indexStep
      ∧ ∀ cell, cell ∈ window → ¬ stepCandidate self indexStep cell)
     ∨ (index ∈ window ∧ stepCandidate self indexStep index))
    ∧ dropAround self index.
Proof.
  intros m window Hvalid. rewrite checkForStep_memo. unfold memoCheck. fold m.
  destruct (at_ m stepType_ indexStep) as [v|]; [|done]. cbn beta iota zeta.
  destruct (feqb v zero); [|done]. rewrite Hvalid. cbn beta iota zeta.
  destruct (stepSearch self indexStep) as [[]|] eqn:Hsearch; [| |done];
    cbn beta iota zeta.
  2: { destruct (setAt m "step_footprint" indexStep one); done. }
  intros _. unfold stepSearch in Hsearch. fold m in Hsearch.
  destruct (at_ m "elevation" indexStep) as [height|] eqn:Hheight; [|done].
  cbn beta iota zeta in Hsearch. fold window in Hsearch.
  destruct (stepCandidates m (criticalStepHeight_ self) height window)
    as [indices|] eqn:Hcandidates; [|done].
  cbn beta iota zeta in Hsearch.
  apply stepIndicesLoop_true in Hsearch as (index & Hin & Hdrop).
  exists index. split; [|done].
  pose proof (λ cell, stepCandidates_elem m (criticalStepHeight_ self) height
                        window indices cell Hcandidates) as Helem.
  destruct indices as [|first indices].
  - apply elem_of_cons in Hin as [->|Hin]; [|by apply elem_of_nil in Hin].
    left. split; [done|]. intros cell Hcell (h & e & s & Hh & He & Hhigh & Hs & Hz).
    fold m in Hh, He, Hs. rewrite Hheight in Hh. injection Hh as <-.
    assert (cell ∈ []) as Hnil; [|by apply elem_of_nil in Hnil].
    apply (Helem cell). split; [done|]. by exists e, s.
  - right. apply (Helem index) in Hin as [Hin (e & s & He & Hhigh & Hs & Hz)].
    split; [done|]. by exists height, e, s.
Qed.

End Step.

(** ** The polygonal footprint of a single pose *)

(** X23.  A polygonal-footprint path of one pose, without the inclination
    check, is the polygon query over the footprint moved to that pose:
    the check returns true; when the query returns true the result is
    safe, with the score of the query and the area of the polygon;
    otherwise the result is the default one, not safe with
    traversability 0.0 and area 0.0.  The object is the one the query
    leaves. *)
Theorem single_pose_path_is_polygon_query {G : GridMapCore}
    (lengthPath0 : nat → double) (self : TraversabilityMap)
    (path : FootprintPath) (result : TraversabilityResult)
    (publishPolygons : bool) (pose : Pose) :
  traversabilityMapInitialized_ self = true →
  checkRobotInclination_ self = false →
  poses path = [pose] →
  footprint path ≠ [] →
  let polygon := map (transformVertex pose) (footprint path) in
  checkFootprintPath lengthPath0 self path result publishPolygons
  = (λ q, mkPathResult true
            (if returned q
             then mkTraversabilityResult true (traversabilityOut q)
                    (getArea polygon)
             else mkTraversabilityResult false zero zero)
            (selfOut q))
    <$> isTraversablePolygon self polygon (compute_untraversable_polygon path) [].
Proof.
  intros Hinit Hincl Hposes Hfoot polygon.
  unfold checkFootprintPath, checkPolygonalFootprintPath.
  rewrite Hinit, Hposes. cbn [negb length Nat.eqb].
  assert (Nat.eqb (length (footprint path)) 0 = false) as ->.
  { destruct (footprint path); [done|reflexivity]. }
  cbn [polygonalLoop]. unfold polygonalBody.
  cbn [polygonalStart polygon2 polygonalEnd polygonalSelf polygonalResult
       polygonalUntraversablePolygon Nat.eqb Nat.ltb Nat.leb andb].
  rewrite andb_false_r, Hincl. cbn [negb]. fold polygon.
  destruct (isTraversablePolygon self polygon _ []) as [q|]; [|done].
  cbn [fmap option_fmap option_map]. by destruct (returned q).
Qed.

(** * The further properties on the strip *)

(** X1 on [discObject]: the check of cell 1, which fails, is repeated on
    the object that it left. *)
Lemma isTraversableForFilters_repeats_witness :
  isTraversableForFilters (G := Strip.core) Inputs.slopeChecked (0, 1)
  = Some (false, Inputs.slopeChecked).
Proof.
  apply (isTraversableForFilters_repeats (G := Strip.core) Examples.discObject).
  vm_compute. reflexivity.
Defined.

(** X2 on [discObject]: the disc query that meets cell 1. *)
Lemma queries_write_caches_only_witness :
  onlyCachesWritten Examples.discObject (selfOut Inputs.discQuery).
Proof.
  apply (proj1 (queries_write_caches_only (G := Strip.core) Examples.discObject
                  Examples.discCenter (Fin 3) zero [] false [])).
  vm_compute. reflexivity.
Defined.

(** X3 on [pathObject]: the check of [straightPath]. *)
Lemma paths_write_caches_only_witness :
  onlyCachesWritten Examples.pathObject (pathSelfOut Inputs.straightChecked).
Proof.
  apply (proj1 (paths_write_caches_only (G := Strip.core) (λ _, zero)
                  Examples.pathObject Examples.straightPath Examples.emptyResult
                  false zero zero)).
  vm_compute. reflexivity.
Defined.


(** X5 on [pathObject]: the polygon over the cells 5 to 7. *)
Lemma polygon_query_on_clear_terrain_witness :
  queryOutcome (isTraversablePolygon (G := Strip.core) Examples.pathObject
                  Inputs.clearPolygon false [])
  = Some (true, Fin (1 # 2)).
Proof.
  rewrite (polygon_query_on_clear_terrain (G := Strip.core) Examples.pathObject
             Inputs.clearPolygon false []).
  - vm_compute. reflexivity.
  - vm_compute. by eexists.
  - apply list.Forall_forall. vm_compute.
    repeat constructor; try (eexists; split; reflexivity); discriminate.
Defined.

(** X6 on [discObject]: with [radiusMin] 0.0 the disc of radius 3 around
    cell 3 is obstructed by cell 1. *)
Lemma disc_query_obstructed_witness :
  ∃ q,
    isTraversable (G := Strip.core) Examples.discObject Examples.discCenter
      (Fin 3) false zero = Some q
    ∧ returned q = false
    ∧ at_ (traversabilityMap_ (selfOut q)) "traversability_footprint" (0, 3)
      = Some zero.
Proof.
  destruct (disc_query_obstructed (G := Strip.core) Examples.discObject
              Examples.discCenter (Fin 3) false zero) as [Hreturns Hfalse].
  - vm_compute. reflexivity.
  - vm_compute. reflexivity.
  - exists (take 3 (Strip.spiral Examples.discGrid Examples.discCenter (Fin 3))),
      (0, 1), (Fin 2),
      (drop 4 (Strip.spiral Examples.discGrid Examples.discCenter (Fin 3))),
      (mkSpiralState 3 (Fin 3) zero true false [] Examples.discObject),
      Inputs.slopeChecked.
    repeat split; try (vm_compute; reflexivity). left. reflexivity.
  - destruct (Hreturns eq_refl) as [q Hq]. exists q. split; [exact Hq|].
    exact (Hfalse q Hq).
Defined.

(** X7 on [discObject]: the polygon over the cells 0 to 3 stops at
    cell 1, with the score of cell 0 as the sum. *)
Lemma polygon_query_obstructed_witness :
  isTraversablePolygon (G := Strip.core) Examples.discObject Inputs.blockedPolygon
    false []
  = Some (mkQueryResult false (polygonSum Inputs.polygonState) []
            Inputs.slopeChecked).
Proof.
  apply (polygon_query_obstructed (G := Strip.core) Examples.discObject
           Inputs.blockedPolygon false [] [(0, 0)] [(0, 2); (0, 3)] (0, 1)
           Inputs.polygonState Inputs.slopeChecked);
    try (vm_compute; reflexivity).
Defined.

(** X8 on [pathObject]: of the five cells of the line from cell 4 to
    cell 0, the discs around the cells 4 and 0 are queried. *)
Lemma line_samples_every_fourth_witness :
  everyFourth (Strip.line (0, 4) (0, 0)) = [(0, 4); (0, 0)]
  ∧ checkCircularFootprintPath (G := Strip.core) (λ _, zero)
      Examples.pathObject Examples.shortPath false
    = segmentResult
      <$> lineLoop (G := Strip.core) (Fin (1 # 4)) (Fin (3 # 20)) false false
            (mkLineState true NaN zero 0 [] [] Examples.pathObject)
            [(0, 4); (0, 0)]
  ∧ pathOutcome (checkCircularFootprintPath (G := Strip.core) (λ _, zero)
                   Examples.pathObject Examples.shortPath false)
    = Some (true, Fin 1, zero).
Proof.
  split; [vm_compute; reflexivity|]. split; [|vm_compute; reflexivity].
  exact (proj2 (line_samples_every_fourth (G := Strip.core) (λ _, zero)
                  Examples.pathObject Examples.shortPath false
                  (Examples.poseAt 0) (Examples.poseAt 4)) eq_refl eq_refl).
Defined.

(** X9 on [pathObject]: the check of a path of one pose. *)
Lemma checkFootprintPath_return_value_witness :
  checked Inputs.singlePoseChecked = true
  ∧ result_area (resultOut Inputs.singlePoseChecked) = zero.
Proof.
  destruct (checkFootprintPath_return_value (G := Strip.core) (λ _, zero)
              Examples.pathObject Examples.singlePosePath Examples.emptyResult
              false Inputs.singlePoseChecked) as (Hchecked & _ & Harea).
  - vm_compute. reflexivity.
  - split; [exact Hchecked|]. by apply Harea.
Defined.

(** X10 on [pathObject]: the path of one pose at cell 6 is the disc query
    around cell 6 with the radii 1/4 + 3/20 and 1/4. *)
Lemma single_pose_path_is_disc_query_witness :
  pathOutcome (checkFootprintPath (G := Strip.core) (λ _, zero)
                 Examples.pathObject Examples.singlePosePath
                 Examples.emptyResult false)
  = Some (true, Fin (1 # 2), zero)
  ∧ queryOutcome (isTraversable (G := Strip.core) Examples.pathObject (6, 0)%Q
                    (Fin (2 # 5)) false (Fin (1 # 4)))
    = Some (true, Fin (1 # 2)).
Proof.
  rewrite (single_pose_path_is_disc_query (G := Strip.core) (λ _, zero)
             Examples.pathObject Examples.singlePosePath Examples.emptyResult
             false (Examples.poseAt 6)); try reflexivity.
  split; vm_compute; reflexivity.
Defined.

(** X11 on [blockedObject]: the segment from cell 4 to the inadmissible
    cell 8. *)
Lemma short_path_unsafe_is_default_witness :
  resultOut Inputs.blockedChecked = mkTraversabilityResult false zero zero.
Proof.
  apply (short_path_unsafe_is_default (G := Strip.core) (λ _, zero)
           Examples.blockedObject Examples.secondSegment false).
  - vm_compute. lia.
  - vm_compute. reflexivity.
  - vm_compute. reflexivity.
Defined.

(** X14 with the bounds 0 and 1: the value 3/2 is stored as 1. *)
Lemma default_for_unknown_regions_witness :
  ∃ r, getDefaultTraversabilityUnknownRegions
         (setDefaultTraversabilityUnknownRegions 0 1 Examples.discObject
            (Fin (3 # 2))) = Fin r
       ∧ (0 <= r <= 1)%Q
       ∧ ((0 <= 3 # 2 <= 1)%Q → r = (3 # 2)%Q).
Proof.
  apply (default_for_unknown_regions (G := Strip.core) 0 1 Examples.discObject
           (Fin (3 # 2)) Examples.discCenter zero zero false).
  discriminate.
Defined.

(** X15 on [discGrid], seen by a camera of seven by one pixels. *)
Lemma terrain_pixels_are_paired_witness :
  ∃ pixels filtered,
    projectAllGridPosition Inputs.stripProject Inputs.stripResolution
      Inputs.discExtracted.2 Inputs.discExtracted.1 = Some (pixels, filtered)
    ∧ length pixels = length filtered.
Proof.
  destruct (proj2 (terrain_pixels_are_paired (G := Strip.core)
                     Inputs.stripTransform Inputs.stripProject
                     Inputs.stripResolution Inputs.stripPosition0
                     Examples.discGrid)
              Inputs.discExtracted.1 Inputs.discExtracted.2)
    as (positions & _ & Hproject); [vm_compute; reflexivity|].
  cbv zeta in Hproject. eexists _, _. split; [exact Hproject|].
  by rewrite length_fmap.
Defined.


(** X17 on [discObject], which has no elevation map. *)
Lemma computeTraversability_failure_witness :
  ∃ self',
    computeTraversability (G := Strip.core) Inputs.stripTransform
      Inputs.stripProject Inputs.stripResolution Inputs.stripPosition0
      Inputs.stripColor Inputs.keepFilter Inputs.stripMask Examples.discCenter
      Examples.discObject = Some (false, self', None)
    ∧ traversabilityMap_ self' = traversabilityMap_ Examples.discObject
    ∧ traversabilityMapInitialized self' = false
    ∧ ∀ lengthPath0 path result publishPolygons,
        checkFootprintPath (G := Strip.core) lengthPath0 self' path result
          publishPolygons
        = Some (mkPathResult true (setIsSafe result false) self').
Proof.
  apply (computeTraversability_failure (G := Strip.core)). left. reflexivity.
Defined.


(** X20 on [discObject]: the window of cell 1 holds one cell with slope
    0.0, which is more than the critical number 0. *)
Lemma window_checks_count_witness :
  ∃ self',
    checkForSlope (G := Strip.core) Examples.discObject (0, 1)
    = Some (false, self')
    ∧ at_ (traversabilityMap_ self') "slope_footprint" (0, 1) = Some zero.
Proof.
  apply (proj1 (window_checks_count (G := Strip.core) Examples.discObject (0, 1))
           (Strip.layer [one; zero; one; one; one; one; one]));
    vm_compute; reflexivity.
Defined.

(** X22 on [stepObject], where the check of cell 2 fails at the drop to
    cell 3, and on [raisedObject], where cell 3 is a candidate and the
    check of cell 2 fails at the drop from cell 3. *)
Lemma step_fails_only_at_a_drop_witness :
  (∃ index,
     ((index = (0, 2)
       ∧ ∀ cell, cell ∈ Strip.circle (traversabilityMap_ Inputs.stepObject)
                          (2, 0)%Q ((5 # 2) * 1)%Q →
                 ¬ stepCandidate Inputs.stepObject (0, 2) cell)
      ∨ (index ∈ Strip.circle (traversabilityMap_ Inputs.stepObject) (2, 0)%Q
                   ((5 # 2) * 1)%Q
         ∧ stepCandidate Inputs.stepObject (0, 2) index))
     ∧ dropAround (G := Strip.core) Inputs.stepObject index)
  ∧ checkForStep (G := Strip.core) Inputs.raisedObject (0, 2)
    = Some (false, Inputs.raisedChecked)
  ∧ ∃ index,
      stepCandidate Inputs.raisedObject (0, 2) index
      ∧ dropAround (G := Strip.core) Inputs.raisedObject index.
Proof.
  split; [|split].
  - apply (step_fails_only_at_a_drop (G := Strip.core) Inputs.stepObject
             Inputs.stepChecked (0, 2)); vm_compute; reflexivity.
  - vm_compute. reflexivity.
  - destruct (step_fails_only_at_a_drop (G := Strip.core) Inputs.raisedObject
                Inputs.raisedChecked (0, 2))
      as (index & [[_ Hnone]|[_ Hcandidate]] & Hdrop);
      [vm_compute; reflexivity..| |by exists index].
    exfalso. apply (Hnone (0, 3)).
    + apply (list_elem_of_lookup_2 _ 3%nat). vm_compute. reflexivity.
    + exists zero, one, zero. repeat split; vm_compute; reflexivity.
Defined.

(** X23 on [pathObject]: the footprint at cell 6 covers the cells 5 to 7. *)
Lemma single_pose_path_is_polygon_query_witness :
  pathOutcome (checkFootprintPath (G := Strip.core) (λ _, zero)
                 Examples.pathObject Inputs.polygonPosePath
                 Examples.emptyResult false)
  = Some (true, Fin (1 # 2), zero).
Proof.
  rewrite (single_pose_path_is_polygon_query (G := Strip.core) (λ _, zero)
             Examples.pathObject Inputs.polygonPosePath Examples.emptyResult
             false (Examples.poseAt 6));
    [vm_compute; reflexivity|reflexivity|reflexivity|reflexivity|discriminate].
Defined.
